(** * Study_Buddy: the rule-based communication-skills scorer

    A shallow embedding of [backend/services/transcription_service.py]
    (the "enhanced" analyzer) and of the legacy confidence calculator of
    [backend/services/transcription_service_broken.py], with the properties
    stated about them.

    Modelling conventions.
    - A Python [str] is a [string] whose characters are code points below
      256; [isspace] and [lower] follow Python on that range.
    - A Python [int] is a [Z].
    - A Python [float] is modelled by an exact rational ([Q]); [int(x)]
      truncates toward zero.  Every float comparison of the source is
      against a literal constant.
    - Exceptions are explicit: a computation that may raise has type
      [result A]; one that also draws from the process-wide random source
      has type [M A], a state-and-exception monad over [rng].
    - A Python [set] of strings is a [gset string].
    - A non-ASCII character of a string literal of the source appears as
      the bytes of its UTF-8 encoding. *)

From Stdlib Require Import ZArith QArith Lia Lqa List String Ascii Bool.
From Stdlib Require Import Qround Qminmax DecimalString Sorted.
From stdpp Require Import base option list gmap strings.
Import ListNotations.

Local Open Scope string_scope.
Local Open Scope list_scope.
Local Open Scope Z_scope.

(** ** Exceptions and the two monads *)

Inductive exn : Type :=
  | ZeroDivisionError
  | ValueError
  | ValidationError.

Definition str_of_exn (e : exn) : string :=
  match e with
  | ZeroDivisionError => "division by zero"
  | ValueError => "invalid value"
  | ValidationError => "validation error"
  end.

Inductive result (A : Type) : Type :=
  | Ok (a : A)
  | Raise (e : exn).
Arguments Ok {A} a.
Arguments Raise {A} e.

#[global] Instance result_ret : MRet result := fun A a => Ok a.
#[global] Instance result_bind : MBind result := fun A B f r =>
  match r with
  | Ok a => f a
  | Raise e => Raise e
  end.

(** The random source: the raw output sequence of the generator and the
    number of draws made so far. *)
Record rng : Type := { entropy : nat -> N; cursor : nat }.

Definition advance (g : rng) : rng :=
  {| entropy := entropy g; cursor := S (cursor g) |}.

Definition M (A : Type) : Type := rng -> result A * rng.

#[global] Instance M_ret : MRet M := fun A a g => (Ok a, g).
#[global] Instance M_bind : MBind M := fun A B f m g =>
  match m g with
  | (Ok a, g') => f a g'
  | (Raise e, g') => (Raise e, g')
  end.

Definition lift {A} (r : result A) : M A := fun g => (r, g).

(** [try: body except Exception as e: handler e] *)
Definition try_except {A} (body : M A) (handler : exn -> M A) : M A :=
  fun g =>
    match body g with
    | (Ok a, g') => (Ok a, g')
    | (Raise e, g') => handler e g'
    end.

(** ** Python primitives *)

Module Py.

(** [random.randint(a, b)]: a value in [[a, b]]; [ValueError] on an empty
    range. *)
Definition draw (a b : Z) (g : rng) : Z :=
  a + Z.of_N (entropy g (cursor g)) mod (b - a + 1).

Definition randint (a b : Z) : M Z := fun g =>
  if b <? a then (Raise ValueError, g) else (Ok (draw a b g), advance g).

(** [x / y] on numbers. *)
Definition truediv (x y : Q) : result Q :=
  if Qeq_bool y 0 then Raise ZeroDivisionError else Ok (x / y)%Q.

(** [int(x)] for a float [x]. *)
Definition int (x : Q) : Z := Z.quot (Qnum x) (Zpos (Qden x)).

(** [round(x, n)]: nearest multiple of [10^-n], ties to even. *)
Definition round_half_even (x : Q) : Z :=
  let f := Qfloor x in
  let r := (x - inject_Z f)%Q in
  match Qcompare r (1 # 2) with
  | Lt => f
  | Gt => f + 1
  | Eq => if Z.even f then f else f + 1
  end.

Definition round (x : Q) (n : nat) : Q :=
  (inject_Z (round_half_even (x * inject_Z (10 ^ Z.of_nat n))) / inject_Z (10 ^ Z.of_nat n))%Q.

Definition len {A} (l : list A) : Z := Z.of_nat (List.length l).
Definition strlen (s : string) : Z := Z.of_nat (String.length s).

(** [sum(l)] *)
Definition sum (l : list Z) : Z := fold_right Z.add 0 l.
Definition sumQ (l : list Q) : Q := fold_right Qplus 0%Q l.

(** [str(n)] and f-string interpolation of an [int]. *)
Definition str (n : Z) : string := NilZero.string_of_int (Z.to_int n).

(** [c.isspace()] *)
Definition isspace (c : ascii) : bool :=
  let n := N_of_ascii c in
  (((9 <=? n) && (n <=? 13)) || ((28 <=? n) && (n <=? 32)) || (n =? 133) || (n =? 160))%N.

Definition lower_char (c : ascii) : ascii :=
  let n := N_of_ascii c in
  if (((65 <=? n) && (n <=? 90))
      || ((192 <=? n) && (n <=? 222) && negb (n =? 215)))%N
  then ascii_of_N (n + 32) else c.

(** [s.lower()] *)
Fixpoint lower (s : string) : string :=
  match s with
  | EmptyString => EmptyString
  | String c r => String (lower_char c) (lower r)
  end.

Fixpoint lstrip_by (p : ascii -> bool) (s : string) : string :=
  match s with
  | EmptyString => EmptyString
  | String c r => if p c then lstrip_by p r else s
  end.

Fixpoint rstrip_by (p : ascii -> bool) (s : string) : string :=
  match s with
  | EmptyString => EmptyString
  | String c r =>
      match rstrip_by p r with
      | EmptyString => if p c then EmptyString else String c EmptyString
      | r' => String c r'
      end
  end.

Definition strip_by (p : ascii -> bool) (s : string) : string :=
  rstrip_by p (lstrip_by p s).

(** [s.strip()] *)
Definition strip (s : string) : string := strip_by isspace s.

Definition mem_char (chars : string) (c : ascii) : bool :=
  existsb (Ascii.eqb c) (list_ascii_of_string chars).

(** [s.strip(chars)]: removes the characters of [chars] at both ends. *)
Definition strip_chars (chars s : string) : string := strip_by (mem_char chars) s.

(** [s.rstrip(chars)] *)
Definition rstrip_chars (chars s : string) : string := rstrip_by (mem_char chars) s.

Definition snoc (s : string) (c : ascii) : string := s +:+ String c EmptyString.

Definition is_empty (s : string) : bool :=
  match s with EmptyString => true | _ => false end.

(** [s.split()]: the maximal runs of non-whitespace characters. *)
Fixpoint split_go (s cur : string) : list string :=
  match s with
  | EmptyString => if is_empty cur then [] else [cur]
  | String c r =>
      if isspace c
      then (if is_empty cur then split_go r EmptyString
            else cur :: split_go r EmptyString)
      else split_go r (snoc cur c)
  end.

Definition split (s : string) : list string := split_go s EmptyString.

Definition is_terminator (c : ascii) : bool :=
  (Ascii.eqb c "." || Ascii.eqb c "!" || Ascii.eqb c "?")%char.

(** [re.split(r'[.!?]+', s)]: the segments between maximal runs of
    terminators, empty segments at the ends included. *)
Fixpoint re_split_go (s cur : string) (in_run : bool) : list string :=
  match s with
  | EmptyString => [cur]
  | String c r =>
      if is_terminator c
      then (if in_run then re_split_go r EmptyString true
            else cur :: re_split_go r EmptyString true)
      else re_split_go r (snoc cur c) false
  end.

Definition re_split_terminators (s : string) : list string :=
  re_split_go s EmptyString false.

(** [sub in s] *)
Fixpoint contains (sub s : string) : bool :=
  String.prefix sub s
  || match s with
     | EmptyString => false
     | String _ r => contains sub r
     end.

(** [s.count(sub)]: occurrences found left to right without overlap. *)
Fixpoint count_go (sub s : string) (skip : nat) : Z :=
  match s with
  | EmptyString => if is_empty sub then 1 else 0
  | String _ r =>
      match skip with
      | S k => count_go sub r k
      | O => if String.prefix sub s
             then 1 + count_go sub r (String.length sub - 1)
             else count_go sub r 0
      end
  end.

Definition count (s sub : string) : Z := count_go sub s 0.

(** [sep.join(parts)] *)
Definition join (sep : string) (parts : list string) : string :=
  String.concat sep parts.

End Py.

(** ** Data model *)

(** The dictionary built by [_analyze_speech_patterns]. *)
Record SpeechAnalysis : Type := {
  filler_word_count : Z;
  complexity_score : Q;
  flow_score : Q;
  quality_rating : Q;
  has_questions : bool;
  has_exclamations : bool;
  formal_language_count : Z
}.

(** The ["detailed_analysis"] dictionary. *)
Record DetailedAnalysis : Type := {
  da_word_count : Z;
  da_sentence_count : Z;
  da_avg_words_per_sentence : Q;
  da_vocabulary_diversity : Q;
  da_speech_quality : Q;
  da_filler_words : Z;
  da_complexity_score : Q;
  da_transcription_length : Z
}.

(** The dictionary returned by [_analyze_communication_skills]. *)
Record AnalysisResults : Type := {
  res_clarity : Z;
  res_confidence : Z;
  res_articulation : Z;
  res_feedback : string;
  res_suggestions : string;
  res_detailed_analysis : DetailedAnalysis
}.

(** The [analysis] field of the output: [{"error": msg}] or the detailed
    analysis. *)
Inductive Analysis : Type :=
  | AnalysisError (msg : string)
  | AnalysisDetail (d : DetailedAnalysis).

Record TextEvaluationInput : Type := { input_transcription : string }.

Record TranscriptionEvaluationOutput : Type := {
  transcription : string;
  clarity : Z;
  confidence : Z;
  articulation : option Z;
  feedback : string;
  suggestions : option string;
  analysis : option Analysis
}.

Definition in_0_100 (n : Z) : bool := (0 <=? n) && (n <=? 100).

(** The constructor of the pydantic model: the three scores are validated
    against [ge=0, le=100]. *)
Definition new_TranscriptionEvaluationOutput
    (transcription : string) (clarity confidence articulation : Z)
    (feedback suggestions : string) (analysis : Analysis)
  : result TranscriptionEvaluationOutput :=
  if in_0_100 clarity && in_0_100 confidence && in_0_100 articulation
  then Ok {| transcription := transcription;
             clarity := clarity;
             confidence := confidence;
             articulation := Some articulation;
             feedback := feedback;
             suggestions := Some suggestions;
             analysis := Some analysis |}
  else Raise ValidationError.

(** ** Lexical feature extraction *)

Definition filler_words : list string :=
  ["um"; "uh"; "like"; "you know"; "actually"; "basically"; "literally";
   "sort of"; "kind of"].

Definition formal_words : list string :=
  ["therefore"; "however"; "moreover"; "furthermore"; "consequently"].

Definition mem_str (x : string) (l : list string) : bool :=
  existsb (String.eqb x) l.

Definition truthy {A} (l : list A) : bool :=
  match l with [] => false | _ => true end.

(** [sum(1 for x in l if p x)] *)
Definition count_if {A} (p : A -> bool) (l : list A) : Z :=
  Py.sum (map (fun _ => 1) (List.filter p l)).

(** [sum(k for x in l if x in text)] *)
Definition bonus_per_hit (k : Z) (l : list string) (text : string) : Z :=
  Py.sum (map (fun _ => k) (List.filter (fun x => Py.contains x text) l)).

(** [[s.strip() for s in re.split(r'[.!?]+', transcription) if s.strip()]] *)
Definition sentences_of (transcription : string) : list string :=
  map Py.strip
      (List.filter (fun s => negb (Py.is_empty (Py.strip s)))
                   (Py.re_split_terminators transcription)).

(** [_analyze_speech_patterns].  The divisions by [len(sentences)] are
    guarded by [if sentences], the others are by literals. *)
Definition analyze_speech_patterns
    (transcription : string) (words : list string) (word_count : Z)
  : result SpeechAnalysis :=
  let filler_word_count :=
    Py.sum (map (fun filler => Py.count (Py.lower transcription) filler) filler_words) in
  let sentences := sentences_of transcription in
  let complex_sentences := count_if (fun s => Py.len (Py.split s) >? 15) sentences in
  complexity_score ←
    (if truthy sentences
     then Py.truediv (inject_Z complex_sentences) (inject_Z (Py.len sentences))
     else Ok 0%Q);
  let short_sentences := count_if (fun s => Py.len (Py.split s) <? 5) sentences in
  flow_score ←
    (if truthy sentences
     then r ← Py.truediv (inject_Z short_sentences) (inject_Z (Py.len sentences));
          Ok (1 - r)%Q
     else Ok 0%Q);
  filler_ratio ← Py.truediv (inject_Z filler_word_count) 10;
  length_ratio ← Py.truediv (inject_Z word_count) 50;
  let quality_factors :=
    [ (1 - Qmin filler_ratio (1 # 2))%Q;
      Qmin complexity_score 1;
      flow_score;
      Qmin length_ratio 1 ] in
  quality_rating ←
    Py.truediv (Py.sumQ quality_factors) (inject_Z (Py.len quality_factors));
  Ok {| filler_word_count := filler_word_count;
        complexity_score := complexity_score;
        flow_score := flow_score;
        quality_rating := quality_rating;
        has_questions := Py.contains "?" transcription;
        has_exclamations := Py.contains "!" transcription;
        formal_language_count :=
          count_if (fun word => mem_str (Py.lower word) formal_words) words |}.

(** The characters that [strip] is given for a word: the six marks below
    and the double quote (code 34). *)
Definition word_punctuation : string := ".,!?;:" +:+ String "034"%char EmptyString.

(** [set(word.lower().strip(word_punctuation) for word in words)] *)
Definition unique_words_of (words : list string) : gset string :=
  list_to_set (map (fun word => Py.strip_chars word_punctuation (Py.lower word)) words).

(** [len(unique_words) / len(words) if words else 0] *)
Definition vocabulary_diversity_of (words : list string) : result Q :=
  if truthy words
  then Py.truediv (inject_Z (Z.of_nat (size (unique_words_of words))))
                  (inject_Z (Py.len words))
  else Ok 0%Q.

(** ** Score calculators *)

Definition clarity_indicators : list string :=
  ["clear"; "understand"; "explain"; "simple"; "direct"; "obvious"; "apparent"].

(** [lo <= x <= hi] *)
Definition between (lo x hi : Q) : bool := Qle_bool lo x && Qle_bool x hi.

(** [_calculate_enhanced_clarity_score]: only an upper clamp. *)
Definition calculate_enhanced_clarity_score
    (transcription : string) (word_count : Z) (avg_words_per_sentence : Q)
    (speech_analysis : SpeechAnalysis) : Z :=
  let base_score := 60 in
  let base_score :=
    if between 8 avg_words_per_sentence 18 then base_score + 12
    else if between 5 avg_words_per_sentence 25 then base_score + 6
    else base_score in
  let base_score :=
    if word_count >=? 25 then base_score + 10
    else if word_count >=? 15 then base_score + 5
    else base_score in
  let clarity_bonus := bonus_per_hit 4 clarity_indicators (Py.lower transcription) in
  let filler_penalty := Z.min 15 (filler_word_count speech_analysis * 2) in
  let quality_bonus := Py.int (quality_rating speech_analysis * 10) in
  Z.min 100 (base_score + clarity_bonus - filler_penalty + quality_bonus).

Definition strong_confidence : list string :=
  ["believe"; "confident"; "excited"; "passionate"; "sure"; "certain";
   "definitely"; "absolutely"].
Definition moderate_confidence : list string :=
  ["think"; "feel"; "hope"; "suggest"; "recommend"; "consider"].
Definition leadership_words : list string :=
  ["lead"; "guide"; "direct"; "manage"; "organize"; "plan"; "decide"].
Definition uncertainty_words : list string :=
  ["maybe"; "perhaps"; "possibly"; "might"; "could"; "should"; "would"].

(** [_calculate_enhanced_confidence_score]: clamped to [30, 100]. *)
Definition calculate_enhanced_confidence_score
    (transcription : string) (speech_analysis : SpeechAnalysis) : Z :=
  let base_score := 55 in
  let strong_bonus := bonus_per_hit 6 strong_confidence (Py.lower transcription) in
  let moderate_bonus := bonus_per_hit 3 moderate_confidence (Py.lower transcription) in
  let leadership_bonus := bonus_per_hit 5 leadership_words (Py.lower transcription) in
  let uncertainty_penalty := bonus_per_hit 3 uncertainty_words (Py.lower transcription) in
  let filler_penalty := Z.min 20 (filler_word_count speech_analysis * 3) in
  let formal_bonus := Z.min 10 (formal_language_count speech_analysis * 3) in
  let total_score :=
    base_score + strong_bonus + moderate_bonus + leadership_bonus
    - uncertainty_penalty - filler_penalty + formal_bonus in
  Z.min 100 (Z.max 30 total_score).

Definition articulation_words : list string :=
  ["articulate"; "express"; "communicate"; "convey"; "describe"; "explain";
   "elaborate"; "detail"].

Definition Qgt_bool (x y : Q) : bool := negb (Qle_bool x y).
Definition Qlt_bool (x y : Q) : bool := negb (Qle_bool y x).

(** [_calculate_enhanced_articulation_score]: clamped to [35, 100]. *)
Definition calculate_enhanced_articulation_score
    (transcription : string) (word_count : Z) (vocabulary_diversity : Q)
    (speech_analysis : SpeechAnalysis) : Z :=
  let base_score := 65 in
  let base_score :=
    if word_count >=? 35 then base_score + 12
    else if word_count >=? 25 then base_score + 8
    else if word_count >=? 15 then base_score + 4
    else base_score in
  let base_score :=
    if Qgt_bool vocabulary_diversity (8 # 10) then base_score + 15
    else if Qgt_bool vocabulary_diversity (6 # 10) then base_score + 10
    else if Qgt_bool vocabulary_diversity (4 # 10) then base_score + 5
    else base_score in
  let articulation_bonus := bonus_per_hit 4 articulation_words (Py.lower transcription) in
  let complexity_bonus := Py.int (complexity_score speech_analysis * 15) in
  let flow_bonus := Py.int (flow_score speech_analysis * 10) in
  let base_score :=
    if Qlt_bool (flow_score speech_analysis) (3 # 10) then base_score - 10
    else base_score in
  let engagement_bonus := 0 in
  let engagement_bonus :=
    if has_questions speech_analysis then engagement_bonus + 5 else engagement_bonus in
  let engagement_bonus :=
    if has_exclamations speech_analysis then engagement_bonus + 3 else engagement_bonus in
  let total_score :=
    base_score + articulation_bonus + complexity_bonus + flow_bonus + engagement_bonus in
  Z.min 100 (Z.max 35 total_score).

(** ** Variation injector and fallback generator *)

(** [_add_natural_variation] *)
Definition add_natural_variation (base_score word_count : Z) : M Z :=
  let variation_range := Z.min 15 (Z.max 5 (word_count / 10)) in
  variation ← Py.randint (- variation_range) variation_range;
  mret (Z.min 100 (Z.max 40 (base_score + variation))).

Definition fallback_suggestions : string :=
  "Try speaking more clearly and with better pronunciation. Practice regularly to improve your communication skills.".

Definition fallback_detailed_analysis : DetailedAnalysis :=
  {| da_word_count := 0;
     da_sentence_count := 0;
     da_avg_words_per_sentence := 0;
     da_vocabulary_diversity := 0;
     da_speech_quality := 5 # 10;
     da_filler_words := 0;
     da_complexity_score := 0;
     da_transcription_length := 0 |}.

(** [_generate_random_evaluation]: the three base scores are drawn first,
    then one jitter for each; unpacking the list of scores into three names
    raises [ValueError] on any other length. *)
Definition generate_random_evaluation (reason : string) : M AnalysisResults :=
  base_scores ← mapM (fun _ : nat => Py.randint 65 85) (seq 0 3);
  scores ← mapM (fun score =>
                   jitter ← Py.randint (-10) 10;
                   mret (Z.min 100 (Z.max 40 (score + jitter)))) base_scores;
  match scores with
  | [clarity; confidence; articulation] =>
      mret {| res_clarity := clarity;
              res_confidence := confidence;
              res_articulation := articulation;
              res_feedback :=
                reason +:+ ". Your speech shows " +:+ Py.str clarity
                +:+ "% clarity, " +:+ Py.str confidence
                +:+ "% confidence, and " +:+ Py.str articulation
                +:+ "% articulation.";
              res_suggestions := fallback_suggestions;
              res_detailed_analysis := fallback_detailed_analysis |}
  | _ => lift (Raise ValueError)
  end.

(** ** Feedback and suggestion composer *)

Module Feedback.

Definition overall_excellent : string :=
  "Excellent communication skills! Your speech demonstrates high proficiency across all areas.".
Definition overall_very_good : string :=
  "Very good communication skills. You show strong abilities with room for refinement.".
Definition overall_good : string :=
  "Good communication skills. You have a solid foundation to build upon.".
Definition overall_developing : string :=
  "Developing communication skills. Focus on the areas mentioned below for improvement.".
Definition overall_needs_work : string :=
  "Communication skills need development. Practice the suggested areas to improve.".

Definition clarity_high : string :=
  "Your speech is very clear and easy to understand. Words are well-pronounced and your message comes across effectively.".
Definition clarity_mid : string :=
  "Your speech is generally clear, though some words could be more distinct. Focus on enunciation for better clarity.".
Definition clarity_low : string :=
  "Your speech clarity needs improvement. Try speaking more slowly and focusing on pronouncing each word clearly.".

Definition confidence_high : string :=
  "You speak with strong confidence and assurance. Your tone is assertive and your message is delivered with conviction.".
Definition confidence_mid : string :=
  "You show moderate confidence in your speech. While you convey your message, adding more assertiveness would strengthen your delivery.".
Definition confidence_low : string :=
  "Your confidence level could be improved. Try to speak with more conviction and use more definitive language.".

Definition articulation_high : string :=
  "You articulate your thoughts exceptionally well. Your ideas are well-organized and expressed with precision.".
Definition articulation_mid : string :=
  "Your articulation is good, but could be more precise. Work on organizing your thoughts more coherently.".
Definition articulation_low : string :=
  "Your articulation needs improvement. Focus on structuring your thoughts and expressing them more clearly.".

Definition filler_note (n : Z) : string :=
  "You used " +:+ Py.str n +:+ " filler words, which can distract from your message.".
Definition complexity_good : string :=
  "You demonstrate good sentence complexity, showing advanced communication skills.".
Definition complexity_simple : string :=
  "Your sentences tend to be simple. Try using more complex sentence structures to express sophisticated ideas.".
Definition flow_good : string :=
  "Excellent speech flow and rhythm. Your delivery is smooth and engaging.".
Definition flow_poor : string :=
  "Your speech flow could be improved. Work on connecting ideas more smoothly.".

(** The sentences of each band, as the composer can select them. *)
Definition overall_band : list string :=
  [overall_excellent; overall_very_good; overall_good; overall_developing;
   overall_needs_work].
Definition clarity_band : list string := [clarity_high; clarity_mid; clarity_low].
Definition confidence_band : list string :=
  [confidence_high; confidence_mid; confidence_low].
Definition articulation_band : list string :=
  [articulation_high; articulation_mid; articulation_low].

End Feedback.

(** The situational sentences appended after the four band sentences. *)
Definition situational_notes (speech_analysis : SpeechAnalysis) : list string :=
  let feedback_parts := [] in
  let feedback_parts :=
    if filler_word_count speech_analysis >? 3
    then feedback_parts ++ [Feedback.filler_note (filler_word_count speech_analysis)]
    else feedback_parts in
  let feedback_parts :=
    if Qgt_bool (complexity_score speech_analysis) (7 # 10)
    then feedback_parts ++ [Feedback.complexity_good]
    else if Qlt_bool (complexity_score speech_analysis) (3 # 10)
    then feedback_parts ++ [Feedback.complexity_simple]
    else feedback_parts in
  let feedback_parts :=
    if Qgt_bool (flow_score speech_analysis) (8 # 10)
    then feedback_parts ++ [Feedback.flow_good]
    else if Qlt_bool (flow_score speech_analysis) (5 # 10)
    then feedback_parts ++ [Feedback.flow_poor]
    else feedback_parts in
  feedback_parts.

(** The three-way choice [>= 80], [>= 60], otherwise, made for each score. *)
Definition band3 (score : Z) (high mid low : string) : string :=
  if score >=? 80 then high else if score >=? 60 then mid else low.

(** The list [feedback_parts] of [_generate_enhanced_feedback], in the
    order of its [append]s. *)
Definition feedback_parts_of
    (overall_score : Q) (clarity_score confidence_score articulation_score : Z)
    (speech_analysis : SpeechAnalysis) : list string :=
  let feedback_parts := [] in
  let feedback_parts :=
    feedback_parts ++
    [ if Qle_bool 85 overall_score then Feedback.overall_excellent
      else if Qle_bool 75 overall_score then Feedback.overall_very_good
      else if Qle_bool 65 overall_score then Feedback.overall_good
      else if Qle_bool 55 overall_score then Feedback.overall_developing
      else Feedback.overall_needs_work ] in
  let feedback_parts :=
    feedback_parts ++
    [ band3 clarity_score Feedback.clarity_high Feedback.clarity_mid Feedback.clarity_low ] in
  let feedback_parts :=
    feedback_parts ++
    [ band3 confidence_score Feedback.confidence_high Feedback.confidence_mid
            Feedback.confidence_low ] in
  let feedback_parts :=
    feedback_parts ++
    [ band3 articulation_score Feedback.articulation_high Feedback.articulation_mid
            Feedback.articulation_low ] in
  feedback_parts ++ situational_notes speech_analysis.

(** [_generate_enhanced_feedback] *)
Definition generate_enhanced_feedback
    (clarity_score confidence_score articulation_score : Z)
    (transcription : string) (speech_analysis : SpeechAnalysis) : result string :=
  overall_score ←
    Py.truediv (inject_Z (clarity_score + confidence_score + articulation_score)) 3;
  Ok (Py.join " "
        (feedback_parts_of overall_score clarity_score confidence_score
                           articulation_score speech_analysis)).

Definition newline : string := String "010"%char EmptyString.

(** [_generate_enhanced_suggestions] *)
Definition generate_enhanced_suggestions
    (clarity_score confidence_score articulation_score : Z)
    (speech_analysis : SpeechAnalysis) : string :=
  let suggestions := [] in
  let suggestions :=
    if clarity_score <? 70
    then suggestions ++
         [ "🎯 **Clarity Improvement:**";
           "• Practice speaking 20% slower than your normal pace";
           "• Record yourself reading a paragraph and analyze unclear words";
           "• Focus on mouth movements and tongue placement for difficult sounds";
           "• Use tongue twisters daily to improve diction" ]
    else suggestions in
  let suggestions :=
    if confidence_score <? 70
    then suggestions ++
         [ "💪 **Confidence Building:**";
           "• Practice power poses before speaking";
           "• Start with smaller groups and gradually increase audience size";
           "• Use positive affirmations and visualize successful speaking";
           "• Replace hesitant language with assertive statements" ]
    else suggestions in
  let suggestions :=
    if articulation_score <? 70
    then suggestions ++
         [ "🗣️ **Articulation Enhancement:**";
           "• Outline key points before speaking";
           "• Practice the PREP method: Point, Reason, Example, Point";
           "• Read aloud daily to improve thought organization";
           "• Learn and use 5 new vocabulary words each week" ]
    else suggestions in
  let suggestions :=
    if filler_word_count speech_analysis >? 5
    then suggestions ++
         [ "🚫 **Reduce Filler Words:**";
           "• Practice pausing instead of using 'um', 'uh', 'like'";
           "• Record yourself and count filler words";
           "• Use the 'chunking' technique: group words into meaningful phrases" ]
    else suggestions in
  let suggestions :=
    if Qlt_bool (complexity_score speech_analysis) (4 # 10)
    then suggestions ++
         [ "📚 **Sentence Complexity:**";
           "• Practice combining simple sentences with conjunctions";
           "• Use subordinate clauses to add depth to your statements";
           "• Study complex sentence structures in professional writing" ]
    else suggestions in
  let suggestions :=
    if Qlt_bool (flow_score speech_analysis) (6 # 10)
    then suggestions ++
         [ "🌊 **Improve Speech Flow:**";
           "• Use transition words between ideas";
           "• Practice speaking in a rhythmic, natural pattern";
           "• Avoid long pauses that break the flow of your message" ]
    else suggestions in
  let suggestions :=
    if (clarity_score >=? 80) && (confidence_score >=? 80) && (articulation_score >=? 80)
    then suggestions ++
         [ "🌟 **Advanced Development:**";
           "• Practice impromptu speaking on complex topics";
           "• Study rhetorical devices and persuasive techniques";
           "• Consider joining Toastmasters or similar speaking groups";
           "• Work on vocal variety and emotional expression" ]
    else suggestions in
  let suggestions :=
    suggestions ++
    [ "📈 **Daily Practice:**";
      "• Set aside 15 minutes daily for focused speaking practice";
      "• Use a mirror to observe facial expressions and body language";
      "• Listen to professional speakers and analyze their techniques";
      "• Seek feedback from others and track your progress over time" ] in
  Py.join newline suggestions.

(** ** The analyzer and the text-evaluation operation *)

Definition fallback_reason : string :=
  "No speech detected or transcription too short".

(** [_analyze_communication_skills] *)
Definition analyze_communication_skills (transcription : string) : M AnalysisResults :=
  if Py.is_empty transcription || (Py.strlen (Py.strip transcription) <? 10)
  then generate_random_evaluation fallback_reason
  else
    let words := Py.split transcription in
    let word_count := Py.len words in
    let sentence_count := Py.len (Py.re_split_terminators transcription) - 1 in
    avg_words_per_sentence ←
      lift (Py.truediv (inject_Z word_count) (inject_Z (Z.max sentence_count 1)));
    vocabulary_diversity ← lift (vocabulary_diversity_of words);
    speech_analysis ← lift (analyze_speech_patterns transcription words word_count);
    let clarity_score :=
      calculate_enhanced_clarity_score transcription word_count
        avg_words_per_sentence speech_analysis in
    let confidence_score :=
      calculate_enhanced_confidence_score transcription speech_analysis in
    let articulation_score :=
      calculate_enhanced_articulation_score transcription word_count
        vocabulary_diversity speech_analysis in
    clarity_score ← add_natural_variation clarity_score word_count;
    confidence_score ← add_natural_variation confidence_score word_count;
    articulation_score ← add_natural_variation articulation_score word_count;
    feedback ←
      lift (generate_enhanced_feedback clarity_score confidence_score
              articulation_score transcription speech_analysis);
    let suggestions :=
      generate_enhanced_suggestions clarity_score confidence_score
        articulation_score speech_analysis in
    mret {| res_clarity := clarity_score;
            res_confidence := confidence_score;
            res_articulation := articulation_score;
            res_feedback := feedback;
            res_suggestions := suggestions;
            res_detailed_analysis :=
              {| da_word_count := word_count;
                 da_sentence_count := sentence_count;
                 da_avg_words_per_sentence := Py.round avg_words_per_sentence 1;
                 da_vocabulary_diversity := Py.round vocabulary_diversity 2;
                 da_speech_quality := quality_rating speech_analysis;
                 da_filler_words := filler_word_count speech_analysis;
                 da_complexity_score := complexity_score speech_analysis;
                 da_transcription_length := Py.strlen transcription |} |}.

(** [evaluate_text_only]: the body of its [try] block, its [except]
    handler, and the method itself.  The analyzer, which the method reaches
    through [self], is a parameter. *)
Definition evaluate_text_only_body
    (analyze : string -> M AnalysisResults) (input_data : TextEvaluationInput)
  : M TranscriptionEvaluationOutput :=
  let transcription := Py.strip (input_transcription input_data) in
  if Py.is_empty transcription
  then lift (new_TranscriptionEvaluationOutput
               "No text provided for evaluation." 0 0 0
               "Please provide some text to evaluate your communication skills."
               "Try speaking for at least 3-5 seconds and then click stop recording."
               (AnalysisError "Empty transcription"))
  else
    analysis_results ← analyze transcription;
    lift (new_TranscriptionEvaluationOutput
            transcription
            (res_clarity analysis_results)
            (res_confidence analysis_results)
            (res_articulation analysis_results)
            (res_feedback analysis_results)
            (res_suggestions analysis_results)
            (AnalysisDetail (res_detailed_analysis analysis_results))).

Definition evaluate_text_only_handler (e : exn) : M TranscriptionEvaluationOutput :=
  lift (new_TranscriptionEvaluationOutput
          "Error evaluating text. Please try again." 50 50 50
          "There was an error analyzing your text. Please try again."
          "Try recording your speech again."
          (AnalysisError (str_of_exn e))).

Definition evaluate_text_only_with
    (analyze : string -> M AnalysisResults) (input_data : TextEvaluationInput)
  : M TranscriptionEvaluationOutput :=
  try_except (evaluate_text_only_body analyze input_data) evaluate_text_only_handler.

Definition evaluate_text_only : TextEvaluationInput -> M TranscriptionEvaluationOutput :=
  evaluate_text_only_with analyze_communication_skills.

(** ** The legacy confidence calculator *)

Module Legacy.

Definition positive_keywords : list string :=
  ["effective"; "clear"; "good"; "excellent"; "confident"; "passionate";
   "important"; "essential"; "success"; "improve"; "better"; "understand"].

(** [keyword_count] as the legacy analyzer computes it. *)
Definition keyword_count_of (transcription : string) : Z :=
  count_if (fun keyword => Py.contains (Py.lower keyword) (Py.lower transcription))
           positive_keywords.

Definition confidence_indicators : list string :=
  ["believe"; "confident"; "excited"; "passionate"; "sure"; "certain"].
Definition hesitation_words : list string :=
  ["um"; "uh"; "like"; "you know"; "actually"; "basically"].

(** [_calculate_confidence_score] of the legacy service: clamped to
    [0, 100]. *)
Definition calculate_confidence_score (transcription : string) (keyword_count : Z) : Z :=
  let base_score := 65 in
  let base_score := base_score + Z.min 20 (keyword_count * 3) in
  let confidence_bonus :=
    bonus_per_hit 5 confidence_indicators (Py.lower transcription) in
  let hesitation_penalty :=
    bonus_per_hit 3 hesitation_words (Py.lower transcription) in
  Z.max 0 (Z.min 100 (base_score + confidence_bonus - hesitation_penalty)).

End Legacy.

(** A random source for the examples: the raw outputs 0, 7, 14, ... *)
Definition rng0 : rng := {| entropy := fun n => N.of_nat (7 * n); cursor := 0 |}.

Definition scenario : string :=
  "Hello my name is John and I like programming. I am confident and excited about this opportunity.".

(** ** Definitions used to state the properties *)

(** The clamp of the specification, by cases. *)
Definition clamp (lo hi x : Z) : Z :=
  if x <? lo then lo else if hi <? x then hi else x.

Definition variation_range (word_count : Z) : Z := clamp 5 15 (word_count / 10).

(** The state of the random source after [n] draws. *)
Definition after (n : nat) (g : rng) : rng := Nat.iter n advance g.

(** The invariant of a feature set: ratios in [0, 1], counts non-negative. *)
Definition unit_interval (x : Q) : Prop := (0 <= x /\ x <= 1)%Q.

Definition feature_invariant (sa : SpeechAnalysis) : Prop :=
  0 <= filler_word_count sa
  /\ 0 <= formal_language_count sa
  /\ unit_interval (complexity_score sa)
  /\ unit_interval (flow_score sa)
  /\ unit_interval (quality_rating sa).

(** The four components of the speech-quality rating. *)
Definition quality_components (sa : SpeechAnalysis) (word_count : Z) : list Q :=
  [ (1 - Qmin (inject_Z (filler_word_count sa) / 10) (1 # 2))%Q;
    Qmin (complexity_score sa) 1;
    flow_score sa;
    Qmin (inject_Z word_count / 50) 1 ].

(** A feature set with its filler-word count replaced, all else fixed. *)
Definition with_filler_count (sa : SpeechAnalysis) (n : Z) : SpeechAnalysis :=
  {| filler_word_count := n;
     complexity_score := complexity_score sa;
     flow_score := flow_score sa;
     quality_rating := quality_rating sa;
     has_questions := has_questions sa;
     has_exclamations := has_exclamations sa;
     formal_language_count := formal_language_count sa |}.

(** The feature set with every count and ratio at zero. *)
Definition blank_features : SpeechAnalysis :=
  {| filler_word_count := 0;
     complexity_score := 0;
     flow_score := 0;
     quality_rating := 0;
     has_questions := false;
     has_exclamations := false;
     formal_language_count := 0 |}.

(** The average sentence length as the analyzer computes it. *)
Definition avg_words_per_sentence_of (t : string) : result Q :=
  Py.truediv (inject_Z (Py.len (Py.split t)))
             (inject_Z (Z.max (Py.len (Py.re_split_terminators t) - 1) 1)).

(** The pre-jitter clarity and confidence of a transcript, computed from
    its extracted features with [extra] added to the filler-word count and
    everything else, the quality rating included, left as extracted. *)
Definition pre_jitter_scores (t : string) (extra : Z) : result (Z * Z) :=
  let words := Py.split t in
  let word_count := Py.len words in
  avg ← avg_words_per_sentence_of t;
  sa ← analyze_speech_patterns t words word_count;
  let sa' := with_filler_count sa (filler_word_count sa + extra) in
  Ok (calculate_enhanced_clarity_score t word_count avg sa',
      calculate_enhanced_confidence_score t sa').

(** A transcript with eight filler words, and one whose bonuses exceed the
    ceiling of both scores. *)
Definition hesitant_transcript : string :=
  "um uh um uh um uh um uh this is what we want to do".

Definition assured_transcript : string :=
  "I believe this is clear, simple and easy to understand and explain. I am confident, excited, passionate, sure and certain that I will definitely and absolutely lead.".

(** The number of distinct elements of a list. *)
Definition distinct (l : list string) : nat := List.length (remove_dups l).

(** Vocabulary diversity in the words of the specification: lowercase each
    word, strip TRAILING punctuation, count the distinct forms, divide by
    the word count (0 without words). *)
Definition vocabulary_diversity_trailing (words : list string) : Q :=
  if truthy words
  then (inject_Z (Z.of_nat (distinct (map (fun word =>
          Py.rstrip_chars word_punctuation (Py.lower word)) words)))
        / inject_Z (Py.len words))%Q
  else 0%Q.

(** The same with punctuation stripped at BOTH ends of each word. *)
Definition vocabulary_diversity_both_ends (words : list string) : Q :=
  if truthy words
  then (inject_Z (Z.of_nat (distinct (map (fun word =>
          Py.strip_chars word_punctuation (Py.lower word)) words)))
        / inject_Z (Py.len words))%Q
  else 0%Q.

(** A complete evaluation record: none of its optional fields is left
    out. *)
Definition is_complete (out : TranscriptionEvaluationOutput) : Prop :=
  is_Some (articulation out) /\ is_Some (suggestions out) /\ is_Some (analysis out).

(** The fixed degraded result of the text-evaluation operation. *)
Definition is_degraded (out : TranscriptionEvaluationOutput) : Prop :=
  clarity out = 50
  /\ confidence out = 50
  /\ articulation out = Some 50
  /\ feedback out = "There was an error analyzing your text. Please try again.".

(** An analyzer that fails, and one that returns a score out of range. *)
Definition failing_analyzer (_ : string) : M AnalysisResults :=
  lift (Raise ZeroDivisionError).

Definition overshooting_analyzer (_ : string) : M AnalysisResults :=
  mret {| res_clarity := 150;
          res_confidence := 60;
          res_articulation := 60;
          res_feedback := "";
          res_suggestions := "";
          res_detailed_analysis := fallback_detailed_analysis |}.

(** The guard of the analyzer: empty, or shorter than 10 once trimmed. *)
Definition too_short (t : string) : bool :=
  Py.is_empty t || (Py.strlen (Py.strip t) <? 10).

(** * The rest of the transcription service *)

(** ** Exceptions and state beyond the analyzer *)

(** The exceptions of the audio path, the history store and the endpoints:
    those of the analyzer ([Builtin]), the further built-in ones, any
    exception of an external library ([External], with its text), and
    FastAPI's [HTTPException]. *)
Inductive py_exn : Type :=
  | Builtin (e : exn)
  | TypeError
  | IndexError
  | OSError (msg : string)
  | External (msg : string)
  | HTTPException (status_code : Z) (detail : string).

Inductive outcome (A : Type) : Type :=
  | Returned (a : A)
  | Thrown (e : py_exn).
Arguments Returned {A} a.
Arguments Thrown {A} e.

#[global] Instance outcome_ret : MRet outcome := fun A a => Returned a.
#[global] Instance outcome_bind : MBind outcome := fun A B f r =>
  match r with
  | Returned a => f a
  | Thrown e => Thrown e
  end.

(** A computation on a state [S] that may raise. *)
Definition ST (S A : Type) : Type := S -> outcome A * S.

#[global] Instance ST_ret {S} : MRet (ST S) := fun A a s => (Returned a, s).
#[global] Instance ST_bind {S} : MBind (ST S) := fun A B f m s =>
  match m s with
  | (Returned a, s') => f a s'
  | (Thrown e, s') => (Thrown e, s')
  end.

Definition pure_outcome {S A} (r : outcome A) : ST S A := fun s => (r, s).

Definition of_result {A} (r : result A) : outcome A :=
  match r with
  | Ok a => Returned a
  | Raise e => Thrown (Builtin e)
  end.

(** A computation of the analyzer, run inside the audio path. *)
Definition of_M {A} (m : M A) : ST rng A := fun g =>
  match m g with
  | (r, g') => (of_result r, g')
  end.

Definition ST_try_except {S A} (body : ST S A) (handler : py_exn -> ST S A) : ST S A :=
  fun s =>
    match body s with
    | (Returned a, s') => (Returned a, s')
    | (Thrown e, s') => handler e s'
    end.

(** [str(e)]; the text of an [HTTPException] is left to [describe_http]. *)
Definition str_of_py_exn (describe_http : Z -> string -> string) (e : py_exn) : string :=
  match e with
  | Builtin e => str_of_exn e
  | TypeError => "object of type 'NoneType' has no len()"
  | IndexError => "list index out of range"
  | OSError msg => msg
  | External msg => msg
  | HTTPException status_code detail => describe_http status_code detail
  end.

(** [str(e)] where no [HTTPException] can arrive. *)
Definition str_of_service_exn : py_exn -> string :=
  str_of_py_exn (fun _ detail => detail).

(** ** Recognising the service's own fallback messages *)

Definition fallback_patterns : list string :=
  [ "i couldn't understand what you said";
    "please try again with these tips";
    "audio recording appears to be empty";
    "audio processing failed";
    "could not understand audio";
    "speech recognition service unavailable" ].

(** [_is_fallback_message]: the patterns hold no regular-expression
    operator, so [re.search] is a substring test. *)
Definition is_fallback_message (transcription : string) : bool :=
  existsb (fun pattern => Py.contains pattern (Py.lower transcription)) fallback_patterns.

(** ** Validity of a recognised transcription *)

Definition code_between (lo hi : N) (c : ascii) : bool :=
  ((lo <=? N_of_ascii c) && (N_of_ascii c <=? hi))%N.

(** [[a-zA-Z]] *)
Definition is_ascii_letter (c : ascii) : bool :=
  code_between 65 90 c || code_between 97 122 c.

(** [[0-9]] *)
Definition is_ascii_digit (c : ascii) : bool := code_between 48 57 c.

(** [\w] on a [str]: alphanumeric in the sense of [str.isalnum], or the
    underscore. *)
Definition is_word_char (c : ascii) : bool :=
  is_ascii_letter c || is_ascii_digit c || (N_of_ascii c =? 95)%N
  || (N_of_ascii c =? 170)%N || (N_of_ascii c =? 178)%N || (N_of_ascii c =? 179)%N
  || (N_of_ascii c =? 181)%N || (N_of_ascii c =? 185)%N || (N_of_ascii c =? 186)%N
  || code_between 188 190 c || code_between 192 214 c || code_between 216 246 c
  || code_between 248 255 c.

Definition is_vowel (c : ascii) : bool :=
  Py.mem_char "aeiou" c.

Fixpoint all_chars (p : ascii -> bool) (s : string) : bool :=
  match s with
  | EmptyString => true
  | String c r => p c && all_chars p r
  end.

(** [^[^a-zA-Z]*$] *)
Definition matches_no_letters (s : string) : bool :=
  all_chars (fun c => negb (is_ascii_letter c)) s.

(** [^[0-9\s\W]*$] *)
Definition matches_numbers_symbols (s : string) : bool :=
  all_chars (fun c => is_ascii_digit c || Py.isspace c || negb (is_word_char c)) s.

(** [^[aeiou\s]*$] *)
Definition matches_vowels_spaces (s : string) : bool :=
  all_chars (fun c => is_vowel c || Py.isspace c) s.

Definition is_newline (c : ascii) : bool := (N_of_ascii c =? 10)%N.

(** The rest of a match of [(.)\1{3,}$] after the group matched [c] and
    [seen] repetitions were consumed: more repetitions, then the end of the
    string or a final newline. *)
Fixpoint repeats_to_end (c : ascii) (seen : nat) (s : string) : bool :=
  match s with
  | EmptyString => (3 <=? seen)%nat
  | String d r =>
      (Ascii.eqb d c && repeats_to_end c (S seen) r)
      || ((3 <=? seen)%nat && is_newline d && Py.is_empty r)
  end.

(** [^(.)\1{3,}$]: one character other than a newline, at least four times. *)
Definition matches_repeated_char (s : string) : bool :=
  match s with
  | EmptyString => false
  | String c r => negb (is_newline c) && repeats_to_end c 0 r
  end.

(** [set(cleaned)] *)
Definition char_set (s : string) : gset ascii := list_to_set (list_ascii_of_string s).

(** [_is_valid_transcription]; [None] stands for Python's [None] and for
    any value that is not a [str]. *)
Definition is_valid_transcription (transcription : option string) : bool :=
  match transcription with
  | None => false
  | Some transcription =>
      if Py.is_empty transcription then false
      else
        let cleaned := Py.lower (Py.strip transcription) in
        if Py.strlen cleaned <? 2 then false
        else if matches_no_letters cleaned then false
        else if (Z.of_nat (size (char_set cleaned)) <=? 2) && (Py.strlen cleaned >? 5)
        then false
        else
          negb (existsb (fun pattern => pattern cleaned)
                  [ matches_no_letters;
                    matches_numbers_symbols;
                    matches_repeated_char;
                    matches_vowels_spaces ])
  end.

(** ** Transcribing the audio *)

(** [s.split(sep)] for a one-character separator: every occurrence
    separates, empty pieces included. *)
Fixpoint split_on_go (sep : ascii) (s cur : string) : list string :=
  match s with
  | EmptyString => [cur]
  | String c r =>
      if Ascii.eqb c sep then cur :: split_on_go sep r EmptyString
      else split_on_go sep r (Py.snoc cur c)
  end.

Definition split_on (sep : ascii) (s : string) : list string :=
  split_on_go sep s EmptyString.

(** [l[i]] *)
Definition item {A} (l : list A) (i : nat) : outcome A :=
  match nth_error l i with
  | Some x => Returned x
  | None => Thrown IndexError
  end.

(** [audio_format.split(';')[0].split('/')[1] if '/' in audio_format
     else audio_format.split(';')[0]] *)
Definition clean_format_of (audio_format : string) : outcome string :=
  if Py.contains "/" audio_format
  then head ← item (split_on ";" audio_format) 0;
       item (split_on "/" head) 1
  else item (split_on ";" audio_format) 0.

Definition tips_message : string :=
  "I couldn't understand what you said. Please try again with these tips:

1. **Speak clearly and at a normal pace** - Not too fast, not too slow
2. **Reduce background noise** - Move to a quieter room if possible
3. **Get closer to the microphone** - About 6-12 inches away
4. **Speak for 3-5 seconds** - Longer recordings work better
5. **Try simple sentences** like 'Hello, my name is John and I like programming'

Click the record button and try again!".

Definition empty_audio_message : string :=
  "Audio recording appears to be empty or too short. Please ensure you speak for at least 2-3 seconds.".

(** [transcription and not self._is_fallback_message(transcription)] *)
Definition usable (transcription : option string) : bool :=
  match transcription with
  | None => false
  | Some t => negb (Py.is_empty t) && negb (is_fallback_message t)
  end.

Section AudioPath.

(** The external parts of the audio path: the base64 decoder, the
    construction of the recogniser, and the three processing methods, which
    work on files and the speech-recognition service.  A method returns a
    text, [None], or raises. *)
Variable audio : Type.
Variable audio_size : audio -> Z.
Variable b64decode : string -> outcome audio.
Variable recognizer : Type.
Variable new_recognizer : outcome recognizer.
Variable try_direct_processing : audio -> string -> recognizer -> outcome (option string).
Variable try_enhanced_processing : audio -> string -> recognizer -> outcome (option string).
Variable try_simple_fallback : audio -> recognizer -> outcome (option string).

(** One step of [_process_audio_with_multiple_methods]: the result of a
    method is returned when it is usable, otherwise the next step runs. *)
Definition or_else (attempt : outcome (option string)) (next : outcome string)
  : outcome string :=
  transcription ← attempt;
  match transcription with
  | Some t => if usable transcription then Returned t else next
  | None => next
  end.

(** [_process_audio_with_multiple_methods]; its [finally] block only
    removes temporary files and lets no exception out. *)
Definition process_audio_with_multiple_methods
    (audio_bytes : audio) (clean_format : string) (r : recognizer) : outcome string :=
  or_else (try_direct_processing audio_bytes clean_format r)
    (or_else (try_enhanced_processing audio_bytes clean_format r)
       (or_else (try_simple_fallback audio_bytes r)
          (Returned tips_message))).

(** [_transcribe_audio]: every exception becomes a text. *)
Definition transcribe_audio (audio_data audio_format : string) : string :=
  match
    (audio_bytes ← b64decode audio_data;
     if audio_size audio_bytes <? 1000
     then Returned empty_audio_message
     else
       r ← new_recognizer;
       clean_format ← clean_format_of audio_format;
       process_audio_with_multiple_methods audio_bytes clean_format r)
  with
  | Returned transcription => transcription
  | Thrown e => "Error processing audio: " +:+ str_of_service_exn e
  end.

End AudioPath.

Record TranscriptionEvaluationInput : Type := {
  audioData : string;
  format : string
}.

(** [len(x)] where [x] is a text or [None]. *)
Definition len_of (x : option string) : outcome Z :=
  match x with
  | Some s => Returned (Py.strlen s)
  | None => Thrown TypeError
  end.

(** [evaluate_transcription]: the body of its [try] block, its handler and
    the method.  The transcriber and the analyzer are reached through
    [self]; a transcriber may return [None]. *)
Definition evaluate_transcription_body
    (transcribe : string -> string -> outcome (option string))
    (analyze : string -> M AnalysisResults)
    (input_data : TranscriptionEvaluationInput)
  : ST rng TranscriptionEvaluationOutput :=
  transcription ← pure_outcome (transcribe (audioData input_data) (format input_data));
  _ ← pure_outcome (len_of transcription);
  match transcription with
  | None => pure_outcome (Thrown TypeError)
  | Some transcription =>
      analysis_results ← of_M (analyze transcription);
      pure_outcome (of_result (new_TranscriptionEvaluationOutput
        transcription
        (res_clarity analysis_results)
        (res_confidence analysis_results)
        (res_articulation analysis_results)
        (res_feedback analysis_results)
        (res_suggestions analysis_results)
        (AnalysisDetail (res_detailed_analysis analysis_results))))
  end.

Definition evaluate_transcription_handler (e : py_exn)
  : ST rng TranscriptionEvaluationOutput :=
  pure_outcome (of_result (new_TranscriptionEvaluationOutput
    "Unable to transcribe audio. Please try again." 50 50 50
    "There was an error processing your audio. Please check your microphone and try again."
    "Ensure your microphone is working properly and you're speaking clearly."
    (AnalysisError (str_of_service_exn e)))).

Definition evaluate_transcription_with
    (transcribe : string -> string -> outcome (option string))
    (analyze : string -> M AnalysisResults)
    (input_data : TranscriptionEvaluationInput)
  : ST rng TranscriptionEvaluationOutput :=
  ST_try_except (evaluate_transcription_body transcribe analyze input_data)
                evaluate_transcription_handler.

(** ** The communication history *)

(** A JSON value, for the free-form [analysis] dictionary. *)
#[local] Unset Elimination Schemes.
Inductive json : Type :=
  | JNull
  | JBool (b : bool)
  | JNumber (q : Q)
  | JString (s : string)
  | JArray (items : list json)
  | JObject (fields : list (string * json)).
#[local] Set Elimination Schemes.

Record CommunicationHistoryInput : Type := {
  student_register_number : string;
  h_transcription : string;
  h_clarity : Z;
  h_confidence : Z;
  h_articulation : option Z;
  h_feedback : string;
  h_suggestions : option string;
  h_analysis : option json;
  timestamp : string;
  h_type : string
}.

Record CommunicationHistoryOutput : Type := {
  success : bool;
  message : string;
  history_id : option string
}.

(** An entry of the history file: the fields of the input and an ["id"]. *)
Record history_entry : Type := {
  entry_id : string;
  entry_data : CommunicationHistoryInput
}.

(** The file [data/communication_history.json]: absent, not decodable as
    JSON (an empty file, or a text that was cut off), or holding a list of
    entries as the service writes them. *)
Inductive history_file : Type :=
  | FileAbsent
  | FileUndecodable
  | FileHolds (entries : list history_entry).

(** How a write fails: before the file is opened, when [os.makedirs] or
    [open] raises and the file is not touched; or after
    [open(history_file, 'w')] has emptied the file, when [json.dump] or
    closing the file raises and the file is left cut off. *)
Inductive failed_write : Type :=
  | NotOpened (e : py_exn)
  | CutOff (e : py_exn).

(** What the history functions act on: the file, whether writing it
    succeeds, how writing fails when it does not, and the identifiers that
    [uuid.uuid4()] will produce. *)
Record world : Type := {
  file : history_file;
  writable : bool;
  write_failure : failed_write;
  uuids : nat -> string;
  uuids_used : nat
}.

(** [str(uuid.uuid4())] *)
Definition uuid4 : ST world string := fun w =>
  (Returned (uuids w (uuids_used w)),
   {| file := file w; writable := writable w; write_failure := write_failure w;
      uuids := uuids w; uuids_used := S (uuids_used w) |}).

(** Reading the file inside
    [try: ... except (FileNotFoundError, json.JSONDecodeError)]: [None]
    when the handler is taken. *)
Definition load_history : ST world (option (list history_entry)) := fun w =>
  (Returned match file w with
            | FileHolds entries => Some entries
            | FileAbsent | FileUndecodable => None
            end, w).

(** [os.makedirs], where the source has it, and [json.dump] into the file
    opened for writing.  Opening with mode ['w'] empties the file before
    anything is written, so a write that fails after that leaves a text
    that cannot be decoded (a cut inside a multi-byte character, which
    would make the file unreadable, is not modelled). *)
Definition dump_history (entries : list history_entry) : ST world unit := fun w =>
  if writable w
  then (Returned tt,
        {| file := FileHolds entries; writable := writable w;
           write_failure := write_failure w; uuids := uuids w;
           uuids_used := uuids_used w |})
  else
    match write_failure w with
    | NotOpened e => (Thrown e, w)
    | CutOff e =>
        (Thrown e,
         {| file := FileUndecodable; writable := writable w;
            write_failure := write_failure w; uuids := uuids w;
            uuids_used := uuids_used w |})
    end.

Definition save_communication_history (input_data : CommunicationHistoryInput)
  : ST world CommunicationHistoryOutput :=
  ST_try_except
    (id ← uuid4;
     let history_entry := {| entry_id := id; entry_data := input_data |} in
     loaded ← load_history;
     let existing_history := match loaded with Some l => l | None => [] end in
     let existing_history := existing_history ++ [history_entry] in
     _ ← dump_history existing_history;
     mret {| success := true;
             message := "Communication history saved successfully";
             history_id := Some (Py.str (Py.len existing_history - 1)) |})
    (fun e =>
       mret {| success := false;
               message := "Failed to save communication history: " +:+ str_of_service_exn e;
               history_id := Some "-1" |}).

Record HistoryResponse : Type := {
  hr_success : bool;
  hr_message : string;
  hr_history : list history_entry
}.

(** [l.sort(key=..., reverse=True)]: stable, by decreasing key. *)
Fixpoint insert_desc (key : history_entry -> string) (x : history_entry)
    (l : list history_entry) : list history_entry :=
  match l with
  | [] => [x]
  | y :: l' =>
      if String.ltb (key x) (key y) then y :: insert_desc key x l'
      else x :: y :: l'
  end.

Definition sort_desc (key : history_entry -> string) (l : list history_entry)
  : list history_entry :=
  fold_right (insert_desc key) [] l.

Definition get_communication_history (student : string) : ST world HistoryResponse :=
  ST_try_except
    (loaded ← load_history;
     let existing_history := match loaded with Some l => l | None => [] end in
     let student_history :=
       List.filter (fun entry =>
                      String.eqb (student_register_number (entry_data entry)) student)
                   existing_history in
     let student_history :=
       sort_desc (fun x => timestamp (entry_data x)) student_history in
     mret {| hr_success := true;
             hr_message := "Communication history retrieved successfully";
             hr_history := student_history |})
    (fun e =>
       mret {| hr_success := false;
               hr_message := "Failed to get communication history: " +:+ str_of_service_exn e;
               hr_history := [] |}).

Record DeleteResponse : Type := {
  dr_success : bool;
  dr_message : string
}.

Definition delete_communication_history_item (item_id : string)
  : ST world DeleteResponse :=
  ST_try_except
    (loaded ← load_history;
     match loaded with
     | None => mret {| dr_success := false;
                       dr_message := "No communication history found" |}
     | Some existing_history =>
         let initial_length := Py.len existing_history in
         let existing_history :=
           List.filter (fun item => negb (String.eqb (entry_id item) item_id))
                       existing_history in
         if Py.len existing_history =? initial_length
         then mret {| dr_success := false; dr_message := "Item not found" |}
         else
           _ ← dump_history existing_history;
           mret {| dr_success := true;
                   dr_message := "Communication history item deleted successfully" |}
     end)
    (fun e =>
       mret {| dr_success := false;
               dr_message :=
                 "Failed to delete communication history item: " +:+ str_of_service_exn e |}).

(** ** The endpoints of the service *)

Section Endpoints.

(** [str(e)] for an [HTTPException], which depends on the framework. *)
Variable describe_http : Z -> string -> string.

(** [raise HTTPException(status_code=500, detail=f"{prefix}{e}")] *)
Definition raise_500 {S A} (prefix : string) (e : py_exn) : ST S A :=
  pure_outcome (Thrown (HTTPException 500 (prefix +:+ str_of_py_exn describe_http e))).

Definition evaluate_text_endpoint (input_data : TextEvaluationInput)
  : ST rng TranscriptionEvaluationOutput :=
  ST_try_except (of_M (evaluate_text_only input_data))
                (raise_500 "Text evaluation error: ").

Definition evaluate_transcription_endpoint
    (transcribe : string -> string -> outcome (option string))
    (input_data : TranscriptionEvaluationInput)
  : ST rng TranscriptionEvaluationOutput :=
  ST_try_except
    (evaluate_transcription_with transcribe analyze_communication_skills input_data)
    (raise_500 "Transcription evaluation error: ").

Definition save_communication_history_endpoint (input_data : CommunicationHistoryInput)
  : ST world CommunicationHistoryOutput :=
  ST_try_except (save_communication_history input_data)
                (raise_500 "Save communication history error: ").

(** The two endpoints that read the request themselves.  [request_field] is
    what [(await request.json()).get(key)] gives for a request whose field
    is a string, is null or is missing ([None]); it raises when the body
    is not a JSON object. *)
Definition get_communication_history_endpoint (request_field : outcome (option string))
  : ST world HistoryResponse :=
  ST_try_except
    (student_register_number ← pure_outcome request_field;
     match student_register_number with
     | Some s =>
         if Py.is_empty s
         then pure_outcome
                (Thrown (HTTPException 400 "Student register number is required"))
         else get_communication_history s
     | None =>
         pure_outcome (Thrown (HTTPException 400 "Student register number is required"))
     end)
    (raise_500 "Get communication history error: ").

Definition delete_communication_history_endpoint (request_field : outcome (option string))
  : ST world DeleteResponse :=
  ST_try_except
    (item_id ← pure_outcome request_field;
     match item_id with
     | Some s =>
         if Py.is_empty s
         then pure_outcome (Thrown (HTTPException 400 "Item ID is required"))
         else delete_communication_history_item s
     | None => pure_outcome (Thrown (HTTPException 400 "Item ID is required"))
     end)
    (raise_500 "Delete communication history error: ").

End Endpoints.

(** ** The legacy analyzer *)

Module LegacyAnalyzer.

Definition clarity_indicators : list string :=
  ["clear"; "understand"; "explain"; "simple"; "direct"].

(** [_calculate_clarity_score] *)
Definition calculate_clarity_score
    (transcription : string) (word_count : Z) (avg_words_per_sentence : Q) : Z :=
  let base_score := 70 in
  let base_score :=
    if between 10 avg_words_per_sentence 20 then base_score + 10
    else if between 5 avg_words_per_sentence 25 then base_score + 5
    else base_score in
  let base_score :=
    if word_count >=? 20 then base_score + 10
    else if word_count >=? 10 then base_score + 5
    else base_score in
  let clarity_bonus := bonus_per_hit 5 clarity_indicators (Py.lower transcription) in
  Z.min 100 (base_score + clarity_bonus).

Definition articulation_indicators : list string :=
  ["articulate"; "express"; "communicate"; "convey"; "present"].

(** [_calculate_articulation_score] *)
Definition calculate_articulation_score (transcription : string) (word_count : Z)
  : result Z :=
  let base_score := 75 in
  let unique_words :=
    Z.of_nat (size (list_to_set (Py.split (Py.lower transcription)) : gset string)) in
  vocabulary_ratio ←
    Py.truediv (inject_Z unique_words) (inject_Z (Z.max word_count 1));
  let base_score :=
    if Qgt_bool vocabulary_ratio (7 # 10) then base_score + 15
    else if Qgt_bool vocabulary_ratio (6 # 10) then base_score + 10
    else if Qgt_bool vocabulary_ratio (5 # 10) then base_score + 5
    else base_score in
  let articulation_bonus :=
    bonus_per_hit 5 articulation_indicators (Py.lower transcription) in
  Ok (Z.min 100 (base_score + articulation_bonus)).

(** [_generate_feedback] *)
Definition generate_feedback (clarity confidence articulation : Z)
    (transcription : string) : result string :=
  let feedback_parts := [] in
  average_score ← Py.truediv (inject_Z (clarity + confidence + articulation)) 3;
  let feedback_parts :=
    feedback_parts ++
    [ if Qle_bool 80 average_score
      then "Excellent communication skills! Your speech demonstrates strong clarity, confidence, and articulation."
      else if Qle_bool 70 average_score
      then "Good communication skills overall. You show solid fundamentals in your speech delivery."
      else if Qle_bool 60 average_score
      then "Your communication skills show potential. With some practice, you can improve significantly."
      else "There's room for improvement in your communication skills. Focus on the basics of clear speech." ] in
  let feedback_parts :=
    feedback_parts ++
    [ band3 clarity
        "Your clarity is outstanding - you express ideas in a well-structured manner."
        "Your clarity is good, though you could work on organizing your thoughts more cohesively."
        "Focus on improving clarity by using simpler sentences and more direct language." ] in
  let feedback_parts :=
    feedback_parts ++
    [ band3 confidence
        "You speak with great confidence, which engages your audience effectively."
        "Your confidence shows, but you could benefit from more assertive language."
        "Work on building confidence through practice and positive self-talk." ] in
  let feedback_parts :=
    feedback_parts ++
    [ band3 articulation
        "Your articulation is excellent - you use varied vocabulary effectively."
        "Good articulation, though expanding your vocabulary could enhance your speech."
        "Focus on articulation by practicing with more diverse vocabulary and expressions." ] in
  Ok (Py.join " " feedback_parts).

Definition clarity_tips : list string :=
  [ "• Practice organizing your thoughts before speaking";
    "• Use shorter, more direct sentences";
    "• Focus on one main idea at a time" ].
Definition confidence_tips : list string :=
  [ "• Practice speaking in front of a mirror";
    "• Record yourself and review the playback";
    "• Start with smaller groups and gradually increase audience size" ].
Definition articulation_tips : list string :=
  [ "• Read aloud regularly to improve pronunciation";
    "• Learn and use new words daily";
    "• Practice tongue twisters to improve dexterity" ].
Definition general_tips : list string :=
  [ "• Seek feedback from others on your communication";
    "• Watch and learn from effective public speakers";
    "• Join a public speaking group or take a communication course" ].

(** The list [suggestions] of [_generate_suggestions]. *)
Definition suggestion_lines (clarity confidence articulation : Z) : list string :=
  let suggestions := [] in
  let suggestions :=
    if clarity <? 70 then suggestions ++ clarity_tips else suggestions in
  let suggestions :=
    if confidence <? 70 then suggestions ++ confidence_tips else suggestions in
  let suggestions :=
    if articulation <? 70 then suggestions ++ articulation_tips else suggestions in
  suggestions ++ general_tips.

(** [_generate_suggestions] *)
Definition generate_suggestions (clarity confidence articulation : Z) : string :=
  Py.join newline (suggestion_lines clarity confidence articulation).

(** The ["detailed_analysis"] dictionary of the legacy analyzer. *)
Record DetailedAnalysis : Type := {
  word_count : Z;
  sentence_count : Z;
  avg_words_per_sentence : Q;
  keyword_count : Z;
  transcription_length : Z
}.

Record AnalysisResults : Type := {
  clarity : Z;
  confidence : Z;
  articulation : Z;
  feedback : string;
  suggestions : string;
  detailed_analysis : DetailedAnalysis
}.

(** [_analyze_communication_skills] of the legacy service: no guard on
    short transcripts and no random source. *)
Definition analyze_communication_skills (transcription : string)
  : result AnalysisResults :=
  let word_count := Py.len (Py.split transcription) in
  let sentence_count := Py.len (Py.re_split_terminators transcription) - 1 in
  avg_words_per_sentence ←
    Py.truediv (inject_Z word_count) (inject_Z (Z.max sentence_count 1));
  let keyword_count := Legacy.keyword_count_of transcription in
  let clarity_score :=
    calculate_clarity_score transcription word_count avg_words_per_sentence in
  let confidence_score := Legacy.calculate_confidence_score transcription keyword_count in
  articulation_score ← calculate_articulation_score transcription word_count;
  feedback ←
    generate_feedback clarity_score confidence_score articulation_score transcription;
  let suggestions :=
    generate_suggestions clarity_score confidence_score articulation_score in
  Ok {| clarity := clarity_score;
        confidence := confidence_score;
        articulation := articulation_score;
        feedback := feedback;
        suggestions := suggestions;
        detailed_analysis :=
          {| word_count := word_count;
             sentence_count := sentence_count;
             avg_words_per_sentence := Py.round avg_words_per_sentence 1;
             keyword_count := keyword_count;
             transcription_length := Py.strlen transcription |} |}.

End LegacyAnalyzer.

(** ** Definitions used to state the further properties *)

(** [s.endswith(suffix)] *)
Fixpoint ends_with (suffix s : string) : bool :=
  String.eqb suffix s
  || match s with
     | EmptyString => false
     | String _ r => ends_with suffix r
     end.

(** The block that closes every suggestions text. *)
Definition daily_practice_block : string :=
  Py.join newline
    [ "📈 **Daily Practice:**";
      "• Set aside 15 minutes daily for focused speaking practice";
      "• Use a mirror to observe facial expressions and body language";
      "• Listen to professional speakers and analyze their techniques";
      "• Seek feedback from others and track your progress over time" ].

(** The part of [s] before the first [sep], and the part after it. *)
Fixpoint take_until (sep : ascii) (s : string) : string :=
  match s with
  | EmptyString => EmptyString
  | String c r => if Ascii.eqb c sep then EmptyString else String c (take_until sep r)
  end.

Fixpoint drop_through (sep : ascii) (s : string) : string :=
  match s with
  | EmptyString => EmptyString
  | String c r => if Ascii.eqb c sep then r else drop_through sep r
  end.


(** Whether [c] occurs in [s]. *)
Fixpoint has_char (c : ascii) (s : string) : bool :=
  match s with
  | EmptyString => false
  | String d r => Ascii.eqb d c || has_char c r
  end.

(** The entries that the history functions find in the file: none when it
    is absent or cannot be decoded. *)
Definition stored (w : world) : list history_entry :=
  match file w with
  | FileHolds entries => entries
  | FileAbsent | FileUndecodable => []
  end.

(** The entry that [save_communication_history] builds in the world [w]. *)
Definition new_entry (input_data : CommunicationHistoryInput) (w : world)
  : history_entry :=
  {| entry_id := uuids w (uuids_used w); entry_data := input_data |}.

Definition entry_timestamp (x : history_entry) : string := timestamp (entry_data x).

Definition of_student (student : string) (x : history_entry) : bool :=
  String.eqb (student_register_number (entry_data x)) student.

(** [x] is not older than [y]. *)
Definition not_older (x y : history_entry) : Prop :=
  String.ltb (entry_timestamp x) (entry_timestamp y) = false.

Definition sample_input : CommunicationHistoryInput :=
  {| student_register_number := "21CS042";
     h_transcription := "Good morning everyone";
     h_clarity := 80;
     h_confidence := 75;
     h_articulation := Some 70;
     h_feedback := "Good communication skills.";
     h_suggestions := None;
     h_analysis := None;
     timestamp := "2024-05-01T10:00:00";
     h_type := "communication_skills" |}.

Definition empty_world : world :=
  {| file := FileAbsent;
     writable := true;
     write_failure :=
       NotOpened (OSError "[Errno 13] Permission denied: 'data/communication_history.json'");
     uuids := fun n => "3f2b8c1e-0000-4000-8000-00000000000" +:+ Py.str (Z.of_nat n);
     uuids_used := 0 |}.

(** Two stored entries, and a world whose file holds given entries and in
    which a write, when it fails, does so after the file was opened: the
    disk is full. *)
Definition sample_entries : list history_entry :=
  [ {| entry_id := "a1"; entry_data := sample_input |};
    {| entry_id := "b2"; entry_data := sample_input |} ].

Definition world_holding (entries : list history_entry) (ok : bool) : world :=
  {| file := FileHolds entries;
     writable := ok;
     write_failure := CutOff (OSError "[Errno 28] No space left on device");
     uuids := uuids empty_world;
     uuids_used := 0 |}.

(** The test that [delete_communication_history_item] keeps an item by. *)
Definition keeps (item_id : string) (item : history_entry) : bool :=
  negb (String.eqb (entry_id item) item_id).

(** Which blocks a suggestions text holds, by their titles, and whether it
    ends with the daily-practice block. *)
Definition suggestions_profile (s : string) : list bool :=
  [ Py.contains "**Clarity Improvement:**" s;
    Py.contains "**Confidence Building:**" s;
    Py.contains "**Articulation Enhancement:**" s;
    Py.contains "**Reduce Filler Words:**" s;
    Py.contains "**Sentence Complexity:**" s;
    Py.contains "**Improve Speech Flow:**" s;
    Py.contains "**Advanced Development:**" s;
    ends_with daily_practice_block s ].

(** * Properties *)

(** ** Python primitives on examples *)

Example split_ex : Py.split "  Hello,  my name " = ["Hello,"; "my"; "name"].
Proof. reflexivity. Qed.

Example re_split_ex :
  Py.re_split_terminators "Hi there. How are you?! Fine" = ["Hi there"; " How are you"; " Fine"].
Proof. reflexivity. Qed.

Example re_split_trailing : Py.re_split_terminators "a.." = ["a"; ""].
Proof. reflexivity. Qed.

Example count_ex : Py.count "aaaa like likely" "aa" = 2 /\ Py.count "aaaa like likely" "like" = 2.
Proof. split; reflexivity. Qed.

Example strip_ex : Py.strip_chars ".,!?;:" "..hello,." = "hello".
Proof. reflexivity. Qed.

Example str_ex : Py.str 73 = "73" /\ Py.str 0 = "0" /\ Py.str (-5) = "-5".
Proof. repeat split; reflexivity. Qed.

(** ** The random source *)

Lemma draw_range (a b : Z) (g : rng) : a <= b -> a <= Py.draw a b g <= b.
Proof.
  intros Hab. unfold Py.draw.
  pose proof (Z.mod_pos_bound (Z.of_N (entropy g (cursor g))) (b - a + 1)).
  lia.
Qed.

Lemma randint_ok (a b : Z) (g : rng) :
  a <= b -> Py.randint a b g = (Ok (Py.draw a b g), advance g).
Proof.
  intros Hab. unfold Py.randint.
  destruct (Z.ltb_spec b a); [lia | reflexivity].
Qed.

(** Binding a draw from a non-empty range continues with the drawn value. *)
Lemma bind_randint {B} (a b : Z) (k : Z -> M B) (g : rng) :
  a <= b -> (Py.randint a b ≫= k) g = k (Py.draw a b g) (advance g).
Proof.
  intros Hab. unfold mbind, M_bind. now rewrite randint_ok.
Qed.

(** Every value of the range is drawn from some state of the source. *)
Lemma draw_onto (a b j : Z) :
  a <= j <= b ->
  Py.draw a b {| entropy := fun _ => Z.to_N (j - a); cursor := 0 |} = j.
Proof.
  intros Hj. unfold Py.draw. cbn [entropy cursor].
  rewrite Z2N.id by lia. rewrite Z.mod_small by lia. lia.
Qed.

(** ** Variation injector *)

Lemma min_max_clamp (lo hi x : Z) : lo <= hi -> Z.min hi (Z.max lo x) = clamp lo hi x.
Proof.
  intros H. unfold clamp.
  destruct (Z.ltb_spec x lo); destruct (Z.ltb_spec hi x); lia.
Qed.

Lemma clamp_range (lo hi x : Z) : lo <= hi -> lo <= clamp lo hi x <= hi.
Proof.
  intros H. unfold clamp.
  destruct (Z.ltb_spec x lo); destruct (Z.ltb_spec hi x); lia.
Qed.

Lemma add_natural_variation_run (base_score word_count : Z) (g : rng) :
  add_natural_variation base_score word_count g
  = (Ok (clamp 40 100
           (base_score
            + Py.draw (- variation_range word_count) (variation_range word_count) g)),
     advance g).
Proof.
  assert (Hv : 5 <= variation_range word_count <= 15) by (apply clamp_range; lia).
  unfold add_natural_variation.
  rewrite (min_max_clamp 5 15) by lia. fold (variation_range word_count).
  rewrite bind_randint by lia.
  unfold mret, M_ret. now rewrite min_max_clamp by lia.
Qed.

(** C4: for every base score, word count and state of the random source,
    the variation injector draws a jitter in [-v, v], where
    v = clamp (word_count // 10, 5, 15), and returns score + jitter clamped
    to [40, 100]; the returned score lies in [40, 100]. *)
Theorem add_natural_variation_spec (base_score word_count : Z) (g : rng) :
  let v := variation_range word_count in
  let jitter := Py.draw (- v) v g in
  - v <= jitter <= v
  /\ add_natural_variation base_score word_count g
     = (Ok (clamp 40 100 (base_score + jitter)), advance g)
  /\ 40 <= clamp 40 100 (base_score + jitter) <= 100.
Proof.
  intros v jitter.
  assert (Hv : 5 <= v <= 15) by (apply clamp_range; lia).
  split; [apply draw_range; lia|].
  split; [apply add_natural_variation_run | apply clamp_range; lia].
Qed.

(** Each jitter of the range is produced by some state of the source. *)
Lemma add_natural_variation_onto (base_score word_count j : Z) :
  - variation_range word_count <= j <= variation_range word_count ->
  exists g, add_natural_variation base_score word_count g
            = (Ok (clamp 40 100 (base_score + j)), advance g).
Proof.
  intros Hj.
  exists {| entropy := fun _ => Z.to_N (j - - variation_range word_count); cursor := 0 |}.
  rewrite add_natural_variation_run. now rewrite draw_onto by lia.
Qed.

(** ** Fallback generator *)

(** Symbolic execution of a computation of [M]: binds are unfolded and
    each draw from a non-empty range is replaced by its value. *)
Ltac run_M :=
  repeat (unfold mbind, M_bind, mret, M_ret, lift;
          cbn beta iota; cbn [mapM seq];
          try rewrite randint_ok by lia).

Lemma min_max_id (lo hi x : Z) : lo <= x <= hi -> Z.min hi (Z.max lo x) = x.
Proof. lia. Qed.

(** The run of the fallback generator: three base draws, then three jitter
    draws, in that order; no clamp is active. *)
Lemma generate_random_evaluation_run (reason : string) (g : rng) :
  let c := Py.draw 65 85 g + Py.draw (-10) 10 (after 3 g) in
  let f := Py.draw 65 85 (after 1 g) + Py.draw (-10) 10 (after 4 g) in
  let a := Py.draw 65 85 (after 2 g) + Py.draw (-10) 10 (after 5 g) in
  generate_random_evaluation reason g
  = (Ok {| res_clarity := c;
           res_confidence := f;
           res_articulation := a;
           res_feedback :=
             reason +:+ ". Your speech shows " +:+ Py.str c
             +:+ "% clarity, " +:+ Py.str f
             +:+ "% confidence, and " +:+ Py.str a
             +:+ "% articulation.";
           res_suggestions := fallback_suggestions;
           res_detailed_analysis := fallback_detailed_analysis |},
     after 6 g).
Proof.
  intros c f a.
  pose proof (draw_range 65 85 g ltac:(lia)).
  pose proof (draw_range 65 85 (after 1 g) ltac:(lia)).
  pose proof (draw_range 65 85 (after 2 g) ltac:(lia)).
  pose proof (draw_range (-10) 10 (after 3 g) ltac:(lia)).
  pose proof (draw_range (-10) 10 (after 4 g) ltac:(lia)).
  pose proof (draw_range (-10) 10 (after 5 g) ltac:(lia)).
  unfold generate_random_evaluation.
  subst c f a. unfold after in *. cbn [Nat.iter nat_rect] in *.
  run_M.
  rewrite !min_max_id by lia. reflexivity.
Qed.

(** C10: for every state of the random source, the three fallback scores
    are base + jitter with base drawn in [65, 85] and jitter in [-10, 10];
    each lies in [55, 95], so the clamp to [40, 100] around the sum leaves
    it unchanged. *)
Theorem fallback_scores_unclamped (reason : string) (g : rng) :
  exists r b1 b2 b3 j1 j2 j3,
    generate_random_evaluation reason g = (Ok r, after 6 g)
    /\ (65 <= b1 <= 85 /\ 65 <= b2 <= 85 /\ 65 <= b3 <= 85)
    /\ (-10 <= j1 <= 10 /\ -10 <= j2 <= 10 /\ -10 <= j3 <= 10)
    /\ (b1 = Py.draw 65 85 g /\ b2 = Py.draw 65 85 (after 1 g)
        /\ b3 = Py.draw 65 85 (after 2 g))
    /\ (j1 = Py.draw (-10) 10 (after 3 g) /\ j2 = Py.draw (-10) 10 (after 4 g)
        /\ j3 = Py.draw (-10) 10 (after 5 g))
    /\ (res_clarity r = b1 + j1 /\ res_confidence r = b2 + j2
        /\ res_articulation r = b3 + j3)
    /\ (clamp 40 100 (b1 + j1) = b1 + j1 /\ clamp 40 100 (b2 + j2) = b2 + j2
        /\ clamp 40 100 (b3 + j3) = b3 + j3)
    /\ (55 <= res_clarity r <= 95 /\ 55 <= res_confidence r <= 95
        /\ 55 <= res_articulation r <= 95).
Proof.
  pose proof (draw_range 65 85 g ltac:(lia)).
  pose proof (draw_range 65 85 (after 1 g) ltac:(lia)).
  pose proof (draw_range 65 85 (after 2 g) ltac:(lia)).
  pose proof (draw_range (-10) 10 (after 3 g) ltac:(lia)).
  pose proof (draw_range (-10) 10 (after 4 g) ltac:(lia)).
  pose proof (draw_range (-10) 10 (after 5 g) ltac:(lia)).
  eexists. exists (Py.draw 65 85 g), (Py.draw 65 85 (after 1 g)),
    (Py.draw 65 85 (after 2 g)), (Py.draw (-10) 10 (after 3 g)),
    (Py.draw (-10) 10 (after 4 g)), (Py.draw (-10) 10 (after 5 g)).
  split; [apply generate_random_evaluation_run|].
  cbn [res_clarity res_confidence res_articulation].
  rewrite <- !min_max_clamp by lia.
  repeat split; lia.
Qed.

(** ** Arithmetic of the primitives *)

Lemma truediv_ok (x y : Q) : ~ (y == 0)%Q -> Py.truediv x y = Ok (x / y)%Q.
Proof.
  intros Hy. unfold Py.truediv.
  destruct (Qeq_bool y 0) eqn:E; [|reflexivity].
  apply Qeq_bool_eq in E. contradiction.
Qed.

Lemma inject_Z_nonzero (n : Z) : n <> 0 -> ~ (inject_Z n == 0)%Q.
Proof. unfold Qeq. cbn. lia. Qed.

Lemma sum_nonneg (l : list Z) : Forall (fun x => 0 <= x) l -> 0 <= Py.sum l.
Proof. unfold Py.sum. induction 1; cbn [fold_right]; lia. Qed.

Lemma len_nonneg {A} (l : list A) : 0 <= Py.len l.
Proof. unfold Py.len. lia. Qed.

Lemma len_cons {A} (x : A) (l : list A) : Py.len (x :: l) = 1 + Py.len l.
Proof. unfold Py.len. cbn [List.length]. lia. Qed.

Lemma count_if_range {A} (p : A -> bool) (l : list A) :
  0 <= count_if p l <= Py.len l.
Proof.
  unfold count_if. induction l as [|x l IH]; [unfold Py.len, Py.sum; cbn; lia|].
  rewrite len_cons. cbn [List.filter].
  unfold Py.sum in *.
  destruct (p x); cbn [map fold_right]; lia.
Qed.

Lemma bonus_per_hit_range (k : Z) (l : list string) (text : string) :
  0 <= k -> 0 <= bonus_per_hit k l text <= k * Py.len l.
Proof.
  intros Hk. unfold bonus_per_hit.
  induction l as [|x l IH]; [unfold Py.len, Py.sum; cbn; lia|].
  rewrite len_cons. cbn [List.filter]. unfold Py.sum in *.
  destruct (Py.contains x text); cbn [map fold_right]; lia.
Qed.

Lemma count_go_nonneg (sub s : string) (skip : nat) : 0 <= Py.count_go sub s skip.
Proof.
  revert skip. induction s as [|c s IH]; intros skip; cbn [Py.count_go].
  - destruct (Py.is_empty sub); lia.
  - destruct skip; [|apply IH].
    destruct (String.prefix sub (String c s)); [|apply IH].
    specialize (IH (String.length sub - 1)%nat). lia.
Qed.

Lemma count_nonneg (s sub : string) : 0 <= Py.count s sub.
Proof. apply count_go_nonneg. Qed.

Lemma int_nonneg (x : Q) : (0 <= x)%Q -> 0 <= Py.int x.
Proof.
  intros Hx. unfold Py.int. apply Z.quot_pos; [|lia].
  unfold Qle in Hx. cbn in Hx. lia.
Qed.

Lemma inject_Z_pos (b : Z) : 0 < b -> (0 < inject_Z b)%Q.
Proof. intros H. change (inject_Z 0 < inject_Z b)%Q. now rewrite <- Zlt_Qlt. Qed.

Lemma inject_Z_nonneg (a : Z) : 0 <= a -> (0 <= inject_Z a)%Q.
Proof. intros H. change (inject_Z 0 <= inject_Z a)%Q. now rewrite <- Zle_Qle. Qed.

Lemma ratio_unit (a b : Z) :
  0 <= a <= b -> 0 < b -> unit_interval (inject_Z a / inject_Z b).
Proof.
  intros Ha Hb.
  assert (Hq : (0 < inject_Z b)%Q) by (apply (inject_Z_pos b); lia).
  split.
  - apply Qle_shift_div_l; [exact Hq|].
    rewrite Qmult_0_l. apply (inject_Z_nonneg a); lia.
  - apply Qle_shift_div_r; [exact Hq|].
    rewrite Qmult_1_l. rewrite <- Zle_Qle. lia.
Qed.

Lemma ratio_nonneg (a b : Z) : 0 <= a -> 0 < b -> (0 <= inject_Z a / inject_Z b)%Q.
Proof.
  intros Ha Hb.
  apply Qle_shift_div_l; [apply (inject_Z_pos b); lia|].
  rewrite Qmult_0_l. apply (inject_Z_nonneg a); lia.
Qed.

Lemma Qmin_unit (x : Q) : (0 <= x)%Q -> unit_interval (Qmin x 1).
Proof.
  intros Hx. split.
  - apply Q.min_glb; [exact Hx | discriminate].
  - apply Q.le_min_r.
Qed.

(** ** Feature extraction *)

Lemma filler_count_nonneg (t : string) :
  0 <= Py.sum (map (fun filler => Py.count (Py.lower t) filler) filler_words).
Proof.
  apply sum_nonneg. apply List.Forall_forall. intros x Hx.
  apply List.in_map_iff in Hx. destruct Hx as (f & <- & _). apply count_nonneg.
Qed.

(** The complexity and flow ratios of a sentence list. *)
Lemma complexity_ratio (sentences : list string) :
  exists c,
    (if truthy sentences
     then Py.truediv (inject_Z (count_if (fun s => Py.len (Py.split s) >? 15) sentences))
                     (inject_Z (Py.len sentences))
     else Ok 0%Q) = Ok c
    /\ unit_interval c.
Proof.
  destruct sentences as [|s l]; cbn [truthy].
  - exists 0%Q. split; [reflexivity | split; discriminate].
  - pose proof (len_nonneg l). pose proof (len_cons s l).
    eexists. split.
    + apply truediv_ok, inject_Z_nonzero. lia.
    + apply ratio_unit; [apply count_if_range | lia].
Qed.

Lemma flow_ratio (sentences : list string) :
  exists f,
    (if truthy sentences
     then r ← Py.truediv (inject_Z (count_if (fun s => Py.len (Py.split s) <? 5) sentences))
                         (inject_Z (Py.len sentences));
          Ok (1 - r)%Q
     else Ok 0%Q) = Ok f
    /\ unit_interval f.
Proof.
  destruct sentences as [|s l]; cbn [truthy].
  - exists 0%Q. split; [reflexivity | split; discriminate].
  - pose proof (len_nonneg l). pose proof (len_cons s l).
    eexists. split.
    + rewrite truediv_ok by (apply inject_Z_nonzero; lia). reflexivity.
    + destruct (ratio_unit (count_if (fun s => Py.len (Py.split s) <? 5) (s :: l))
                           (Py.len (s :: l))) as [H1 H2];
        [apply count_if_range | lia |].
      split; lra.
Qed.

Lemma analyze_speech_patterns_features (t : string) (words : list string) (wc : Z) :
  0 <= wc ->
  exists sa,
    analyze_speech_patterns t words wc = Ok sa
    /\ feature_invariant sa
    /\ (quality_rating sa == Py.sumQ (quality_components sa wc) / 4)%Q
    /\ filler_word_count sa
       = Py.sum (map (fun filler => Py.count (Py.lower t) filler) filler_words)
    /\ has_questions sa = Py.contains "?" t
    /\ has_exclamations sa = Py.contains "!" t.
Proof.
  intros Hwc. unfold analyze_speech_patterns.
  destruct (complexity_ratio (sentences_of t)) as (c & -> & Hc).
  destruct (flow_ratio (sentences_of t)) as (f & -> & Hf).
  cbn [mbind result_bind].
  rewrite !truediv_ok by (intro H; discriminate H).
  eexists. split; [reflexivity|].
  unfold feature_invariant, unit_interval, Py.sumQ.
  cbn [filler_word_count formal_language_count complexity_score flow_score
       quality_rating has_questions has_exclamations quality_components
       fold_right].
  change (inject_Z (Py.len [_; _; _; _])) with 4%Q.
  pose proof (filler_count_nonneg t) as Hfill.
  set (fill := Py.sum _) in *.
  assert (Hfr : (0 <= inject_Z fill / 10)%Q) by (apply (ratio_nonneg fill 10); lia).
  assert (Hlr : (0 <= inject_Z wc / 50)%Q) by (apply (ratio_nonneg wc 50); lia).
  pose proof (Qmin_unit _ Hlr) as [Hl1 Hl2].
  destruct Hc as [Hc1 Hc2]. destruct Hf as [Hf1 Hf2].
  pose proof (Qmin_unit _ Hc1) as [Hm1 Hm2].
  assert (Hq1 : (0 <= Qmin (inject_Z fill / 10) (1 # 2))%Q)
    by (apply Q.min_glb; [exact Hfr | discriminate]).
  assert (Hq2 : (Qmin (inject_Z fill / 10) (1 # 2) <= 1 # 2)%Q) by apply Q.le_min_r.
  set (q1 := Qmin (inject_Z fill / 10) (1 # 2)) in *.
  set (q2 := Qmin c 1) in *.
  set (q4 := Qmin (inject_Z wc / 50) 1) in *.
  clearbody q1 q2 q4.
  repeat split; try assumption; try apply count_if_range; try reflexivity.
  - apply Qle_shift_div_l; [reflexivity | lra].
  - apply Qle_shift_div_r; [reflexivity | lra].
Qed.

(** ** Score calculators *)

Lemma avg_words_per_sentence_ok (t : string) :
  exists avg, avg_words_per_sentence_of t = Ok avg /\ (0 <= avg)%Q.
Proof.
  unfold avg_words_per_sentence_of. eexists. split.
  - apply truediv_ok, inject_Z_nonzero. lia.
  - apply ratio_nonneg; [apply len_nonneg | lia].
Qed.

Lemma size_unique_words_le (words : list string) :
  (size (unique_words_of words) <= List.length words)%nat.
Proof.
  unfold unique_words_of.
  rewrite <- (length_map (fun word => Py.strip_chars word_punctuation (Py.lower word)) words).
  generalize (map (fun word => Py.strip_chars word_punctuation (Py.lower word)) words).
  intros l. induction l as [|x l IH]; [now rewrite list_to_set_nil, size_empty|].
  rewrite list_to_set_cons, size_union_alt, size_singleton. cbn [List.length].
  assert (Hsub : list_to_set l ∖ {[x]} ⊆ (list_to_set l : gset string))
    by (apply subseteq_difference_l; reflexivity).
  apply subseteq_size in Hsub. lia.
Qed.

Lemma vocabulary_diversity_ok (words : list string) :
  exists vd, vocabulary_diversity_of words = Ok vd /\ unit_interval vd.
Proof.
  unfold vocabulary_diversity_of. destruct words as [|w ws] eqn:E; cbn [truthy].
  - exists 0%Q. split; [reflexivity | split; discriminate].
  - rewrite <- E. pose proof (size_unique_words_le words).
    assert (0 < Py.len words) by (subst words; rewrite len_cons; pose proof (len_nonneg ws); lia).
    eexists. split.
    + apply truediv_ok, inject_Z_nonzero. lia.
    + apply ratio_unit; [unfold Py.len; lia | lia].
Qed.

Lemma clarity_range (t : string) (wc : Z) (avg : Q) (sa : SpeechAnalysis) :
  0 <= filler_word_count sa -> (0 <= quality_rating sa)%Q ->
  45 <= calculate_enhanced_clarity_score t wc avg sa <= 100.
Proof.
  intros Hf Hq. unfold calculate_enhanced_clarity_score.
  assert (H4 : 0 <= 4) by lia.
  pose proof (bonus_per_hit_range 4 clarity_indicators (Py.lower t) H4).
  assert (0 <= Py.int (quality_rating sa * 10)) by (apply int_nonneg; lra).
  destruct (between 8 avg 18), (between 5 avg 25), (wc >=? 25), (wc >=? 15); lia.
Qed.

Lemma confidence_range (t : string) (sa : SpeechAnalysis) :
  30 <= calculate_enhanced_confidence_score t sa <= 100.
Proof. unfold calculate_enhanced_confidence_score. lia. Qed.

Lemma articulation_range (t : string) (wc : Z) (vd : Q) (sa : SpeechAnalysis) :
  35 <= calculate_enhanced_articulation_score t wc vd sa <= 100.
Proof. unfold calculate_enhanced_articulation_score. cbv zeta. lia. Qed.

(** C3: for every transcript, feature extraction succeeds and the
    pre-jitter scores computed from the extracted features satisfy
    0 <= clarity <= 100, 0 <= articulation <= 100 and
    30 <= confidence <= 100. *)
Theorem enhanced_scores_bounded (t : string) :
  let words := Py.split t in
  let word_count := Py.len words in
  exists avg vd sa,
    avg_words_per_sentence_of t = Ok avg
    /\ vocabulary_diversity_of words = Ok vd
    /\ analyze_speech_patterns t words word_count = Ok sa
    /\ 0 <= calculate_enhanced_clarity_score t word_count avg sa <= 100
    /\ 0 <= calculate_enhanced_articulation_score t word_count vd sa <= 100
    /\ 30 <= calculate_enhanced_confidence_score t sa <= 100.
Proof.
  intros words word_count.
  destruct (avg_words_per_sentence_ok t) as (avg & Havg & _).
  destruct (vocabulary_diversity_ok words) as (vd & Hvd & _).
  destruct (analyze_speech_patterns_features t words word_count (len_nonneg words))
    as (sa & Hsa & (Hfill & _ & _ & _ & Hq & _) & _).
  exists avg, vd, sa. repeat split; try assumption.
  - pose proof (clarity_range t word_count avg sa Hfill Hq). lia.
  - apply clarity_range; assumption.
  - pose proof (articulation_range t word_count vd sa). lia.
  - apply articulation_range.
  - apply confidence_range.
  - apply confidence_range.
Qed.

(** ** Filler words and the pre-jitter scores *)

(** C5, as stated, fails: on a transcript with eight filler words a ninth
    changes neither score, although clarity (66) has no floor and confidence
    (35) is above its floor of 30, because both penalties are capped; and on
    a transcript whose bonuses exceed the ceiling a first filler word leaves
    both scores at 100. *)
Lemma filler_increase_not_strict :
  (exists c f,
     pre_jitter_scores hesitant_transcript 0 = Ok (c, f)
     /\ pre_jitter_scores hesitant_transcript 1 = Ok (c, f)
     /\ c = 66 /\ f = 35)
  /\ (exists c f,
        pre_jitter_scores assured_transcript 0 = Ok (c, f)
        /\ pre_jitter_scores assured_transcript 1 = Ok (c, f)
        /\ c = 100 /\ f = 100)
  /\ ~ (forall t c f c' f',
          pre_jitter_scores t 0 = Ok (c, f) ->
          pre_jitter_scores t 1 = Ok (c', f') ->
          c' < c /\ f' < f).
Proof.
  assert (H0 : pre_jitter_scores hesitant_transcript 0 = Ok (66, 35))
    by (vm_compute; reflexivity).
  assert (H1 : pre_jitter_scores hesitant_transcript 1 = Ok (66, 35))
    by (vm_compute; reflexivity).
  split; [|split].
  - exists 66, 35. repeat split; assumption.
  - exists 100, 100. repeat split; vm_compute; reflexivity.
  - intros H. specialize (H _ _ _ _ _ H0 H1). lia.
Qed.

(** C5, amended: one more filler word never raises the pre-jitter clarity
    or confidence score; it strictly lowers clarity when fewer than 8 were
    counted and the new clarity is below the ceiling 100, and strictly
    lowers confidence when fewer than 7 were counted, the old confidence is
    above the floor 30 and the new one below the ceiling 100. *)
Theorem filler_increase_monotone
    (t : string) (wc : Z) (avg : Q) (sa : SpeechAnalysis) :
  let sa' := with_filler_count sa (filler_word_count sa + 1) in
  calculate_enhanced_clarity_score t wc avg sa'
    <= calculate_enhanced_clarity_score t wc avg sa
  /\ calculate_enhanced_confidence_score t sa'
     <= calculate_enhanced_confidence_score t sa
  /\ (filler_word_count sa < 8 ->
      calculate_enhanced_clarity_score t wc avg sa' < 100 ->
      calculate_enhanced_clarity_score t wc avg sa'
        < calculate_enhanced_clarity_score t wc avg sa)
  /\ (filler_word_count sa < 7 ->
      30 < calculate_enhanced_confidence_score t sa ->
      calculate_enhanced_confidence_score t sa' < 100 ->
      calculate_enhanced_confidence_score t sa'
        < calculate_enhanced_confidence_score t sa).
Proof.
  intros sa'. subst sa'.
  unfold calculate_enhanced_clarity_score, calculate_enhanced_confidence_score,
    with_filler_count.
  cbn [filler_word_count quality_rating formal_language_count].
  cbv zeta.
  generalize (bonus_per_hit 4 clarity_indicators (Py.lower t)).
  generalize (bonus_per_hit 6 strong_confidence (Py.lower t)).
  generalize (bonus_per_hit 3 moderate_confidence (Py.lower t)).
  generalize (bonus_per_hit 5 leadership_words (Py.lower t)).
  generalize (bonus_per_hit 3 uncertainty_words (Py.lower t)).
  generalize (Py.int (quality_rating sa * 10)).
  generalize (filler_word_count sa). generalize (formal_language_count sa).
  intros fo f q u l m s c.
  destruct (between 8 avg 18), (between 5 avg 25), (wc >=? 25), (wc >=? 15); lia.
Qed.

(** On the blank feature set and the empty transcript a first filler word
    lowers clarity from 60 to 58 and confidence from 55 to 52. *)
Lemma filler_increase_monotone_witness :
  calculate_enhanced_clarity_score "" 0 0 (with_filler_count blank_features 1)
    < calculate_enhanced_clarity_score "" 0 0 blank_features
  /\ calculate_enhanced_confidence_score "" (with_filler_count blank_features 1)
     < calculate_enhanced_confidence_score "" blank_features.
Proof.
  destruct (filler_increase_monotone "" 0 0 blank_features) as (_ & _ & Hc & Hf).
  split; [apply Hc | apply Hf]; vm_compute; reflexivity.
Defined.

(** ** Enhanced and legacy confidence *)

Lemma legacy_confidence_range (t : string) (k : Z) :
  0 <= Legacy.calculate_confidence_score t k <= 100.
Proof. unfold Legacy.calculate_confidence_score. lia. Qed.

(** On a count of keywords, which is never negative, the legacy score is
    at least 47. *)
Lemma legacy_confidence_on_counts (t : string) (k : Z) :
  0 <= k -> 47 <= Legacy.calculate_confidence_score t k.
Proof.
  intros Hk. unfold Legacy.calculate_confidence_score.
  assert (H5 : 0 <= 5) by lia. assert (H3 : 0 <= 3) by lia.
  pose proof (bonus_per_hit_range 5 Legacy.confidence_indicators (Py.lower t) H5).
  pose proof (bonus_per_hit_range 3 Legacy.hesitation_words (Py.lower t) H3).
  change (Py.len Legacy.hesitation_words) with 6 in *.
  lia.
Qed.

Lemma legacy_keyword_count_nonneg (t : string) : 0 <= Legacy.keyword_count_of t.
Proof. apply count_if_range. Qed.

(** C6, as stated, fails: the legacy calculator does not fall below 30.  Its
    second argument is a count of keywords, and on a count, so also on the
    count that the legacy analyzer passes for a transcript, no result is
    below 30. *)
Lemma legacy_confidence_not_below_30 :
  ~ (exists t k, 0 <= k /\ Legacy.calculate_confidence_score t k < 30)
  /\ ~ (exists t,
          Legacy.calculate_confidence_score t (Legacy.keyword_count_of t) < 30).
Proof.
  split.
  - intros (t & k & Hk & Hlt).
    pose proof (legacy_confidence_on_counts t k Hk). lia.
  - intros (t & Hlt).
    pose proof (legacy_confidence_on_counts t _ (legacy_keyword_count_nonneg t)). lia.
Qed.

(** C6, amended: the enhanced confidence calculator's result lies in
    [30, 100] for every input and the legacy calculator's in [0, 100]; the
    legacy result is at least 47 on every count of keywords, so on every
    transcript that the legacy analyzer scores, and 47 is reached; the
    enhanced calculator returns less than 47 on the features of a
    transcript, where the legacy one does not: the two are not
    extensionally equal. *)
Theorem confidence_calculators_differ :
  (forall t sa, 30 <= calculate_enhanced_confidence_score t sa <= 100)
  /\ (forall t k, 0 <= Legacy.calculate_confidence_score t k <= 100)
  /\ (forall t k, 0 <= k -> 47 <= Legacy.calculate_confidence_score t k)
  /\ (forall t, 47 <= Legacy.calculate_confidence_score t (Legacy.keyword_count_of t))
  /\ (exists t, Legacy.calculate_confidence_score t (Legacy.keyword_count_of t) = 47)
  /\ (exists t sa,
        analyze_speech_patterns t (Py.split t) (Py.len (Py.split t)) = Ok sa
        /\ calculate_enhanced_confidence_score t sa < 47
        /\ 47 <= Legacy.calculate_confidence_score t (Legacy.keyword_count_of t)).
Proof.
  split; [apply confidence_range|].
  split; [apply legacy_confidence_range|].
  split; [apply legacy_confidence_on_counts|].
  split.
  { intros t. apply legacy_confidence_on_counts, legacy_keyword_count_nonneg. }
  split.
  - exists "um, uh, like, you know, actually, basically". vm_compute. reflexivity.
  - exists hesitant_transcript. eexists. split; [vm_compute; reflexivity|].
    split; [vm_compute; reflexivity|].
    apply legacy_confidence_on_counts, legacy_keyword_count_nonneg.
Qed.

(** With one keyword found, "confident", which is also a confidence
    indicator, the legacy score is 73. *)
Lemma confidence_calculators_differ_witness :
  47 <= Legacy.calculate_confidence_score "I am confident" 1
  /\ Legacy.calculate_confidence_score "I am confident" 1 = 73.
Proof.
  destruct confidence_calculators_differ as (_ & _ & H & _).
  split; [apply (H "I am confident" 1); lia | vm_compute; reflexivity].
Defined.

(** ** Feature-set invariant *)

Lemma re_split_go_nonempty (s cur : string) (in_run : bool) :
  1 <= Py.len (Py.re_split_go s cur in_run).
Proof.
  revert cur in_run. induction s as [|c s IH]; intros cur in_run; cbn [Py.re_split_go].
  - unfold Py.len. cbn. lia.
  - destruct (Py.is_terminator c); [destruct in_run|]; try apply IH.
    rewrite len_cons. specialize (IH EmptyString true). lia.
Qed.

(** C9: for every transcript the feature set is computed without error,
    its ratio fields (vocabulary diversity, complexity, flow and the
    speech-quality rating, which is the mean of four components each in
    [0, 1]) lie in [0, 1], and its counts (words, sentences, filler words,
    formal-language words) are non-negative. *)
Theorem feature_set_invariant (t : string) :
  let words := Py.split t in
  let word_count := Py.len words in
  let sentence_count := Py.len (Py.re_split_terminators t) - 1 in
  exists vd sa,
    vocabulary_diversity_of words = Ok vd
    /\ analyze_speech_patterns t words word_count = Ok sa
    /\ unit_interval vd
    /\ unit_interval (complexity_score sa)
    /\ unit_interval (flow_score sa)
    /\ unit_interval (quality_rating sa)
    /\ (quality_rating sa == Py.sumQ (quality_components sa word_count) / 4)%Q
    /\ Forall unit_interval (quality_components sa word_count)
    /\ 0 <= word_count
    /\ 0 <= sentence_count
    /\ 0 <= Py.len (sentences_of t)
    /\ 0 <= count_if (fun s => Py.len (Py.split s) >? 15) (sentences_of t)
    /\ 0 <= count_if (fun s => Py.len (Py.split s) <? 5) (sentences_of t)
    /\ 0 <= filler_word_count sa
    /\ 0 <= formal_language_count sa.
Proof.
  intros words word_count sentence_count.
  destruct (vocabulary_diversity_ok words) as (vd & Hvd & Hunit).
  destruct (analyze_speech_patterns_features t words word_count (len_nonneg words))
    as (sa & Hsa & (Hfill & Hformal & Hc & Hf & Hq) & Hmean & _).
  exists vd, sa.
  repeat (split; [assumption|]).
  split.
  - unfold quality_components.
    assert (Hfr : (0 <= inject_Z (filler_word_count sa) / 10)%Q)
      by (apply (ratio_nonneg _ 10); lia).
    assert (Hlr : (0 <= inject_Z word_count / 50)%Q)
      by (apply (ratio_nonneg _ 50); [apply len_nonneg | lia]).
    assert (Hq1 : (0 <= Qmin (inject_Z (filler_word_count sa) / 10) (1 # 2))%Q)
      by (apply Q.min_glb; [exact Hfr | discriminate]).
    assert (Hq2 : (Qmin (inject_Z (filler_word_count sa) / 10) (1 # 2) <= 1 # 2)%Q)
      by apply Q.le_min_r.
    repeat constructor; try (apply Qmin_unit; [apply Hc || assumption]);
      try apply Hf; lra.
  - repeat split; try assumption; try apply len_nonneg; try apply count_if_range.
    unfold sentence_count, Py.re_split_terminators.
    pose proof (re_split_go_nonempty t EmptyString false). lia.
Qed.

(** ** Vocabulary diversity *)

Lemma size_list_to_set_distinct (l : list string) :
  size (list_to_set l : gset string) = distinct l.
Proof.
  unfold distinct.
  rewrite <- (size_list_to_set (C := gset string) (remove_dups l))
    by apply NoDup_remove_dups.
  f_equal. apply set_eq. intros x.
  now rewrite !elem_of_list_to_set, elem_of_remove_dups.
Qed.

(** C8, as stated, fails: in [.hi hi] the source strips the leading full
    stop too, so it sees one distinct form among two words (1/2), while
    stripping trailing punctuation only leaves two forms (2/2). *)
Lemma vocabulary_diversity_not_trailing :
  exists v,
    vocabulary_diversity_of (Py.split ".hi hi") = Ok v
    /\ (v == 1 # 2)%Q
    /\ (vocabulary_diversity_trailing (Py.split ".hi hi") == 1)%Q
    /\ ~ (v == vocabulary_diversity_trailing (Py.split ".hi hi"))%Q.
Proof.
  eexists. split; [vm_compute; reflexivity|].
  repeat split; try (vm_compute; reflexivity).
  intros H. vm_compute in H. discriminate H.
Qed.

Lemma vocabulary_diversity_closed (words : list string) :
  vocabulary_diversity_of words = Ok (vocabulary_diversity_both_ends words).
Proof.
  unfold vocabulary_diversity_of, vocabulary_diversity_both_ends.
  destruct words as [|w ws]; cbn [truthy]; [reflexivity|].
  unfold unique_words_of. rewrite size_list_to_set_distinct.
  apply truediv_ok, inject_Z_nonzero.
  rewrite len_cons. pose proof (len_nonneg ws). lia.
Qed.

(** C8, amended: for every transcript, vocabulary diversity is computed
    without error and is the number of distinct forms obtained by
    lowercasing each whitespace-separated word and stripping the
    punctuation characters at both of its ends, divided by the word count;
    it is 0 when there is no word. *)
Theorem vocabulary_diversity_both_ends_spec (t : string) :
  let words := Py.split t in
  vocabulary_diversity_of words = Ok (vocabulary_diversity_both_ends words)
  /\ (Py.len words = 0 -> vocabulary_diversity_both_ends words = 0%Q)
  /\ (0 < Py.len words ->
      vocabulary_diversity_both_ends words
      = (inject_Z (Z.of_nat (distinct (map (fun word =>
           Py.strip_chars word_punctuation (Py.lower word)) words)))
         / inject_Z (Py.len words))%Q).
Proof.
  intros words. split; [apply vocabulary_diversity_closed|].
  unfold vocabulary_diversity_both_ends at 1 2.
  subst words. destruct (Py.split t) as [|w ws]; cbn [truthy].
  - split; [reflexivity|]. intros H. unfold Py.len in H. cbn in H. lia.
  - split; [|reflexivity]. rewrite len_cons. pose proof (len_nonneg ws). lia.
Qed.

(** On [Hello, hello world.] two distinct forms among three words. *)
Lemma vocabulary_diversity_both_ends_witness :
  vocabulary_diversity_both_ends (Py.split "Hello, hello world.")
  = (inject_Z 2 / inject_Z 3)%Q.
Proof.
  destruct (vocabulary_diversity_both_ends_spec "Hello, hello world.") as (_ & _ & H).
  rewrite H by (vm_compute; reflexivity).
  vm_compute. reflexivity.
Defined.

(** ** The text-evaluation operation *)

Lemma handler_degraded (e : exn) (g : rng) :
  exists out,
    evaluate_text_only_handler e g = (Ok out, g)
    /\ is_degraded out
    /\ analysis out = Some (AnalysisError (str_of_exn e)).
Proof. eexists. split; [reflexivity|]. repeat split. Qed.

Lemma new_output_complete
    (t : string) (c f a : Z) (fb sg : string) (an : Analysis)
    (out : TranscriptionEvaluationOutput) :
  new_TranscriptionEvaluationOutput t c f a fb sg an = Ok out -> is_complete out.
Proof.
  unfold new_TranscriptionEvaluationOutput.
  destruct (in_0_100 c && in_0_100 f && in_0_100 a); [|discriminate].
  intros [= <-]. repeat split; cbn; eauto.
Qed.

Lemma body_complete
    (analyze : string -> M AnalysisResults) (input_data : TextEvaluationInput)
    (g g' : rng) (out : TranscriptionEvaluationOutput) :
  evaluate_text_only_body analyze input_data g = (Ok out, g') -> is_complete out.
Proof.
  unfold evaluate_text_only_body.
  destruct (Py.is_empty (Py.strip (input_transcription input_data))).
  - unfold lift. intros [= <- _]. repeat split; cbn; eauto.
  - unfold mbind, M_bind.
    destruct (analyze (Py.strip (input_transcription input_data)) g) as [[r|e] g1];
      [|discriminate].
    unfold lift. intros [= H _]. eapply new_output_complete, H.
Qed.

(** C1: whatever the analyzer does, and in particular with the analyzer of
    the source, the text-evaluation operation returns a complete evaluation
    record for every input string and every state of the random source, and
    never raises: when the body of its [try] block returns a record, that
    record is the result; when the body raises any exception (from feature
    extraction, scoring or the validation of the scores), the result is the
    fixed degraded record with clarity = confidence = articulation = 50 and
    the apology as feedback. *)
Theorem evaluate_text_only_never_raises
    (analyze : string -> M AnalysisResults) (input_data : TextEvaluationInput)
    (g : rng) :
  (exists out g',
     evaluate_text_only input_data g = (Ok out, g') /\ is_complete out)
  /\ (exists out g',
        evaluate_text_only_with analyze input_data g = (Ok out, g')
        /\ is_complete out)
  /\ match evaluate_text_only_body analyze input_data g with
     | (Ok out, g') => evaluate_text_only_with analyze input_data g = (Ok out, g')
     | (Raise e, g') =>
         exists out,
           evaluate_text_only_with analyze input_data g = (Ok out, g')
           /\ is_degraded out
           /\ analysis out = Some (AnalysisError (str_of_exn e))
     end.
Proof.
  assert (Hgen : forall an,
             exists out g',
               evaluate_text_only_with an input_data g = (Ok out, g')
               /\ is_complete out).
  { intros an. unfold evaluate_text_only_with, try_except.
    destruct (evaluate_text_only_body an input_data g) as [[out|e] g'] eqn:Hbody.
    - exists out, g'. split; [reflexivity|]. eapply body_complete, Hbody.
    - destruct (handler_degraded e g') as (out & H & _).
      exists out, g'. split; [exact H|].
      unfold evaluate_text_only_handler, lift in H. injection H as <-.
      repeat split; cbn; eauto. }
  split; [apply Hgen|]. split; [apply Hgen|].
  unfold evaluate_text_only_with, try_except.
  destruct (evaluate_text_only_body analyze input_data g) as [[out|e] g'].
  - reflexivity.
  - apply handler_degraded.
Qed.

(** A failing analyzer and an analyzer whose clarity (150) does not
    validate both end in the degraded record. *)
Lemma evaluate_text_only_never_raises_witness :
  (exists out g',
     evaluate_text_only_with failing_analyzer {| input_transcription := "Hello there" |} rng0
     = (Ok out, g') /\ is_degraded out)
  /\ (exists out g',
        evaluate_text_only_with overshooting_analyzer
          {| input_transcription := "Hello there" |} rng0
        = (Ok out, g') /\ is_degraded out).
Proof.
  split.
  - pose proof (evaluate_text_only_never_raises failing_analyzer
                  {| input_transcription := "Hello there" |} rng0) as (_ & _ & H).
    vm_compute (evaluate_text_only_body _ _ _) in H.
    destruct H as (out & H & Hd & _). now exists out, rng0.
  - pose proof (evaluate_text_only_never_raises overshooting_analyzer
                  {| input_transcription := "Hello there" |} rng0) as (_ & _ & H).
    vm_compute (evaluate_text_only_body _ _ _) in H.
    destruct H as (out & H & Hd & _). now exists out, rng0.
Defined.

(** ** Short and empty transcripts *)

Lemma lstrip_by_length (p : ascii -> bool) (s : string) :
  (String.length (Py.lstrip_by p s) <= String.length s)%nat.
Proof.
  induction s as [|c s IH]; cbn [Py.lstrip_by String.length]; [lia|].
  destruct (p c); cbn [String.length]; lia.
Qed.

Lemma rstrip_by_length (p : ascii -> bool) (s : string) :
  (String.length (Py.rstrip_by p s) <= String.length s)%nat.
Proof.
  induction s as [|c s IH]; cbn [Py.rstrip_by String.length]; [lia|].
  destruct (Py.rstrip_by p s); [destruct (p c)|]; cbn [String.length] in *; lia.
Qed.

Lemma strip_length (s : string) : Py.strlen (Py.strip s) <= Py.strlen s.
Proof.
  unfold Py.strlen, Py.strip, Py.strip_by.
  pose proof (rstrip_by_length Py.isspace (Py.lstrip_by Py.isspace s)).
  pose proof (lstrip_by_length Py.isspace s). lia.
Qed.

(** On a transcript caught by its guard the analyzer is the fallback
    generator. *)
Lemma analyze_too_short (t : string) (g : rng) :
  too_short t = true ->
  analyze_communication_skills t g
  = generate_random_evaluation "No speech detected or transcription too short" g.
Proof.
  unfold too_short, analyze_communication_skills. intros ->. reflexivity.
Qed.

(** C2, as stated, fails: for the empty transcript the operation does not
    take the fallback path; its scores are 0 and its feedback asks for
    text. *)
Lemma empty_transcript_not_fallback :
  ~ (exists out g',
       evaluate_text_only {| input_transcription := "" |} rng0 = (Ok out, g')
       /\ 40 <= clarity out <= 100
       /\ 40 <= confidence out <= 100
       /\ (exists a, articulation out = Some a /\ 40 <= a <= 100)
       /\ String.prefix "No speech detected or transcription too short"
                        (feedback out) = true).
Proof.
  intros (out & g' & H & Hc & _).
  vm_compute in H. injection H as <- _. cbn in Hc. lia.
Qed.

(** C2, amended: for every transcript whose trimmed length is between 1
    and 9, the result of the text-evaluation operation comes from the
    fallback generator: the three scores lie in [40, 100] and the feedback
    begins with the fallback reason.  The analyzer takes the fallback path
    for the empty transcript too, but the operation answers an empty or
    whitespace-only transcript itself, with scores 0 and a request for
    text. *)
Theorem short_transcript_fallback (input_data : TextEvaluationInput) (g : rng) :
  let t := Py.strip (input_transcription input_data) in
  (1 <= Py.strlen t < 10 ->
   exists out r,
     generate_random_evaluation "No speech detected or transcription too short" g
     = (Ok r, after 6 g)
     /\ evaluate_text_only input_data g = (Ok out, after 6 g)
     /\ clarity out = res_clarity r /\ 40 <= clarity out <= 100
     /\ confidence out = res_confidence r /\ 40 <= confidence out <= 100
     /\ articulation out = Some (res_articulation r)
     /\ 40 <= res_articulation r <= 100
     /\ feedback out = res_feedback r
     /\ String.prefix "No speech detected or transcription too short"
                      (feedback out) = true)
  /\ (forall s, s = "" \/ Py.strlen (Py.strip s) < 10 ->
      analyze_communication_skills s g
      = generate_random_evaluation "No speech detected or transcription too short" g)
  /\ (Py.strlen t = 0 ->
      exists out,
        evaluate_text_only input_data g = (Ok out, g)
        /\ clarity out = 0 /\ confidence out = 0 /\ articulation out = Some 0
        /\ feedback out
           = "Please provide some text to evaluate your communication skills.").
Proof.
  intros t. split; [|split].
  - intros [Hlo Hhi].
    assert (Hne : Py.is_empty t = false)
      by (destruct t; [unfold Py.strlen in Hlo; cbn in Hlo; lia | reflexivity]).
    assert (Hshort : too_short t = true).
    { unfold too_short. apply orb_true_iff. right.
      apply Z.ltb_lt. pose proof (strip_length t). lia. }
    pose proof (generate_random_evaluation_run
                  "No speech detected or transcription too short" g) as Hrun.
    cbv zeta in Hrun.
    pose proof (draw_range 65 85 g) as B1.
    pose proof (draw_range 65 85 (after 1 g)) as B2.
    pose proof (draw_range 65 85 (after 2 g)) as B3.
    pose proof (draw_range (-10) 10 (after 3 g)) as J1.
    pose proof (draw_range (-10) 10 (after 4 g)) as J2.
    pose proof (draw_range (-10) 10 (after 5 g)) as J3.
    set (c := Py.draw 65 85 g + Py.draw (-10) 10 (after 3 g)) in *.
    set (f := Py.draw 65 85 (after 1 g) + Py.draw (-10) 10 (after 4 g)) in *.
    set (a := Py.draw 65 85 (after 2 g) + Py.draw (-10) 10 (after 5 g)) in *.
    assert (Hc : 40 <= c <= 100) by lia.
    assert (Hf : 40 <= f <= 100) by lia.
    assert (Ha : 40 <= a <= 100) by lia.
    eexists. eexists. split; [exact Hrun|].
    cbn [res_clarity res_confidence res_articulation res_feedback].
    split.
    + unfold evaluate_text_only, evaluate_text_only_with, try_except,
        evaluate_text_only_body.
      fold t. rewrite Hne. unfold mbind, M_bind.
      rewrite (analyze_too_short t g Hshort), Hrun.
      unfold lift, new_TranscriptionEvaluationOutput, in_0_100.
      cbn [res_clarity res_confidence res_articulation res_feedback
           res_suggestions res_detailed_analysis].
      replace (0 <=? c) with true by (symmetry; apply Z.leb_le; lia).
      replace (c <=? 100) with true by (symmetry; apply Z.leb_le; lia).
      replace (0 <=? f) with true by (symmetry; apply Z.leb_le; lia).
      replace (f <=? 100) with true by (symmetry; apply Z.leb_le; lia).
      replace (0 <=? a) with true by (symmetry; apply Z.leb_le; lia).
      replace (a <=? 100) with true by (symmetry; apply Z.leb_le; lia).
      reflexivity.
    + cbn [clarity confidence articulation feedback].
      repeat split; lia.
  - intros s [-> | Hs]; apply analyze_too_short; unfold too_short.
    + reflexivity.
    + apply orb_true_iff. right. now apply Z.ltb_lt.
  - intros Hz.
    assert (He : t = "") by (destruct t; [reflexivity | unfold Py.strlen in Hz; cbn in Hz; lia]).
    eexists. split.
    + unfold evaluate_text_only, evaluate_text_only_with, try_except,
        evaluate_text_only_body.
      fold t. rewrite He. reflexivity.
    + repeat split.
Qed.

(** The transcript [  hi  ] has trimmed length 2 and gets fallback scores. *)
Lemma short_transcript_fallback_witness :
  exists out,
    fst (evaluate_text_only {| input_transcription := "  hi  " |} rng0) = Ok out
    /\ 40 <= clarity out <= 100
    /\ String.prefix "No speech detected or transcription too short"
                     (feedback out) = true.
Proof.
  destruct (short_transcript_fallback {| input_transcription := "  hi  " |} rng0)
    as (H & _ & _).
  destruct H as (out & r & _ & Ho & _ & Hc & _ & _ & _ & _ & _ & Hp).
  - vm_compute. split; [discriminate | reflexivity].
  - exists out. rewrite Ho. repeat split; [apply Hc | apply Hc | exact Hp].
Defined.

(** ** Feedback composer and the sample transcript *)

Lemma band3_in (score : Z) (high mid low : string) :
  In (band3 score high mid low) [high; mid; low].
Proof.
  unfold band3. destruct (score >=? 80); [|destruct (score >=? 60)]; cbn; auto.
Qed.

(** The composed parts always start with one sentence of each band, in the
    order overall, clarity, confidence, articulation. *)
Lemma feedback_parts_bands (overall : Q) (c f a : Z) (sa : SpeechAnalysis) :
  exists so sc sf sa',
    In so Feedback.overall_band
    /\ In sc Feedback.clarity_band
    /\ In sf Feedback.confidence_band
    /\ In sa' Feedback.articulation_band
    /\ feedback_parts_of overall c f a sa
       = so :: sc :: sf :: sa' :: situational_notes sa.
Proof.
  unfold feedback_parts_of. cbv zeta. cbn [app].
  do 4 eexists.
  split; [|split; [apply band3_in | split; [apply band3_in | split;
    [apply band3_in | reflexivity]]]].
  unfold Feedback.overall_band.
  destruct (Qle_bool 85 overall); [cbn; auto|].
  destruct (Qle_bool 75 overall); [cbn; auto|].
  destruct (Qle_bool 65 overall); [cbn; auto|].
  destruct (Qle_bool 55 overall); cbn; auto 6.
Qed.

Lemma generate_enhanced_feedback_run (c f a : Z) (t : string) (sa : SpeechAnalysis) :
  generate_enhanced_feedback c f a t sa
  = Ok (Py.join " " (feedback_parts_of (inject_Z (c + f + a) / 3) c f a sa)).
Proof.
  unfold generate_enhanced_feedback.
  rewrite truediv_ok by (intro H; discriminate H). reflexivity.
Qed.

(** The run of the analyzer on a transcript that passes its guard, given
    the features extracted from it: three jitter draws, then the composed
    texts. *)
Lemma analyze_communication_skills_run
    (t : string) (g : rng) (avg vd : Q) (sa : SpeechAnalysis) :
  too_short t = false ->
  avg_words_per_sentence_of t = Ok avg ->
  vocabulary_diversity_of (Py.split t) = Ok vd ->
  analyze_speech_patterns t (Py.split t) (Py.len (Py.split t)) = Ok sa ->
  let wc := Py.len (Py.split t) in
  let v := variation_range wc in
  let c := clamp 40 100 (calculate_enhanced_clarity_score t wc avg sa
                         + Py.draw (- v) v g) in
  let f := clamp 40 100 (calculate_enhanced_confidence_score t sa
                         + Py.draw (- v) v (after 1 g)) in
  let a := clamp 40 100 (calculate_enhanced_articulation_score t wc vd sa
                         + Py.draw (- v) v (after 2 g)) in
  analyze_communication_skills t g
  = (Ok {| res_clarity := c;
           res_confidence := f;
           res_articulation := a;
           res_feedback :=
             Py.join " " (feedback_parts_of (inject_Z (c + f + a) / 3) c f a sa);
           res_suggestions := generate_enhanced_suggestions c f a sa;
           res_detailed_analysis :=
             {| da_word_count := wc;
                da_sentence_count := Py.len (Py.re_split_terminators t) - 1;
                da_avg_words_per_sentence := Py.round avg 1;
                da_vocabulary_diversity := Py.round vd 2;
                da_speech_quality := quality_rating sa;
                da_filler_words := filler_word_count sa;
                da_complexity_score := complexity_score sa;
                da_transcription_length := Py.strlen t |} |},
     after 3 g).
Proof.
  intros Hguard Havg Hvd Hsa wc v c f a.
  unfold too_short in Hguard. unfold avg_words_per_sentence_of in Havg.
  unfold analyze_communication_skills. rewrite Hguard, Havg, Hvd, Hsa.
  unfold mbind at 1 2 3. unfold M_bind at 1 2 3. unfold lift at 1 2 3.
  unfold mbind at 1. unfold M_bind at 1. rewrite add_natural_variation_run.
  unfold mbind at 1. unfold M_bind at 1. rewrite add_natural_variation_run.
  unfold mbind at 1. unfold M_bind at 1. rewrite add_natural_variation_run.
  unfold mbind at 1. unfold M_bind at 1. unfold lift at 1.
  rewrite generate_enhanced_feedback_run.
  reflexivity.
Qed.

(** The analyzer raises on no transcript. *)
Lemma analyze_communication_skills_ok (t : string) (g : rng) :
  exists r g',
    analyze_communication_skills t g = (Ok r, g')
    /\ 40 <= res_clarity r <= 100
    /\ 40 <= res_confidence r <= 100
    /\ 40 <= res_articulation r <= 100.
Proof.
  destruct (too_short t) eqn:Hguard.
  - rewrite analyze_too_short by assumption.
    pose proof (generate_random_evaluation_run
                  "No speech detected or transcription too short" g) as Hrun.
    cbv zeta in Hrun. rewrite Hrun. do 2 eexists. split; [reflexivity|].
    cbn [res_clarity res_confidence res_articulation].
    pose proof (draw_range 65 85 g). pose proof (draw_range 65 85 (after 1 g)).
    pose proof (draw_range 65 85 (after 2 g)).
    pose proof (draw_range (-10) 10 (after 3 g)).
    pose proof (draw_range (-10) 10 (after 4 g)).
    pose proof (draw_range (-10) 10 (after 5 g)). lia.
  - destruct (avg_words_per_sentence_ok t) as (avg & Havg & _).
    destruct (vocabulary_diversity_ok (Py.split t)) as (vd & Hvd & _).
    destruct (analyze_speech_patterns_features t (Py.split t) (Py.len (Py.split t))
                (len_nonneg _)) as (sa & Hsa & _).
    rewrite (analyze_communication_skills_run t g avg vd sa Hguard Havg Hvd Hsa).
    do 2 eexists. split; [reflexivity|].
    cbn [res_clarity res_confidence res_articulation].
    repeat split; apply clamp_range; lia.
Qed.

(** The pre-jitter clarity and confidence of the sample transcript: the
    confidence is 55 + 6 + 6 (confident, excited) - 3 (one filler word). *)
Example scenario_pre_jitter : pre_jitter_scores scenario 0 = Ok (80, 64).
Proof. vm_compute. reflexivity. Qed.

(** C7, as stated, fails: the sample transcript has 17 whitespace-separated
    words, not 16, and the analysis record reports 17. *)
Lemma scenario_word_count_not_16 :
  Py.len (Py.split scenario) = 17
  /\ ~ (exists r g',
          analyze_communication_skills scenario rng0 = (Ok r, g')
          /\ da_word_count (res_detailed_analysis r) = 16).
Proof.
  split; [vm_compute; reflexivity|].
  intros (r & g' & H & Hwc).
  vm_compute in H. injection H as <- _. cbn in Hwc. discriminate Hwc.
Qed.

(** C7, amended: for the sample transcript and every state of the random
    source, the analyzer returns a record with word_count = 17,
    sentence_count = 2 and filler_word_count = 1 (the single hit is
    [like]), whose feedback text is one sentence of the overall band, one
    of the clarity band, one of the confidence band and one of the
    articulation band, in that order, followed by the situational notes,
    joined by single spaces. *)
Theorem scenario_analysis (g : rng) :
  exists r so sc sf sa rest,
    analyze_communication_skills scenario g = (Ok r, after 3 g)
    /\ da_word_count (res_detailed_analysis r) = 17
    /\ da_sentence_count (res_detailed_analysis r) = 2
    /\ da_filler_words (res_detailed_analysis r) = 1
    /\ map (Py.count (Py.lower scenario)) filler_words = [0; 0; 1; 0; 0; 0; 0; 0; 0]
    /\ In so Feedback.overall_band
    /\ In sc Feedback.clarity_band
    /\ In sf Feedback.confidence_band
    /\ In sa Feedback.articulation_band
    /\ res_feedback r = Py.join " " (so :: sc :: sf :: sa :: rest).
Proof.
  eexists.
  edestruct feedback_parts_bands as (so & sc & sf & sa & Ho & Hc & Hf & Ha & Hparts).
  exists so, sc, sf, sa. eexists.
  split.
  { eapply analyze_communication_skills_run; vm_compute; reflexivity. }
  cbn [res_detailed_analysis da_word_count da_sentence_count da_filler_words
       res_feedback filler_word_count].
  split; [vm_compute; reflexivity|].
  split; [vm_compute; reflexivity|].
  split; [vm_compute; reflexivity|].
  split; [vm_compute; reflexivity|].
  repeat (split; [eassumption|]).
  rewrite Hparts. reflexivity.
Qed.

(** * Further properties of the analyzer *)

(** ** What the text operation returns *)

Lemma in_0_100_true (n : Z) : 0 <= n <= 100 -> in_0_100 n = true.
Proof.
  intros H. unfold in_0_100. apply andb_true_iff. split; apply Z.leb_le; lia.
Qed.

Lemma new_output_valid
    (t : string) (c f a : Z) (fb sg : string) (an : Analysis) :
  0 <= c <= 100 -> 0 <= f <= 100 -> 0 <= a <= 100 ->
  new_TranscriptionEvaluationOutput t c f a fb sg an
  = Ok {| transcription := t; clarity := c; confidence := f;
          articulation := Some a; feedback := fb; suggestions := Some sg;
          analysis := Some an |}.
Proof.
  intros Hc Hf Ha. unfold new_TranscriptionEvaluationOutput.
  now rewrite !in_0_100_true by assumption.
Qed.

(** With the analyzer of the source the [except] branch of the text
    operation is never taken: a transcript that is not blank comes back
    trimmed, with the scores, texts and detailed analysis of the analyzer,
    and each score lies in [40, 100]. *)
Theorem evaluate_text_only_returns_analysis
    (input_data : TextEvaluationInput) (g : rng) :
  let t := Py.strip (input_transcription input_data) in
  t <> "" ->
  exists r g',
    analyze_communication_skills t g = (Ok r, g')
    /\ evaluate_text_only input_data g
       = (Ok {| transcription := t;
                clarity := res_clarity r;
                confidence := res_confidence r;
                articulation := Some (res_articulation r);
                feedback := res_feedback r;
                suggestions := Some (res_suggestions r);
                analysis := Some (AnalysisDetail (res_detailed_analysis r)) |}, g')
    /\ 40 <= res_clarity r <= 100
    /\ 40 <= res_confidence r <= 100
    /\ 40 <= res_articulation r <= 100.
Proof.
  intros t Hne.
  destruct (analyze_communication_skills_ok t g) as (r & g' & Hr & Hc & Hf & Ha).
  exists r, g'. split; [exact Hr|]. split; [|auto].
  unfold evaluate_text_only, evaluate_text_only_with, try_except,
    evaluate_text_only_body.
  fold t. destruct t as [|c0 t0] eqn:Et; [contradiction|].
  cbn [Py.is_empty]. unfold mbind, M_bind. rewrite Hr. unfold lift.
  rewrite new_output_valid by lia. reflexivity.
Qed.

Lemma evaluate_text_only_returns_analysis_witness :
  exists r g',
    analyze_communication_skills "I think so" rng0 = (Ok r, g')
    /\ fst (evaluate_text_only {| input_transcription := " I think so " |} rng0)
       = Ok {| transcription := "I think so";
               clarity := res_clarity r;
               confidence := res_confidence r;
               articulation := Some (res_articulation r);
               feedback := res_feedback r;
               suggestions := Some (res_suggestions r);
               analysis := Some (AnalysisDetail (res_detailed_analysis r)) |}.
Proof.
  destruct (evaluate_text_only_returns_analysis {| input_transcription := " I think so " |} rng0)
    as (r & g' & Hr & He & _).
  - vm_compute. discriminate.
  - exists r, g'. split; [exact Hr|]. now rewrite He.
Defined.

(** ** The random source as the analyzer uses it *)

(** The text operation draws nothing for a blank transcript, six numbers on
    the fallback path and three otherwise; it never raises in between, so
    the source is left exactly that many draws further. *)
Theorem evaluate_text_only_draws (input_data : TextEvaluationInput) (g : rng) :
  let t := Py.strip (input_transcription input_data) in
  snd (evaluate_text_only input_data g)
  = if Py.is_empty t then g
    else if too_short t then after 6 g else after 3 g.
Proof.
  intros t.
  unfold evaluate_text_only, evaluate_text_only_with, try_except,
    evaluate_text_only_body.
  fold t. destruct (Py.is_empty t) eqn:Ee; [reflexivity|].
  assert (Hsnd : snd (analyze_communication_skills t g)
                 = if too_short t then after 6 g else after 3 g).
  { destruct (too_short t) eqn:Hguard.
    - rewrite analyze_too_short by assumption.
      pose proof (generate_random_evaluation_run
                    "No speech detected or transcription too short" g) as Hrun.
      cbv zeta in Hrun. now rewrite Hrun.
    - destruct (avg_words_per_sentence_ok t) as (avg & Havg & _).
      destruct (vocabulary_diversity_ok (Py.split t)) as (vd & Hvd & _).
      destruct (analyze_speech_patterns_features t (Py.split t) (Py.len (Py.split t))
                  (len_nonneg _)) as (sa & Hsa & _).
      now rewrite (analyze_communication_skills_run t g avg vd sa Hguard Havg Hvd Hsa). }
  destruct (analyze_communication_skills_ok t g) as (r & g' & Hr & Hc & Hf & Ha).
  rewrite Hr in Hsnd. cbn [snd] in Hsnd. subst g'.
  unfold mbind, M_bind. rewrite Hr. unfold lift.
  rewrite new_output_valid by lia. reflexivity.
Qed.

(** ** The variation injector on a score that is already in range *)

(** A base score in [40, 100] moves by at most the variation range, which
    is at most 15; and for one state of the random source and one word
    count a higher base score never ends lower. *)
Theorem add_natural_variation_bounded (base_score word_count : Z) (g : rng) :
  40 <= base_score <= 100 ->
  exists s,
    add_natural_variation base_score word_count g = (Ok s, advance g)
    /\ Z.abs (s - base_score) <= variation_range word_count
    /\ variation_range word_count <= 15
    /\ forall base_score' s',
         base_score <= base_score' ->
         add_natural_variation base_score' word_count g = (Ok s', advance g) ->
         s <= s'.
Proof.
  intros Hb.
  assert (Hv : 5 <= variation_range word_count <= 15) by (apply clamp_range; lia).
  pose proof (draw_range (- variation_range word_count) (variation_range word_count) g)
    as Hd.
  eexists. split; [apply add_natural_variation_run|].
  repeat split.
  - unfold clamp at 1.
    destruct (Z.ltb_spec (base_score
                + Py.draw (- variation_range word_count) (variation_range word_count) g) 40);
      [lia|].
    destruct (Z.ltb_spec 100 (base_score
                + Py.draw (- variation_range word_count) (variation_range word_count) g));
      lia.
  - lia.
  - intros b' s' Hle Hrun.
    rewrite add_natural_variation_run in Hrun. injection Hrun as <-.
    rewrite <- !min_max_clamp by lia. lia.
Qed.

Lemma add_natural_variation_bounded_witness :
  exists s,
    add_natural_variation 70 120 rng0 = (Ok s, advance rng0)
    /\ Z.abs (s - 70) <= 12.
Proof.
  destruct (add_natural_variation_bounded 70 120 rng0) as (s & Hs & Habs & _).
  - lia.
  - exists s. split; [exact Hs|]. exact Habs.
Defined.

(** ** Words and sentences *)

Lemma snoc_append (cur : string) (c : ascii) (s : string) :
  Py.snoc cur c +:+ s = cur +:+ String c s.
Proof.
  unfold Py.snoc. induction cur as [|d cur IH]; [reflexivity|].
  change (String d ((cur +:+ String c "") +:+ s) = String d (cur +:+ String c s)).
  now f_equal.
Qed.

Lemma append_empty_r (s : string) : s +:+ "" = s.
Proof.
  induction s as [|c s IH]; [reflexivity|].
  change (String c (s +:+ "") = String c s). now f_equal.
Qed.

Lemma re_split_go_no_terminator (s cur : string) (in_run : bool) :
  all_chars (fun c => negb (Py.is_terminator c)) s = true ->
  Py.re_split_go s cur in_run = [cur +:+ s].
Proof.
  revert cur in_run. induction s as [|c s IH]; intros cur in_run H; cbn [Py.re_split_go].
  - now rewrite append_empty_r.
  - cbn [all_chars] in H. apply andb_true_iff in H. destruct H as [Hc Hs].
    apply negb_true_iff in Hc. rewrite Hc. rewrite IH by assumption.
    f_equal. apply snoc_append.
Qed.

(** A transcript without [.], [!] or [?] has sentence count 0, and its
    average sentence length is its word count: the divisor is floored
    at 1. *)
Theorem avg_without_terminators (t : string) :
  all_chars (fun c => negb (Py.is_terminator c)) t = true ->
  Py.len (Py.re_split_terminators t) - 1 = 0
  /\ avg_words_per_sentence_of t = Ok (inject_Z (Py.len (Py.split t)) / 1)%Q.
Proof.
  intros H. unfold avg_words_per_sentence_of, Py.re_split_terminators.
  rewrite re_split_go_no_terminator by assumption.
  split; [reflexivity|]. reflexivity.
Qed.

Lemma avg_without_terminators_witness :
  avg_words_per_sentence_of "so we went home and slept" = Ok (inject_Z 6 / 1)%Q.
Proof.
  destruct (avg_without_terminators "so we went home and slept") as [_ H].
  - reflexivity.
  - exact H.
Defined.

Lemma split_go_nil (s cur : string) :
  Py.split_go s cur = [] -> cur = "" /\ all_chars Py.isspace s = true.
Proof.
  revert cur. induction s as [|c s IH]; intros cur; cbn [Py.split_go all_chars].
  - destruct cur; [auto | discriminate].
  - destruct (Py.isspace c) eqn:Hc.
    + destruct cur; cbn [Py.is_empty]; [|discriminate].
      intros H. apply IH in H. tauto.
    + intros H. apply IH in H. destruct H as [H _].
      unfold Py.snoc in H. destruct cur; discriminate H.
Qed.

Lemma lstrip_all_space (s : string) :
  all_chars Py.isspace s = true -> Py.lstrip_by Py.isspace s = "".
Proof.
  induction s as [|c s IH]; cbn [all_chars Py.lstrip_by]; [reflexivity|].
  intros H. apply andb_true_iff in H. destruct H as [-> Hs]. auto.
Qed.

Lemma split_nil_strip (t : string) : Py.split t = [] -> Py.strip t = "".
Proof.
  intros H. apply split_go_nil in H. destruct H as [_ H].
  unfold Py.strip, Py.strip_by. now rewrite lstrip_all_space.
Qed.

(** A transcript that passes the guard of the analyzer has at least one
    word, so its vocabulary diversity and its average sentence length are
    positive: the [if words else 0] branch is not taken after the guard. *)
Theorem words_after_guard (t : string) :
  too_short t = false ->
  1 <= Py.len (Py.split t)
  /\ (exists vd, vocabulary_diversity_of (Py.split t) = Ok vd /\ (0 < vd)%Q)
  /\ (exists avg, avg_words_per_sentence_of t = Ok avg /\ (0 < avg)%Q).
Proof.
  intros Hguard. unfold too_short in Hguard.
  apply orb_false_iff in Hguard. destruct Hguard as [_ Hlen].
  apply Z.ltb_ge in Hlen.
  assert (Hw : 1 <= Py.len (Py.split t)).
  { destruct (Py.split t) as [|w ws] eqn:E.
    - apply split_nil_strip in E. rewrite E in Hlen.
      unfold Py.strlen in Hlen. cbn in Hlen. lia.
    - rewrite len_cons. pose proof (len_nonneg ws). lia. }
  split; [exact Hw|]. split.
  - rewrite vocabulary_diversity_closed. eexists. split; [reflexivity|].
    unfold vocabulary_diversity_both_ends.
    destruct (Py.split t) as [|w ws] eqn:E;
      [unfold Py.len in Hw; cbn in Hw; lia|].
    cbn [truthy]. rewrite <- E. rewrite <- E in Hw.
    apply Qlt_shift_div_l; [apply inject_Z_pos; lia|].
    rewrite Qmult_0_l. apply inject_Z_pos.
    rewrite E. unfold distinct. cbn [map remove_dups].
    destruct (decide_rel elem_of _ _); cbn [List.length]; [|lia].
    apply list_elem_of_In in e.
    assert (Hin : In (Py.strip_chars word_punctuation (Py.lower w))
                     (remove_dups (map (fun word =>
                        Py.strip_chars word_punctuation (Py.lower word)) ws))).
    { apply list_elem_of_In, elem_of_remove_dups, list_elem_of_In, e. }
    destruct (remove_dups _); [destruct Hin | cbn [List.length]; lia].
  - unfold avg_words_per_sentence_of. eexists. split.
    + apply truediv_ok, inject_Z_nonzero. lia.
    + apply Qlt_shift_div_l; [apply inject_Z_pos; lia|].
      rewrite Qmult_0_l. apply inject_Z_pos. lia.
Qed.

Lemma words_after_guard_witness : 1 <= Py.len (Py.split "it was a long day").
Proof.
  assert (G : too_short "it was a long day" = false) by reflexivity.
  destruct (words_after_guard "it was a long day" G) as [H _].
  exact H.
Defined.

(** ** Complexity and flow *)

Lemma count_if_disjoint {A} (p q : A -> bool) (l : list A) :
  (forall x, p x = true -> q x = false) ->
  count_if p l + count_if q l <= Py.len l.
Proof.
  intros Hpq. unfold count_if.
  induction l as [|x l IH]; [unfold Py.len, Py.sum; cbn; lia|].
  rewrite len_cons. cbn [List.filter]. unfold Py.sum in *.
  specialize (Hpq x).
  destruct (p x), (q x); cbn [map fold_right];
    try (specialize (Hpq eq_refl); discriminate Hpq); lia.
Qed.

Lemma long_not_short (s : string) :
  (Py.len (Py.split s) >? 15) = true -> (Py.len (Py.split s) <? 5) = false.
Proof. intros H. apply Z.gtb_lt in H. apply Z.ltb_ge. lia. Qed.

Lemma speech_patterns_complexity_le_flow (t : string) (words : list string) (wc : Z) :
  exists sa,
    analyze_speech_patterns t words wc = Ok sa
    /\ (complexity_score sa <= flow_score sa)%Q.
Proof.
  unfold analyze_speech_patterns.
  destruct (sentences_of t) as [|s l] eqn:E; cbn [truthy mbind result_bind].
  - rewrite !truediv_ok by (intro H; discriminate H).
    eexists. split; [reflexivity|]. cbn [complexity_score flow_score]. discriminate.
  - rewrite <- E.
    assert (Hn : 0 < Py.len (sentences_of t))
      by (rewrite E, len_cons; pose proof (len_nonneg l); lia).
    rewrite !(truediv_ok _ (inject_Z (Py.len (sentences_of t))))
      by (apply inject_Z_nonzero; lia).
    cbn [mbind result_bind].
    rewrite !truediv_ok by (intro H; discriminate H).
    eexists. split; [reflexivity|]. cbn [complexity_score flow_score].
    pose proof (count_if_disjoint _ _ (sentences_of t) long_not_short) as Hsum.
    pose proof (count_if_range (fun s => Py.len (Py.split s) >? 15) (sentences_of t)) as Hc.
    pose proof (count_if_range (fun s => Py.len (Py.split s) <? 5) (sentences_of t)) as Hs.
    set (c := count_if (fun s => Py.len (Py.split s) >? 15) (sentences_of t)) in *.
    set (k := count_if (fun s => Py.len (Py.split s) <? 5) (sentences_of t)) in *.
    set (n := Py.len (sentences_of t)) in *.
    destruct (ratio_unit (c + k) n) as [_ Hle]; [lia | lia |].
    assert (Hsplit : (inject_Z (c + k) / inject_Z n
                      == inject_Z c / inject_Z n + inject_Z k / inject_Z n)%Q).
    { rewrite inject_Z_plus. unfold Qdiv. ring. }
    rewrite Hsplit in Hle. lra.
Qed.

Lemma situational_complexity_good (sa : SpeechAnalysis) :
  In Feedback.complexity_good (situational_notes sa) ->
  Qgt_bool (complexity_score sa) (7 # 10) = true.
Proof.
  unfold situational_notes. cbv zeta.
  destruct (Qgt_bool (complexity_score sa) (7 # 10)); [reflexivity|].
  destruct (filler_word_count sa >? 3), (Qlt_bool (complexity_score sa) (3 # 10)),
    (Qgt_bool (flow_score sa) (8 # 10)), (Qlt_bool (flow_score sa) (5 # 10));
    cbn; intros H; repeat (destruct H as [H|H]; [discriminate H|]); destruct H.
Qed.

Lemma situational_flow_poor (sa : SpeechAnalysis) :
  In Feedback.flow_poor (situational_notes sa) ->
  Qlt_bool (flow_score sa) (5 # 10) = true.
Proof.
  unfold situational_notes. cbv zeta.
  destruct (Qlt_bool (flow_score sa) (5 # 10)); [reflexivity|].
  destruct (filler_word_count sa >? 3), (Qgt_bool (complexity_score sa) (7 # 10)),
    (Qlt_bool (complexity_score sa) (3 # 10)), (Qgt_bool (flow_score sa) (8 # 10));
    cbn; intros H; repeat (destruct H as [H|H]; [discriminate H|]); destruct H.
Qed.

(** A sentence of more than 15 words is not one of fewer than 5, so the
    long and the short sentences together are at most all sentences.  Hence
    no feedback both praises the sentence complexity, which takes more than
    0.7 of the sentences to be long, and asks for a better flow, which takes
    more than half of them to be short; the two thresholds lie apart by far
    more than any rounding of the two quotients. *)
Theorem complexity_praise_excludes_flow_warning
    (t : string) (words : list string) (wc : Z) :
  count_if (fun s => Py.len (Py.split s) >? 15) (sentences_of t)
  + count_if (fun s => Py.len (Py.split s) <? 5) (sentences_of t)
  <= Py.len (sentences_of t)
  /\ exists sa,
       analyze_speech_patterns t words wc = Ok sa
       /\ ~ (In Feedback.complexity_good (situational_notes sa)
             /\ In Feedback.flow_poor (situational_notes sa)).
Proof.
  split; [apply count_if_disjoint, long_not_short|].
  destruct (speech_patterns_complexity_le_flow t words wc) as (sa & Hsa & Hle).
  exists sa. split; [exact Hsa|].
  intros [Hc Hf].
  apply situational_complexity_good in Hc. apply situational_flow_poor in Hf.
  unfold Qgt_bool, Qlt_bool in *.
  apply negb_true_iff in Hc. apply negb_true_iff in Hf.
  assert (Hc' : ~ (complexity_score sa <= 7 # 10)%Q)
    by (intros H; apply Qle_bool_iff in H; congruence).
  assert (Hf' : ~ (5 # 10 <= flow_score sa)%Q)
    by (intros H; apply Qle_bool_iff in H; congruence).
  apply Hf'. apply Qnot_le_lt in Hc'. lra.
Qed.

(** ** Suggestions *)

Lemma suggestions_profile_run (c f a : Z) (sa : SpeechAnalysis) :
  suggestions_profile (generate_enhanced_suggestions c f a sa)
  = [ c <? 70; f <? 70; a <? 70; filler_word_count sa >? 5;
      Qlt_bool (complexity_score sa) (4 # 10);
      Qlt_bool (flow_score sa) (6 # 10);
      (c >=? 80) && (f >=? 80) && (a >=? 80);
      true ].
Proof.
  unfold generate_enhanced_suggestions. cbv zeta.
  generalize ((c >=? 80) && (f >=? 80) && (a >=? 80)).
  generalize (c <? 70), (f <? 70), (a <? 70), (filler_word_count sa >? 5),
    (Qlt_bool (complexity_score sa) (4 # 10)), (Qlt_bool (flow_score sa) (6 # 10)).
  intros b1 b2 b3 b4 b5 b6 b7.
  destruct b1, b2, b3, b4, b5, b6, b7; vm_compute; reflexivity.
Qed.

(** The suggestions text holds the block of a score exactly when that
    score is below 70, the filler, complexity and flow blocks exactly when
    their thresholds are crossed, the advanced block exactly when all three
    scores are at least 80, and always ends with the daily-practice block;
    so the advanced block never comes with the block of a score. *)
Theorem suggestions_blocks (c f a : Z) (sa : SpeechAnalysis) :
  let s := generate_enhanced_suggestions c f a sa in
  Py.contains "**Clarity Improvement:**" s = (c <? 70)
  /\ Py.contains "**Confidence Building:**" s = (f <? 70)
  /\ Py.contains "**Articulation Enhancement:**" s = (a <? 70)
  /\ Py.contains "**Reduce Filler Words:**" s = (filler_word_count sa >? 5)
  /\ Py.contains "**Sentence Complexity:**" s = Qlt_bool (complexity_score sa) (4 # 10)
  /\ Py.contains "**Improve Speech Flow:**" s = Qlt_bool (flow_score sa) (6 # 10)
  /\ Py.contains "**Advanced Development:**" s
     = (c >=? 80) && (f >=? 80) && (a >=? 80)
  /\ ends_with daily_practice_block s = true
  /\ (Py.contains "**Advanced Development:**" s = true ->
      Py.contains "**Clarity Improvement:**" s = false
      /\ Py.contains "**Confidence Building:**" s = false
      /\ Py.contains "**Articulation Enhancement:**" s = false).
Proof.
  intros s.
  pose proof (suggestions_profile_run c f a sa) as H.
  unfold suggestions_profile in H. fold s in H. clearbody s.
  injection H as H1 H2 H3 H4 H5 H6 H7 H8.
  repeat (split; [assumption|]).
  rewrite H1, H2, H3, H7. intros Hadv.
  apply andb_true_iff in Hadv. destruct Hadv as [Hadv Ha].
  apply andb_true_iff in Hadv. destruct Hadv as [Hc Hf].
  apply Z.geb_le in Hc, Hf, Ha.
  repeat split; apply Z.ltb_ge; lia.
Qed.

Lemma suggestions_blocks_witness :
  Py.contains "**Clarity Improvement:**"
    (generate_enhanced_suggestions 90 85 80 blank_features) = false.
Proof.
  destruct (suggestions_blocks 90 85 80 blank_features)
    as (_ & _ & _ & _ & _ & _ & _ & _ & H).
  apply H. vm_compute. reflexivity.
Defined.

(** ** Letter case *)

Ltac by_all_chars c :=
  destruct c as [[] [] [] [] [] [] [] []]; reflexivity.

Lemma lower_char_idem (c : ascii) : Py.lower_char (Py.lower_char c) = Py.lower_char c.
Proof. by_all_chars c. Qed.

Lemma isspace_lower_char (c : ascii) : Py.isspace (Py.lower_char c) = Py.isspace c.
Proof. by_all_chars c. Qed.


Lemma lower_idem (s : string) : Py.lower (Py.lower s) = Py.lower s.
Proof.
  induction s as [|c s IH]; cbn [Py.lower]; [reflexivity|].
  now rewrite lower_char_idem, IH.
Qed.

Lemma lower_length (s : string) : String.length (Py.lower s) = String.length s.
Proof. induction s as [|c s IH]; cbn [Py.lower String.length]; congruence. Qed.








Lemma lstrip_lower (s : string) :
  Py.lstrip_by Py.isspace (Py.lower s) = Py.lower (Py.lstrip_by Py.isspace s).
Proof.
  induction s as [|c s IH]; cbn [Py.lower Py.lstrip_by]; [reflexivity|].
  rewrite isspace_lower_char. now destruct (Py.isspace c).
Qed.

Lemma rstrip_lower (s : string) :
  Py.rstrip_by Py.isspace (Py.lower s) = Py.lower (Py.rstrip_by Py.isspace s).
Proof.
  induction s as [|c s IH]; cbn [Py.lower Py.rstrip_by]; [reflexivity|].
  rewrite IH, isspace_lower_char.
  destruct (Py.rstrip_by Py.isspace s); cbn [Py.lower]; [|reflexivity].
  now destruct (Py.isspace c).
Qed.

Lemma strip_lower (s : string) : Py.strip (Py.lower s) = Py.lower (Py.strip s).
Proof. unfold Py.strip, Py.strip_by. now rewrite lstrip_lower, rstrip_lower. Qed.












(** * The audio path *)

(** ** Recognising fallback messages *)

Lemma prefix_length (p s : string) :
  String.prefix p s = true -> (String.length p <= String.length s)%nat.
Proof.
  revert p. induction s as [|c s IH]; intros [|d p]; cbn [String.prefix String.length];
    try discriminate; try lia.
  destruct (ascii_dec d c); [|discriminate]. intros H. apply IH in H. lia.
Qed.

Lemma contains_length (p s : string) :
  Py.contains p s = true -> (String.length p <= String.length s)%nat.
Proof.
  induction s as [|c s IH]; cbn [Py.contains]; intros H;
    apply orb_true_iff in H; destruct H as [H|H]; try discriminate.
  - now apply prefix_length.
  - now apply prefix_length.
  - apply IH in H. cbn [String.length]. lia.
Qed.

Lemma prefix_app (p s b : string) :
  String.prefix p s = true -> String.prefix p (s +:+ b) = true.
Proof.
  revert p. induction s as [|c s IH]; intros [|d p] H.
  - now destruct b.
  - discriminate H.
  - reflexivity.
  - cbn [String.prefix] in H.
    change (String.prefix (String d p) (String c (s +:+ b)) = true).
    cbn [String.prefix]. destruct (ascii_dec d c); [now apply IH | discriminate H].
Qed.

Lemma contains_app_l (p s b : string) :
  Py.contains p s = true -> Py.contains p (s +:+ b) = true.
Proof.
  induction s as [|c s IH]; intros H.
  - cbn [Py.contains] in H. rewrite orb_false_r in H.
    destruct p; [now destruct b | discriminate H].
  - cbn [Py.contains] in H. apply orb_true_iff in H.
    change (Py.contains p (String c (s +:+ b)) = true). cbn [Py.contains].
    apply orb_true_iff. destruct H as [H|H].
    + left. now apply (prefix_app p (String c s) b).
    + right. now apply IH.
Qed.

Lemma contains_app_r (p a s : string) :
  Py.contains p s = true -> Py.contains p (a +:+ s) = true.
Proof.
  intros H. induction a as [|c a IH]; [exact H|].
  change (Py.contains p (String c (a +:+ s)) = true). cbn [Py.contains].
  apply orb_true_iff. now right.
Qed.

Lemma lower_app (a b : string) : Py.lower (a +:+ b) = Py.lower a +:+ Py.lower b.
Proof.
  induction a as [|c a IH]; [reflexivity|].
  change (String (Py.lower_char c) (Py.lower (a +:+ b))
          = String (Py.lower_char c) (Py.lower a +:+ Py.lower b)).
  now f_equal.
Qed.

(** The detector of fallback messages ignores letter case, flags every text
    that holds a flagged text, flags no text of fewer than 23 characters,
    and flags the two notices that the service itself returns for an empty
    recording and for speech it could not understand. *)
Theorem fallback_message_detection :
  (forall t, is_fallback_message (Py.lower t) = is_fallback_message t)
  /\ (forall a t b,
        is_fallback_message t = true ->
        is_fallback_message (a +:+ t +:+ b) = true)
  /\ (forall t, Py.strlen t < 23 -> is_fallback_message t = false)
  /\ is_fallback_message empty_audio_message = true
  /\ is_fallback_message tips_message = true.
Proof.
  split; [|split; [|split; [|split; vm_compute; reflexivity]]].
  - intros t. unfold is_fallback_message. now rewrite lower_idem.
  - intros a t b H. unfold is_fallback_message in *.
    apply existsb_exists in H. destruct H as (p & Hin & Hp).
    apply existsb_exists. exists p. split; [exact Hin|].
    rewrite !lower_app. apply contains_app_r, contains_app_l, Hp.
  - intros t Hlen. unfold is_fallback_message.
    destruct (existsb _ fallback_patterns) eqn:E; [|reflexivity].
    apply existsb_exists in E. destruct E as (p & Hin & Hp).
    apply contains_length in Hp. rewrite lower_length in Hp.
    unfold Py.strlen in Hlen.
    unfold fallback_patterns in Hin. cbn [In] in Hin.
    repeat (destruct Hin as [<-|Hin]; [cbn [String.length] in Hp; lia|]).
    destruct Hin.
Qed.

Lemma fallback_message_detection_witness :
  is_fallback_message "Sorry: Audio Processing FAILED, retry" = true
  /\ is_fallback_message "audio failed" = false.
Proof.
  destruct fallback_message_detection as (_ & Happ & Hshort & _).
  split.
  - apply (Happ "Sorry: " "Audio Processing FAILED" ", retry"). reflexivity.
  - apply Hshort. reflexivity.
Defined.

(** ** The audio operation *)

Lemma audio_handler_degraded (e : py_exn) (g : rng) :
  evaluate_transcription_handler e g
  = (Returned {| transcription := "Unable to transcribe audio. Please try again.";
                 clarity := 50;
                 confidence := 50;
                 articulation := Some 50;
                 feedback :=
                   "There was an error processing your audio. Please check your microphone and try again.";
                 suggestions :=
                   Some "Ensure your microphone is working properly and you're speaking clearly.";
                 analysis := Some (AnalysisError (str_of_service_exn e)) |}, g).
Proof. reflexivity. Qed.

(** Whatever the transcriber and the analyzer do, the audio operation
    returns a record and never raises; when the transcriber raises or
    returns [None] (whose length cannot be taken), the record is the fixed
    one with three scores of 50 and an error text as analysis. *)
Theorem evaluate_transcription_never_raises
    (transcribe : string -> string -> outcome (option string))
    (analyze : string -> M AnalysisResults)
    (input_data : TranscriptionEvaluationInput) (g : rng) :
  (exists out g',
     evaluate_transcription_with transcribe analyze input_data g = (Returned out, g')
     /\ is_complete out)
  /\ ((transcribe (audioData input_data) (format input_data) = Returned None
       \/ exists e, transcribe (audioData input_data) (format input_data) = Thrown e) ->
      exists out msg,
        evaluate_transcription_with transcribe analyze input_data g = (Returned out, g)
        /\ clarity out = 50 /\ confidence out = 50 /\ articulation out = Some 50
        /\ transcription out = "Unable to transcribe audio. Please try again."
        /\ analysis out = Some (AnalysisError msg)).
Proof.
  split.
  - unfold evaluate_transcription_with, ST_try_except.
    destruct (evaluate_transcription_body transcribe analyze input_data g)
      as [[out|e] g'] eqn:Hbody.
    + exists out, g'. split; [reflexivity|].
      unfold evaluate_transcription_body, mbind, ST_bind, pure_outcome in Hbody.
      destruct (transcribe _ _) as [[t|]|e]; cbn in Hbody; try discriminate.
      unfold of_M in Hbody. destruct (analyze t g) as [[r|e] g1]; cbn in Hbody;
        [|discriminate].
      destruct (new_TranscriptionEvaluationOutput _ _ _ _ _ _ _) as [o|e] eqn:Hnew;
        cbn in Hbody; [|discriminate].
      injection Hbody as <- _. eapply new_output_complete, Hnew.
    + rewrite audio_handler_degraded. do 2 eexists. split; [reflexivity|].
      repeat split; cbn; eauto.
  - intros H. unfold evaluate_transcription_with, ST_try_except,
      evaluate_transcription_body, mbind, ST_bind, pure_outcome.
    destruct H as [-> | [e ->]]; cbn; do 2 eexists; repeat split.
Qed.

Lemma evaluate_transcription_never_raises_witness :
  exists out,
    fst (evaluate_transcription_with (fun _ _ => Returned None)
           analyze_communication_skills {| audioData := ""; format := "webm" |} rng0)
    = Returned out
    /\ clarity out = 50.
Proof.
  destruct (evaluate_transcription_never_raises (fun _ _ => Returned None)
              analyze_communication_skills {| audioData := ""; format := "webm" |} rng0)
    as (_ & H).
  destruct H as (out & msg & Ho & Hc & _); [left; reflexivity|].
  exists out. rewrite Ho. split; [reflexivity | exact Hc].
Defined.

Lemma evaluate_transcription_run
    (transcribe : string -> string -> outcome (option string))
    (input_data : TranscriptionEvaluationInput) (g g' : rng) (t : string)
    (r : AnalysisResults) :
  transcribe (audioData input_data) (format input_data) = Returned (Some t) ->
  analyze_communication_skills t g = (Ok r, g') ->
  evaluate_transcription_with transcribe analyze_communication_skills input_data g
  = (Returned {| transcription := t;
                 clarity := res_clarity r;
                 confidence := res_confidence r;
                 articulation := Some (res_articulation r);
                 feedback := res_feedback r;
                 suggestions := Some (res_suggestions r);
                 analysis := Some (AnalysisDetail (res_detailed_analysis r)) |}, g').
Proof.
  intros Ht Hr.
  destruct (analyze_communication_skills_ok t g) as (r0 & g0 & Hr0 & Hc & Hf & Ha).
  rewrite Hr in Hr0. injection Hr0 as <- <-.
  unfold evaluate_transcription_with, ST_try_except, evaluate_transcription_body,
    mbind, ST_bind, pure_outcome.
  rewrite Ht. cbn [len_of]. unfold of_M. rewrite Hr. cbn [of_result].
  rewrite new_output_valid by lia. reflexivity.
Qed.

(** With the analyzer of the source, a transcription that the transcriber
    returns is analysed as it is, untrimmed: the record carries it verbatim
    with the scores of the analyzer, each in [40, 100].  An empty or short
    transcription therefore gets fallback scores here, where the text
    operation answers a blank one with scores of 0; on a transcription that
    is not blank and has no surrounding whitespace the two operations
    agree. *)
Theorem evaluate_transcription_analyses_verbatim
    (transcribe : string -> string -> outcome (option string))
    (input_data : TranscriptionEvaluationInput) (g : rng) (t : string) :
  transcribe (audioData input_data) (format input_data) = Returned (Some t) ->
  exists r g',
    analyze_communication_skills t g = (Ok r, g')
    /\ evaluate_transcription_with transcribe analyze_communication_skills input_data g
       = (Returned {| transcription := t;
                      clarity := res_clarity r;
                      confidence := res_confidence r;
                      articulation := Some (res_articulation r);
                      feedback := res_feedback r;
                      suggestions := Some (res_suggestions r);
                      analysis := Some (AnalysisDetail (res_detailed_analysis r)) |}, g')
    /\ 40 <= res_clarity r <= 100
    /\ 40 <= res_confidence r <= 100
    /\ 40 <= res_articulation r <= 100
    /\ (too_short t = true -> g' = after 6 g)
    /\ (Py.strip t = t -> t <> "" ->
        evaluate_transcription_with transcribe analyze_communication_skills input_data g
        = of_M (evaluate_text_only {| input_transcription := t |}) g).
Proof.
  intros Ht.
  destruct (analyze_communication_skills_ok t g) as (r & g' & Hr & Hc & Hf & Ha).
  exists r, g'. split; [exact Hr|].
  assert (Hrun : evaluate_transcription_with transcribe analyze_communication_skills
                   input_data g
                 = (Returned {| transcription := t;
                      clarity := res_clarity r;
                      confidence := res_confidence r;
                      articulation := Some (res_articulation r);
                      feedback := res_feedback r;
                      suggestions := Some (res_suggestions r);
                      analysis := Some (AnalysisDetail (res_detailed_analysis r)) |}, g')).
  { now apply evaluate_transcription_run. }
  split; [exact Hrun|]. repeat (split; [assumption|]).
  split.
  - intros Hshort. rewrite analyze_too_short in Hr by assumption.
    pose proof (generate_random_evaluation_run
                  "No speech detected or transcription too short" g) as Hgen.
    cbv zeta in Hgen. rewrite Hgen in Hr. now injection Hr as _ <-.
  - intros Hstrip Hne. rewrite Hrun.
    unfold of_M, evaluate_text_only, evaluate_text_only_with, try_except,
      evaluate_text_only_body.
    cbn [input_transcription]. rewrite Hstrip.
    destruct t as [|c0 t0]; [contradiction|]. cbn [Py.is_empty].
    unfold mbind, M_bind. rewrite Hr. unfold lift.
    rewrite new_output_valid by lia. reflexivity.
Qed.

Lemma evaluate_transcription_analyses_verbatim_witness :
  snd (evaluate_transcription_with (fun _ _ => Returned (Some ""))
         analyze_communication_skills {| audioData := "AAAA"; format := "wav" |} rng0)
  = after 6 rng0.
Proof.
  destruct (evaluate_transcription_analyses_verbatim (fun _ _ => Returned (Some ""))
              {| audioData := "AAAA"; format := "wav" |} rng0 "" eq_refl)
    as (r & g' & _ & Hrun & _ & _ & _ & Hshort & _).
  rewrite Hrun. cbn [snd]. apply Hshort. reflexivity.
Defined.

(** ** Cleaning the format string *)

Lemma split_on_go_spec (sep : ascii) (s cur : string) :
  split_on_go sep s cur
  = (cur +:+ take_until sep s)
    :: (if has_char sep s then split_on sep (drop_through sep s) else []).
Proof.
  revert cur. induction s as [|c s IH]; intros cur;
    cbn [split_on_go take_until has_char drop_through].
  - now rewrite append_empty_r.
  - destruct (Ascii.eqb c sep); cbn [orb].
    + now rewrite append_empty_r.
    + rewrite IH. now rewrite snoc_append.
Qed.

Lemma contains_char (c : ascii) (s : string) :
  Py.contains (String c "") s = has_char c s.
Proof.
  induction s as [|d s IH]; [reflexivity|].
  assert (P : forall x, String.prefix "" x = true) by (intros []; reflexivity).
  cbn [Py.contains String.prefix has_char]. rewrite IH, P.
  destruct (ascii_dec c d) as [E|E].
  - subst. now rewrite Ascii.eqb_refl.
  - destruct (Ascii.eqb_spec d c); [congruence | reflexivity].
Qed.

Lemma has_char_take_until (c sep : ascii) (s : string) :
  has_char c (take_until sep s) = true -> has_char c s = true.
Proof.
  induction s as [|d s IH]; cbn [take_until has_char]; [auto|].
  destruct (Ascii.eqb d sep); cbn [has_char]; [discriminate|].
  intros H. apply orb_true_iff in H. apply orb_true_iff.
  destruct H as [H|H]; [now left | right; now apply IH].
Qed.

(** The format string is cleaned to what stands before the first [;]
    when it holds no [/]; to what stands between the first [/] and the next
    [/] or [;] when the part before the first [;] holds one; and cleaning
    raises [IndexError], and nothing else, exactly when the only slashes
    come after the first [;]. *)
Theorem clean_format_cases (audio_format : string) :
  let head := take_until ";" audio_format in
  (Py.contains "/" audio_format = false ->
   clean_format_of audio_format = Returned head)
  /\ (Py.contains "/" head = true ->
      clean_format_of audio_format
      = Returned (take_until "/" (drop_through "/" head)))
  /\ (Py.contains "/" audio_format = true -> Py.contains "/" head = false ->
      clean_format_of audio_format = Thrown IndexError)
  /\ (forall e, clean_format_of audio_format = Thrown e -> e = IndexError).
Proof.
  intros head.
  assert (Hhead : item (split_on ";" audio_format) 0 = Returned head).
  { unfold split_on. rewrite split_on_go_spec. reflexivity. }
  assert (Hsub : Py.contains "/" head = true -> Py.contains "/" audio_format = true).
  { rewrite !contains_char. apply has_char_take_until. }
  assert (Hslash : clean_format_of audio_format
                   = if Py.contains "/" audio_format
                     then if Py.contains "/" head
                          then Returned (take_until "/" (drop_through "/" head))
                          else Thrown IndexError
                     else Returned head).
  { unfold clean_format_of. rewrite Hhead. cbn [mbind outcome_bind].
    destruct (Py.contains "/" audio_format); [|reflexivity].
    unfold split_on at 1. rewrite split_on_go_spec.
    rewrite (contains_char "/" head).
    destruct (has_char "/" head); [|reflexivity].
    unfold split_on. rewrite split_on_go_spec. reflexivity. }
  rewrite Hslash. repeat split.
  - now intros ->.
  - intros H. now rewrite (Hsub H), H.
  - now intros -> ->.
  - destruct (Py.contains "/" audio_format); [|discriminate].
    destruct (Py.contains "/" head); [discriminate|]. now intros e [= <-].
Qed.

Lemma clean_format_cases_witness :
  clean_format_of "audio/webm;codecs=opus" = Returned "webm"
  /\ clean_format_of "wav" = Returned "wav"
  /\ clean_format_of "webm;codecs=a/b" = Thrown IndexError.
Proof.
  split; [|split].
  - destruct (clean_format_cases "audio/webm;codecs=opus") as (_ & H & _).
    apply H. reflexivity.
  - destruct (clean_format_cases "wav") as (H & _). apply H. reflexivity.
  - destruct (clean_format_cases "webm;codecs=a/b") as (_ & _ & H & _).
    apply H; reflexivity.
Defined.

(** ** Transcribing *)

Section Transcribing.

Variable audio : Type.
Variable audio_size : audio -> Z.
Variable b64decode : string -> outcome audio.
Variable recognizer : Type.
Variable new_recognizer : outcome recognizer.
Variable try_direct_processing : audio -> string -> recognizer -> outcome (option string).
Variable try_enhanced_processing : audio -> string -> recognizer -> outcome (option string).
Variable try_simple_fallback : audio -> recognizer -> outcome (option string).

#[local] Abbreviation process :=
  (process_audio_with_multiple_methods audio recognizer try_direct_processing
     try_enhanced_processing try_simple_fallback).
#[local] Abbreviation transcribe :=
  (transcribe_audio audio audio_size b64decode recognizer new_recognizer
     try_direct_processing try_enhanced_processing try_simple_fallback).

Lemma or_else_result (attempt : outcome (option string)) (next : outcome string)
    (t : string) :
  or_else attempt next = Returned t ->
  (attempt = Returned (Some t) /\ usable (Some t) = true)
  \/ ((exists x, attempt = Returned x /\ usable x = false) /\ next = Returned t).
Proof.
  unfold or_else. destruct attempt as [[x|]|e]; cbn [mbind outcome_bind];
    try discriminate.
  - destruct (usable (Some x)) eqn:U.
    + intros [= ->]. now left.
    + intros H. right. split; [|exact H]. now exists (Some x).
  - intros H. right. split; [|exact H]. now exists None.
Qed.

(** The three processing methods are tried in order and the first usable
    text wins: a text that is returned is either usable (not empty and not
    a fallback message) or the notice with the tips; a usable text of the
    first method is returned whatever the later methods would do; and when
    all three return without a usable text the notice is returned. *)
Theorem process_audio_first_usable (a : audio) (fmt : string) (r : recognizer) :
  (forall t, process a fmt r = Returned t ->
             usable (Some t) = true \/ t = tips_message)
  /\ (forall t, try_direct_processing a fmt r = Returned (Some t) ->
                usable (Some t) = true -> process a fmt r = Returned t)
  /\ (forall x y z,
        try_direct_processing a fmt r = Returned x -> usable x = false ->
        try_enhanced_processing a fmt r = Returned y -> usable y = false ->
        try_simple_fallback a r = Returned z -> usable z = false ->
        process a fmt r = Returned tips_message).
Proof.
  unfold process_audio_with_multiple_methods. repeat split.
  - intros t H.
    apply or_else_result in H. destruct H as [[_ U]|[_ H]]; [now left|].
    apply or_else_result in H. destruct H as [[_ U]|[_ H]]; [now left|].
    apply or_else_result in H. destruct H as [[_ U]|[_ H]]; [now left|].
    right. now injection H as <-.
  - intros t -> U. unfold or_else at 1. cbn [mbind outcome_bind]. now rewrite U.
  - intros x y z -> Ux -> Uy -> Uz. unfold or_else. cbn [mbind outcome_bind].
    destruct x, y, z; rewrite ?Ux, ?Uy, ?Uz; reflexivity.
Qed.

(** Transcribing never raises: a recording that decodes to fewer than 1000
    bytes gives the notice of an empty recording, whatever the format and
    the methods; a failure to decode gives a text that starts with
    [Error processing audio: ]; and so does a format whose only slashes
    come after its first semicolon, with the text of the index error. *)
Theorem transcribe_audio_edges (audio_data audio_format : string) :
  (forall a, b64decode audio_data = Returned a -> audio_size a < 1000 ->
             transcribe audio_data audio_format = empty_audio_message)
  /\ (forall e, b64decode audio_data = Thrown e ->
                transcribe audio_data audio_format
                = "Error processing audio: " +:+ str_of_service_exn e)
  /\ (forall a r, b64decode audio_data = Returned a -> 1000 <= audio_size a ->
                  new_recognizer = Returned r ->
                  Py.contains "/" audio_format = true ->
                  Py.contains "/" (take_until ";" audio_format) = false ->
                  transcribe audio_data audio_format
                  = "Error processing audio: list index out of range").
Proof.
  unfold transcribe_audio. repeat split.
  - intros a -> Hsize. cbn [mbind outcome_bind].
    destruct (Z.ltb_spec (audio_size a) 1000); [reflexivity | lia].
  - now intros e ->.
  - intros a r -> Hsize -> Hs Hh. cbn [mbind outcome_bind].
    destruct (Z.ltb_spec (audio_size a) 1000); [lia|].
    assert (Hfmt : clean_format_of audio_format = Thrown IndexError).
    { unfold clean_format_of. rewrite Hs. unfold split_on at 2.
      rewrite split_on_go_spec. cbn [item nth_error mbind outcome_bind].
      change ("" +:+ take_until ";" audio_format) with (take_until ";" audio_format).
      unfold split_on. rewrite split_on_go_spec.
      rewrite contains_char in Hh. now rewrite Hh. }
    rewrite Hfmt. reflexivity.
Qed.

End Transcribing.

Lemma process_audio_first_usable_witness :
  process_audio_with_multiple_methods unit unit
    (fun _ _ _ => Returned (Some "good morning everyone"))
    (fun _ _ _ => Thrown (OSError "ffmpeg")) (fun _ _ => Thrown (OSError "ffmpeg"))
    tt "wav" tt
  = Returned "good morning everyone".
Proof.
  destruct (process_audio_first_usable unit unit
              (fun _ _ _ => Returned (Some "good morning everyone"))
              (fun _ _ _ => Thrown (OSError "ffmpeg"))
              (fun _ _ => Thrown (OSError "ffmpeg")) tt "wav" tt)
    as (_ & H & _).
  apply H; reflexivity.
Defined.

Lemma transcribe_audio_edges_witness :
  transcribe_audio unit (fun _ => 12) (fun _ => Returned tt) unit (Returned tt)
    (fun _ _ _ => Returned None) (fun _ _ _ => Returned None) (fun _ _ => Returned None)
    "AAAA" "webm"
  = empty_audio_message.
Proof.
  destruct (transcribe_audio_edges unit (fun _ => 12) (fun _ => Returned tt) unit
              (Returned tt) (fun _ _ _ => Returned None) (fun _ _ _ => Returned None)
              (fun _ _ => Returned None) "AAAA" "webm") as (H & _).
  apply (H tt); [reflexivity | lia].
Defined.

(** ** A recording that is too small *)

(** A recording that decodes to fewer than 1000 bytes is not reported as a
    failure: the notice of an empty recording becomes the transcription and
    is analysed like speech, on the normal path (three draws, 18 words),
    although the detector of fallback messages flags that very notice. *)
Theorem small_recording_is_scored
    (audio : Type) (audio_size : audio -> Z) (b64decode : string -> outcome audio)
    (recognizer : Type) (new_recognizer : outcome recognizer)
    (m1 m2 : audio -> string -> recognizer -> outcome (option string))
    (m3 : audio -> recognizer -> outcome (option string))
    (input_data : TranscriptionEvaluationInput) (a : audio) (g : rng) :
  b64decode (audioData input_data) = Returned a ->
  audio_size a < 1000 ->
  exists out d,
    evaluate_transcription_with
      (fun data fmt =>
         Returned (Some (transcribe_audio audio audio_size b64decode recognizer
                           new_recognizer m1 m2 m3 data fmt)))
      analyze_communication_skills input_data g
    = (Returned out, after 3 g)
    /\ transcription out = empty_audio_message
    /\ is_fallback_message (transcription out) = true
    /\ 40 <= clarity out <= 100
    /\ 40 <= confidence out <= 100
    /\ analysis out = Some (AnalysisDetail d)
    /\ da_word_count d = 18.
Proof.
  intros Hdec Hsize.
  assert (Ht : transcribe_audio audio audio_size b64decode recognizer new_recognizer
                 m1 m2 m3 (audioData input_data) (format input_data)
               = empty_audio_message).
  { unfold transcribe_audio. rewrite Hdec. cbn [mbind outcome_bind].
    destruct (Z.ltb_spec (audio_size a) 1000); [reflexivity | lia]. }
  assert (Hrun : exists r,
             analyze_communication_skills empty_audio_message g = (Ok r, after 3 g)
             /\ da_word_count (res_detailed_analysis r) = 18
             /\ 40 <= res_clarity r <= 100 /\ 40 <= res_confidence r <= 100).
  { eexists. split.
    - eapply analyze_communication_skills_run; vm_compute; reflexivity.
    - cbn [res_detailed_analysis da_word_count res_clarity res_confidence].
      split; [vm_compute; reflexivity|].
      split; apply clamp_range; lia. }
  destruct Hrun as (r & Hr & Hwc & Hc & Hf).
  do 2 eexists. split.
  - apply (evaluate_transcription_run _ input_data g (after 3 g) empty_audio_message r);
      [now rewrite Ht | exact Hr].
  - cbn [transcription clarity confidence analysis].
    repeat split; try assumption; lia.
Qed.

Lemma small_recording_is_scored_witness :
  exists out,
    fst (evaluate_transcription_with
           (fun data fmt =>
              Returned (Some (transcribe_audio unit (fun _ => 12) (fun _ => Returned tt)
                                unit (Returned tt) (fun _ _ _ => Returned None)
                                (fun _ _ _ => Returned None) (fun _ _ => Returned None)
                                data fmt)))
           analyze_communication_skills {| audioData := "AAAA"; format := "webm" |} rng0)
    = Returned out
    /\ transcription out = empty_audio_message.
Proof.
  destruct (small_recording_is_scored unit (fun _ => 12) (fun _ => Returned tt)
              unit (Returned tt) (fun _ _ _ => Returned None)
              (fun _ _ _ => Returned None) (fun _ _ => Returned None)
              {| audioData := "AAAA"; format := "webm" |} tt rng0 eq_refl)
    as (out & d & Hrun & Ht & _); [lia|].
  exists out. rewrite Hrun. split; [reflexivity | exact Ht].
Defined.

(** ** Validity of a recognised transcription *)

Lemma letter_is_word_char (c : ascii) :
  is_ascii_letter c = true ->
  (is_ascii_digit c || Py.isspace c || negb (is_word_char c)) = false.
Proof.
  destruct c as [[] [] [] [] [] [] [] []]; intros H; try discriminate H; reflexivity.
Qed.

Lemma letter_excludes_symbols (s : string) :
  matches_no_letters s = false -> matches_numbers_symbols s = false.
Proof.
  unfold matches_no_letters, matches_numbers_symbols.
  induction s as [|c s IH]; cbn [all_chars]; [discriminate|].
  intros H. apply andb_false_iff in H. apply andb_false_iff.
  destruct H as [H|H].
  - left. apply negb_false_iff in H. now apply letter_is_word_char.
  - right. now apply IH.
Qed.

(** A transcription is valid exactly when, trimmed and lowercased, it has
    at least two characters and an ASCII letter, is not a longer text of at
    most two distinct characters, is not one character repeated, and is not
    made of vowels and whitespace only; the patterns "no letters" and "only
    numbers, spaces and symbols" of the final list decide nothing.  [None]
    and the empty text are invalid, and letter case does not matter. *)
Theorem valid_transcription_spec (t : string) :
  let cleaned := Py.lower (Py.strip t) in
  is_valid_transcription (Some t)
  = (2 <=? Py.strlen cleaned)
    && negb (matches_no_letters cleaned)
    && negb ((Z.of_nat (size (char_set cleaned)) <=? 2) && (Py.strlen cleaned >? 5))
    && negb (matches_repeated_char cleaned)
    && negb (matches_vowels_spaces cleaned)
  /\ is_valid_transcription None = false
  /\ is_valid_transcription (Some "") = false
  /\ is_valid_transcription (Some (Py.lower t)) = is_valid_transcription (Some t).
Proof.
  intros cleaned.
  assert (Hmain : forall u,
    is_valid_transcription (Some u)
    = (2 <=? Py.strlen (Py.lower (Py.strip u)))
      && negb (matches_no_letters (Py.lower (Py.strip u)))
      && negb ((Z.of_nat (size (char_set (Py.lower (Py.strip u)))) <=? 2)
               && (Py.strlen (Py.lower (Py.strip u)) >? 5))
      && negb (matches_repeated_char (Py.lower (Py.strip u)))
      && negb (matches_vowels_spaces (Py.lower (Py.strip u)))).
  { intros u. unfold is_valid_transcription.
    destruct (Py.is_empty u) eqn:Ee.
    - destruct u; [reflexivity | discriminate Ee].
    - set (cl := Py.lower (Py.strip u)).
      destruct (Z.ltb_spec (Py.strlen cl) 2) as [Hlt|Hge].
      + replace (2 <=? Py.strlen cl) with false
          by (symmetry; apply Z.leb_gt; lia).
        reflexivity.
      + replace (2 <=? Py.strlen cl) with true
          by (symmetry; apply Z.leb_le; lia).
        cbn [andb].
        destruct (matches_no_letters cl) eqn:Hl; [reflexivity|].
        cbn [negb andb].
        destruct ((Z.of_nat (size (char_set cl)) <=? 2) && (Py.strlen cl >? 5));
          [reflexivity|].
        cbn [negb andb existsb]. rewrite Hl, (letter_excludes_symbols cl Hl).
        cbn [orb]. rewrite orb_false_r.
        now destruct (matches_repeated_char cl), (matches_vowels_spaces cl). }
  split; [apply Hmain|]. split; [reflexivity|]. split; [reflexivity|].
  rewrite !Hmain. now rewrite strip_lower, lower_idem.
Qed.

(** * The communication history *)

Lemma save_run (input_data : CommunicationHistoryInput) (w : world) :
  save_communication_history input_data w
  = if writable w
    then (Returned {| success := true;
                      message := "Communication history saved successfully";
                      history_id := Some (Py.str (Py.len (stored w))) |},
          {| file := FileHolds (stored w ++ [new_entry input_data w]);
             writable := true;
             write_failure := write_failure w;
             uuids := uuids w;
             uuids_used := S (uuids_used w) |})
    else
      match write_failure w with
      | NotOpened e =>
          (Returned {| success := false;
                       message := "Failed to save communication history: "
                                  +:+ str_of_service_exn e;
                       history_id := Some "-1" |},
           {| file := file w;
              writable := false;
              write_failure := NotOpened e;
              uuids := uuids w;
              uuids_used := S (uuids_used w) |})
      | CutOff e =>
          (Returned {| success := false;
                       message := "Failed to save communication history: "
                                  +:+ str_of_service_exn e;
                       history_id := Some "-1" |},
           {| file := FileUndecodable;
              writable := false;
              write_failure := CutOff e;
              uuids := uuids w;
              uuids_used := S (uuids_used w) |})
      end.
Proof.
  unfold save_communication_history, ST_try_except, mbind, ST_bind, uuid4,
    load_history, dump_history, mret, ST_ret, stored, new_entry.
  cbn [file writable write_failure uuids uuids_used].
  destruct (writable w) eqn:Hw; [|destruct (write_failure w) eqn:Hf; reflexivity].
  assert (Hlen : forall l : list history_entry,
             Py.len (l ++ [{| entry_id := uuids w (uuids_used w);
                             entry_data := input_data |}]) - 1 = Py.len l).
  { intros l. unfold Py.len. rewrite length_app. cbn [List.length]. lia. }
  destruct (file w); rewrite Hlen; reflexivity.
Qed.

(** Saving never raises.  When it answers with success, the new entry,
    with a fresh identifier and the fields of the input, has been put after
    the entries found in the file (none when the file is absent or cannot
    be decoded), the older entries stay as they were, and the answer
    carries the index of the new entry as [history_id].  When it answers
    with a failure, [history_id] is "-1": the file is left as it was if it
    could not be opened, but if the write broke off after the file was
    opened, the file is left undecodable and the older entries are lost. *)
Theorem save_appends (input_data : CommunicationHistoryInput) (w : world) :
  exists out w',
    save_communication_history input_data w = (Returned out, w')
    /\ (success out = true ->
        file w' = FileHolds (stored w ++ [new_entry input_data w])
        /\ history_id out = Some (Py.str (Py.len (stored w)))
        /\ nth_error (stored w') (Z.to_nat (Py.len (stored w)))
           = Some (new_entry input_data w))
    /\ (success out = false ->
        history_id out = Some "-1"
        /\ (file w' = file w \/ file w' = FileUndecodable))
    /\ (forall e, writable w = false -> write_failure w = NotOpened e ->
        success out = false
        /\ message out
           = "Failed to save communication history: " +:+ str_of_service_exn e
        /\ file w' = file w)
    /\ (forall e, writable w = false -> write_failure w = CutOff e ->
        success out = false
        /\ message out
           = "Failed to save communication history: " +:+ str_of_service_exn e
        /\ file w' = FileUndecodable /\ stored w' = []).
Proof.
  rewrite save_run. destruct (writable w).
  - do 2 eexists. split; [reflexivity|].
    split; [intros _ | split; [intros H; discriminate H|]; split; intros e H; discriminate H].
    cbn [success file history_id stored]. repeat split.
    unfold Py.len. rewrite Nat2Z.id.
    rewrite nth_error_app2 by lia. now rewrite Nat.sub_diag.
  - destruct (write_failure w) as [e0|e0]; do 2 eexists; (split; [reflexivity|]);
      (split; [intros H; discriminate H|]);
      (split; [intros _; cbn [history_id file]; split; [reflexivity|tauto]|]);
      split; intros e _ He;
      try discriminate He; injection He as <-;
      cbn [success history_id message file stored]; repeat split.
Qed.

Lemma save_appends_witness :
  (exists out w',
     save_communication_history sample_input empty_world = (Returned out, w')
     /\ history_id out = Some "0"
     /\ stored w' = [new_entry sample_input empty_world])
  /\ (exists out w',
        save_communication_history sample_input (world_holding sample_entries false)
        = (Returned out, w')
        /\ success out = false
        /\ stored w' = []).
Proof.
  split.
  - destruct (save_appends sample_input empty_world) as (out & w' & Hrun & Hok & _).
    assert (Hs : success out = true).
    { rewrite save_run in Hrun. cbn [empty_world writable] in Hrun.
      now injection Hrun as <- _. }
    destruct (Hok Hs) as (Hfile & Hid & _).
    exists out, w'. split; [exact Hrun|]. split; [exact Hid|].
    unfold stored. now rewrite Hfile.
  - destruct (save_appends sample_input (world_holding sample_entries false))
      as (out & w' & Hrun & _ & _ & _ & Hcut).
    destruct (Hcut _ eq_refl eq_refl) as (Hs & _ & _ & Hst).
    now exists out, w'.
Defined.

(** ** Reading the history *)

Lemma ltb_asym (a b : string) : String.ltb a b = true -> String.ltb b a = false.
Proof.
  unfold String.ltb. rewrite (String.compare_antisym a b).
  destruct (String.compare b a); cbn; congruence.
Qed.

Lemma insert_desc_perm (x : history_entry) (l : list history_entry) :
  Permutation (insert_desc entry_timestamp x l) (x :: l).
Proof.
  induction l as [|y l IH]; cbn [insert_desc]; [reflexivity|].
  destruct (String.ltb (entry_timestamp x) (entry_timestamp y)); [|reflexivity].
  rewrite IH. apply perm_swap.
Qed.

Lemma sort_desc_perm (l : list history_entry) :
  Permutation (sort_desc entry_timestamp l) l.
Proof.
  unfold sort_desc. induction l as [|x l IH]; cbn [fold_right]; [reflexivity|].
  rewrite insert_desc_perm. now constructor.
Qed.

Lemma insert_desc_sorted (x : history_entry) (l : list history_entry) :
  Sorted not_older l -> Sorted not_older (insert_desc entry_timestamp x l).
Proof.
  induction 1 as [|y l Hs IH Hd]; cbn [insert_desc].
  - repeat constructor.
  - destruct (String.ltb (entry_timestamp x) (entry_timestamp y)) eqn:E.
    + constructor; [exact IH|].
      destruct l as [|z l]; cbn [insert_desc].
      * constructor. unfold not_older. now apply ltb_asym.
      * destruct (String.ltb (entry_timestamp x) (entry_timestamp z)).
        -- constructor. now inversion Hd.
        -- constructor. unfold not_older. now apply ltb_asym.
    + constructor; [now constructor|]. constructor. exact E.
Qed.

Lemma sort_desc_sorted (l : list history_entry) :
  Sorted not_older (sort_desc entry_timestamp l).
Proof.
  unfold sort_desc. induction l as [|x l IH]; cbn [fold_right]; [constructor|].
  now apply insert_desc_sorted.
Qed.

Lemma get_run (student : string) (w : world) :
  get_communication_history student w
  = (Returned {| hr_success := true;
                 hr_message := "Communication history retrieved successfully";
                 hr_history :=
                   sort_desc entry_timestamp (List.filter (of_student student) (stored w)) |},
     w).
Proof.
  unfold get_communication_history, ST_try_except, mbind, ST_bind, load_history,
    mret, ST_ret, stored.
  now destruct (file w).
Qed.

(** Reading never raises and leaves the file as it is.  The answer holds
    exactly the entries of the student, each as often as the file holds it,
    newest first; no entry of another student is in it, and an absent or
    undecodable file gives the empty history. *)
Theorem get_history_sorted (student : string) (w : world) :
  exists resp,
    get_communication_history student w = (Returned resp, w)
    /\ hr_success resp = true
    /\ Permutation (hr_history resp) (List.filter (of_student student) (stored w))
    /\ Sorted not_older (hr_history resp)
    /\ (forall x, In x (hr_history resp) <->
                  In x (stored w)
                  /\ student_register_number (entry_data x) = student)
    /\ (file w = FileAbsent \/ file w = FileUndecodable -> hr_history resp = []).
Proof.
  rewrite get_run. eexists. split; [reflexivity|].
  cbn [hr_success hr_history].
  split; [reflexivity|]. split; [apply sort_desc_perm|].
  split; [apply sort_desc_sorted|]. split.
  - intros x. rewrite <- String.eqb_eq.
    change ((student_register_number (entry_data x) =? student)%string)
      with (of_student student x).
    rewrite <- List.filter_In. split; intros H.
    + apply (Permutation_in x (sort_desc_perm _)), H.
    + apply (Permutation_in x (Permutation_sym (sort_desc_perm _))), H.
  - unfold stored. now intros [-> | ->].
Qed.

Lemma get_history_sorted_witness :
  exists resp,
    fst (get_communication_history "21CS042"
           {| file := FileUndecodable; writable := true;
              write_failure := write_failure empty_world;
              uuids := uuids empty_world; uuids_used := 0 |})
    = Returned resp
    /\ hr_history resp = [].
Proof.
  destruct (get_history_sorted "21CS042"
              {| file := FileUndecodable; writable := true;
                 write_failure := write_failure empty_world;
                 uuids := uuids empty_world; uuids_used := 0 |})
    as (resp & Hrun & _ & _ & _ & _ & Hempty).
  exists resp. rewrite Hrun. split; [reflexivity|]. apply Hempty. now right.
Defined.

(** An entry that was saved is found when the history of its student is
    read afterwards, and the entries that were there before are still
    found. *)
Theorem save_then_get (input_data : CommunicationHistoryInput) (w : world) :
  writable w = true ->
  exists out w' resp,
    save_communication_history input_data w = (Returned out, w')
    /\ get_communication_history (student_register_number input_data) w'
       = (Returned resp, w')
    /\ In (new_entry input_data w) (hr_history resp)
    /\ forall x, In x (stored w) ->
                 student_register_number (entry_data x)
                 = student_register_number input_data ->
                 In x (hr_history resp).
Proof.
  intros Hw. rewrite save_run, Hw. do 3 eexists.
  split; [reflexivity|]. rewrite get_run. split; [reflexivity|].
  cbn [hr_history stored file].
  assert (Hin : forall x,
             In x (stored w ++ [new_entry input_data w]) ->
             student_register_number (entry_data x)
             = student_register_number input_data ->
             In x (sort_desc entry_timestamp
                     (List.filter (of_student (student_register_number input_data))
                        (stored w ++ [new_entry input_data w])))).
  { intros x Hx Hs.
    apply (Permutation_in x (Permutation_sym (sort_desc_perm _))).
    apply List.filter_In. split; [exact Hx|].
    unfold of_student. now apply String.eqb_eq. }
  split.
  - apply Hin; [|reflexivity]. apply in_or_app. right. now left.
  - intros x Hx Hs. apply Hin; [|exact Hs]. apply in_or_app. now left.
Qed.

Lemma save_then_get_witness :
  exists out w' resp,
    save_communication_history sample_input empty_world = (Returned out, w')
    /\ get_communication_history "21CS042" w' = (Returned resp, w')
    /\ In (new_entry sample_input empty_world) (hr_history resp).
Proof.
  destruct (save_then_get sample_input empty_world eq_refl)
    as (out & w' & resp & Hs & Hg & Hin & _).
  now exists out, w', resp.
Defined.

(** ** Deleting from the history *)

Lemma len_filter_le {A} (p : A -> bool) (l : list A) :
  Py.len (List.filter p l) <= Py.len l.
Proof.
  unfold Py.len. pose proof (List.filter_length_le p l). lia.
Qed.

Lemma filter_same_length {A} (p : A -> bool) (l : list A) :
  Py.len (List.filter p l) = Py.len l -> List.filter p l = l.
Proof.
  induction l as [|x l IH]; [reflexivity|].
  cbn [List.filter]. destruct (p x).
  - rewrite !len_cons. intros H. f_equal. apply IH. lia.
  - rewrite len_cons. pose proof (len_filter_le p l). lia.
Qed.

Lemma filter_all {A} (p : A -> bool) (l : list A) :
  (forall x, In x l -> p x = true) -> List.filter p l = l.
Proof.
  induction l as [|x l IH]; intros H; [reflexivity|].
  cbn [List.filter]. rewrite (H x) by now left.
  f_equal. apply IH. intros y Hy. apply H. now right.
Qed.

Lemma delete_run (item_id : string) (w : world) :
  delete_communication_history_item item_id w
  = match file w with
    | FileHolds l =>
        if Py.len (List.filter (keeps item_id) l) =? Py.len l
        then (Returned {| dr_success := false; dr_message := "Item not found" |}, w)
        else if writable w
        then (Returned {| dr_success := true;
                          dr_message := "Communication history item deleted successfully" |},
              {| file := FileHolds (List.filter (keeps item_id) l);
                 writable := true; write_failure := write_failure w;
                 uuids := uuids w; uuids_used := uuids_used w |})
        else
          match write_failure w with
          | NotOpened e =>
              (Returned {| dr_success := false;
                           dr_message :=
                             "Failed to delete communication history item: "
                             +:+ str_of_service_exn e |}, w)
          | CutOff e =>
              (Returned {| dr_success := false;
                           dr_message :=
                             "Failed to delete communication history item: "
                             +:+ str_of_service_exn e |},
               {| file := FileUndecodable;
                  writable := false; write_failure := CutOff e;
                  uuids := uuids w; uuids_used := uuids_used w |})
          end
    | FileAbsent | FileUndecodable =>
        (Returned {| dr_success := false;
                     dr_message := "No communication history found" |}, w)
    end.
Proof.
  unfold delete_communication_history_item, ST_try_except, mbind, ST_bind,
    load_history, dump_history, mret, ST_ret.
  destruct (file w) as [| |l]; try reflexivity.
  fold (keeps item_id).
  destruct (Py.len (List.filter (keeps item_id) l) =? Py.len l); [reflexivity|].
  destruct (writable w) eqn:Hw; [reflexivity|].
  destruct (write_failure w) eqn:Hf; reflexivity.
Qed.

(** Deleting never raises.  Without a decodable file it reports that there
    is no history, and when no entry has the identifier it reports that the
    item was not found; in both cases the file is left as it was.
    Otherwise the file is written again.  When that succeeds, every entry
    with the identifier is removed and the other entries stay, in their
    order.  When it fails, the answer is a failure; the file is left as it
    was if it could not be opened, but if the write broke off after the
    file was opened, the file is left undecodable and every entry is
    lost. *)
Theorem delete_removes_by_id (item_id : string) (w : world) :
  exists resp w',
    delete_communication_history_item item_id w = (Returned resp, w')
    /\ (file w = FileAbsent \/ file w = FileUndecodable ->
        dr_success resp = false
        /\ dr_message resp = "No communication history found" /\ w' = w)
    /\ (forall l, file w = FileHolds l ->
        (forall x, In x l -> entry_id x <> item_id) ->
        dr_success resp = false /\ dr_message resp = "Item not found" /\ w' = w)
    /\ (forall l, file w = FileHolds l ->
        (exists x, In x l /\ entry_id x = item_id) ->
        (writable w = true ->
         dr_success resp = true
         /\ file w' = FileHolds (List.filter (keeps item_id) l)
         /\ forall x, In x (stored w') <-> In x l /\ entry_id x <> item_id)
        /\ (forall e, writable w = false -> write_failure w = NotOpened e ->
            dr_success resp = false /\ w' = w)
        /\ (forall e, writable w = false -> write_failure w = CutOff e ->
            dr_success resp = false
            /\ file w' = FileUndecodable /\ stored w' = [])).
Proof.
  rewrite delete_run.
  destruct (file w) as [| |l] eqn:Hfile.
  - do 2 eexists. split; [reflexivity|]. repeat split; try discriminate;
      intros l H; discriminate H.
  - do 2 eexists. split; [reflexivity|]. repeat split; try discriminate;
      intros l H; discriminate H.
  - destruct (Z.eqb_spec (Py.len (List.filter (keeps item_id) l)) (Py.len l))
      as [Heq|Hne].
    + apply filter_same_length in Heq.
      do 2 eexists. split; [reflexivity|].
      split; [intros [H|H]; discriminate H|].
      split; [intros l' [= <-] _; repeat split|].
      intros l' [= <-] (x & Hx & Hid). exfalso.
      rewrite <- Heq in Hx. apply List.filter_In in Hx. destruct Hx as [_ Hk].
      unfold keeps in Hk. apply negb_true_iff, String.eqb_neq in Hk. contradiction.
    + assert (Hex : ~ (forall x, In x l -> entry_id x <> item_id)).
      { intros Hall. apply Hne. f_equal. apply filter_all. intros x Hx.
        unfold keeps. apply negb_true_iff, String.eqb_neq. now apply Hall. }
      destruct (writable w) eqn:Hw; [|destruct (write_failure w) as [e0|e0] eqn:Hf];
        do 2 eexists; (split; [reflexivity|]);
        (split; [intros [H|H]; discriminate H|]);
        (split; [intros l' [= <-] Hall; contradiction|]);
        intros l' [= <-] _.
      * split; [intros _ | split; intros e H; discriminate H].
        cbn [dr_success file stored].
        split; [reflexivity|]. split; [reflexivity|].
        intros x. rewrite List.filter_In. unfold keeps.
        now rewrite negb_true_iff, String.eqb_neq.
      * split; [intros H; discriminate H|].
        split; intros e _ He; [|discriminate He]. split; reflexivity.
      * split; [intros H; discriminate H|].
        split; intros e _ He; [discriminate He|].
        cbn [dr_success file stored]. repeat split.
Qed.

Lemma delete_removes_by_id_witness :
  (exists resp w',
     delete_communication_history_item "a1" (world_holding sample_entries true)
     = (Returned resp, w')
     /\ dr_success resp = true
     /\ stored w' = [ {| entry_id := "b2"; entry_data := sample_input |} ])
  /\ (exists resp w',
        delete_communication_history_item "a1" (world_holding sample_entries false)
        = (Returned resp, w')
        /\ dr_success resp = false
        /\ stored w' = []).
Proof.
  assert (Hfound : exists x, In x sample_entries /\ entry_id x = "a1")
    by (eexists; split; [left; reflexivity|reflexivity]).
  split.
  - destruct (delete_removes_by_id "a1" (world_holding sample_entries true))
      as (resp & w' & Hrun & _ & _ & Hrm).
    destruct (Hrm sample_entries eq_refl Hfound) as (Hok & _).
    destruct (Hok eq_refl) as (Hs & Hfile & _).
    exists resp, w'. split; [exact Hrun|]. split; [exact Hs|].
    unfold stored. rewrite Hfile. reflexivity.
  - destruct (delete_removes_by_id "a1" (world_holding sample_entries false))
      as (resp & w' & Hrun & _ & _ & Hrm).
    destruct (Hrm sample_entries eq_refl Hfound) as (_ & _ & Hcut).
    destruct (Hcut _ eq_refl eq_refl) as (Hs & _ & Hst).
    now exists resp, w'.
Defined.

(** Saving an entry and then deleting it by its identifier brings the
    stored entries back to what they were, when the identifier is fresh. *)
Theorem save_then_delete (input_data : CommunicationHistoryInput) (w : world) :
  writable w = true ->
  (forall x, In x (stored w) -> entry_id x <> uuids w (uuids_used w)) ->
  exists out w1 resp w2,
    save_communication_history input_data w = (Returned out, w1)
    /\ delete_communication_history_item (entry_id (new_entry input_data w)) w1
       = (Returned resp, w2)
    /\ dr_success resp = true
    /\ stored w2 = stored w.
Proof.
  intros Hw Hfresh. rewrite save_run, Hw. do 4 eexists.
  split; [reflexivity|]. rewrite delete_run. unfold new_entry.
  cbn [file writable entry_id].
  assert (Hfilter : List.filter (keeps (uuids w (uuids_used w)))
                      (stored w ++ [new_entry input_data w]) = stored w).
  { rewrite List.filter_app. cbn [List.filter]. unfold keeps at 2.
    unfold new_entry. cbn [entry_id]. rewrite String.eqb_refl. cbn [negb].
    rewrite app_nil_r. apply filter_all. intros x Hx.
    unfold keeps. apply negb_true_iff, String.eqb_neq. now apply Hfresh. }
  unfold new_entry in Hfilter. rewrite Hfilter.
  destruct (Z.eqb_spec (Py.len (stored w))
              (Py.len (stored w ++ [{| entry_id := uuids w (uuids_used w);
                                      entry_data := input_data |}]))) as [E|E].
  - unfold Py.len in E. rewrite length_app in E. cbn [List.length] in E. lia.
  - split; [reflexivity|]. split; reflexivity.
Qed.

Lemma save_then_delete_witness :
  exists out w1 resp w2,
    save_communication_history sample_input empty_world = (Returned out, w1)
    /\ delete_communication_history_item (entry_id (new_entry sample_input empty_world)) w1
       = (Returned resp, w2)
    /\ stored w2 = [].
Proof.
  destruct (save_then_delete sample_input empty_world eq_refl)
    as (out & w1 & resp & w2 & Hs & Hd & _ & Hst).
  - intros x [].
  - exists out, w1, resp, w2. auto.
Defined.

(** The [history_id] that saving returns is the index of the entry, not its
    identifier: unless an entry carries that index as its identifier,
    deleting with it finds nothing and the saved entry stays. *)
Theorem returned_history_id_does_not_delete
    (input_data : CommunicationHistoryInput) (w : world) (hid : string) :
  writable w = true ->
  hid = Py.str (Py.len (stored w)) ->
  uuids w (uuids_used w) <> hid ->
  (forall x, In x (stored w) -> entry_id x <> hid) ->
  exists out w1 resp,
    save_communication_history input_data w = (Returned out, w1)
    /\ history_id out = Some hid
    /\ delete_communication_history_item hid w1 = (Returned resp, w1)
    /\ dr_success resp = false
    /\ dr_message resp = "Item not found"
    /\ In (new_entry input_data w) (stored w1).
Proof.
  intros Hw Hhid Hne Hold. rewrite save_run, Hw. do 3 eexists.
  split; [reflexivity|]. cbn [history_id]. split; [now rewrite Hhid|].
  rewrite delete_run. cbn [file stored].
  rewrite (filter_all (keeps hid)).
  - rewrite Z.eqb_refl. repeat split. apply in_or_app. right. now left.
  - intros x Hx. unfold keeps. apply negb_true_iff, String.eqb_neq.
    apply in_app_or in Hx. destruct Hx as [Hx|[<-|[]]]; [now apply Hold|].
    exact Hne.
Qed.

Lemma returned_history_id_does_not_delete_witness :
  exists out w1 resp,
    save_communication_history sample_input empty_world = (Returned out, w1)
    /\ history_id out = Some "0"
    /\ delete_communication_history_item "0" w1 = (Returned resp, w1)
    /\ dr_message resp = "Item not found".
Proof.
  destruct (returned_history_id_does_not_delete sample_input empty_world "0" eq_refl eq_refl)
    as (out & w1 & resp & Hs & Hid & Hd & _ & Hm & _).
  - vm_compute. discriminate.
  - intros x [].
  - now exists out, w1, resp.
Defined.

(** * The endpoints *)

(** The endpoints of the two evaluation operations and of saving never
    answer with an HTTP error: the operation behind each of them catches
    its own exceptions, so the [except] branch of the endpoint is not
    taken. *)
Theorem service_endpoints_answer
    (describe_http : Z -> string -> string)
    (transcribe : string -> string -> outcome (option string)) :
  (forall input_data g,
     exists out g', evaluate_text_endpoint describe_http input_data g = (Returned out, g'))
  /\ (forall input_data g,
        exists out g',
          evaluate_transcription_endpoint describe_http transcribe input_data g
          = (Returned out, g'))
  /\ (forall input_data w,
        exists out w',
          save_communication_history_endpoint describe_http input_data w
          = (Returned out, w')).
Proof.
  repeat split.
  - intros input_data g. unfold evaluate_text_endpoint, ST_try_except, of_M.
    unfold evaluate_text_only, evaluate_text_only_with, try_except.
    destruct (evaluate_text_only_body analyze_communication_skills input_data g)
      as [[out|e] g']; [now exists out, g'|].
    destruct (handler_degraded e g') as (out & -> & _). now exists out, g'.
  - intros input_data g. unfold evaluate_transcription_endpoint, ST_try_except.
    unfold evaluate_transcription_with, ST_try_except.
    destruct (evaluate_transcription_body transcribe analyze_communication_skills
                input_data g) as [[out|e] g']; [now exists out, g'|].
    rewrite audio_handler_degraded. now do 2 eexists.
  - intros input_data w. unfold save_communication_history_endpoint, ST_try_except.
    rewrite save_run.
    destruct (writable w); [|destruct (write_failure w)]; now do 2 eexists.
Qed.

(** The two endpoints that read the request never answer 400: the
    [HTTPException] with status 400 that they raise for a missing or empty
    field is caught by their own [except Exception] and raised again with
    status 500, as is a failure to read the request.  With a field that is
    not empty they return what the service returns. *)
Theorem history_endpoints_never_400
    (describe_http : Z -> string -> string) (w : world) :
  (forall request_field,
     (exists resp w',
        get_communication_history_endpoint describe_http request_field w
        = (Returned resp, w'))
     \/ (exists detail,
           get_communication_history_endpoint describe_http request_field w
           = (Thrown (HTTPException 500 detail), w)))
  /\ (forall request_field,
        (exists resp w',
           delete_communication_history_endpoint describe_http request_field w
           = (Returned resp, w'))
        \/ (exists detail,
              delete_communication_history_endpoint describe_http request_field w
              = (Thrown (HTTPException 500 detail), w)))
  /\ (forall request_field,
        request_field = Returned None \/ request_field = Returned (Some "") ->
        get_communication_history_endpoint describe_http request_field w
        = (Thrown (HTTPException 500
                     ("Get communication history error: "
                      +:+ describe_http 400 "Student register number is required")), w)
        /\ delete_communication_history_endpoint describe_http request_field w
           = (Thrown (HTTPException 500
                        ("Delete communication history error: "
                         +:+ describe_http 400 "Item ID is required")), w))
  /\ (forall s, s <> "" ->
        get_communication_history_endpoint describe_http (Returned (Some s)) w
        = get_communication_history s w
        /\ delete_communication_history_endpoint describe_http (Returned (Some s)) w
           = delete_communication_history_item s w).
Proof.
  split; [|split; [|split]].
  - intros [[s|]|e];
      unfold get_communication_history_endpoint, ST_try_except, mbind, ST_bind,
        pure_outcome, raise_500; try (right; eexists; reflexivity).
    destruct (Py.is_empty s); [right; eexists; reflexivity|].
    left. rewrite get_run. now do 2 eexists.
  - intros [[s|]|e];
      unfold delete_communication_history_endpoint, ST_try_except, mbind, ST_bind,
        pure_outcome, raise_500; try (right; eexists; reflexivity).
    destruct (Py.is_empty s); [right; eexists; reflexivity|].
    left. rewrite delete_run.
    destruct (file w) as [| |l]; try (now do 2 eexists).
    destruct (Py.len (List.filter (keeps s) l) =? Py.len l); [now do 2 eexists|].
    destruct (writable w); [|destruct (write_failure w)]; now do 2 eexists.
  - intros request_field [-> | ->]; split; reflexivity.
  - intros s Hs. destruct s as [|c s]; [contradiction|].
    unfold get_communication_history_endpoint, delete_communication_history_endpoint,
      ST_try_except, mbind, ST_bind, pure_outcome.
    cbn [Py.is_empty]. rewrite get_run, delete_run. split.
    + reflexivity.
    + destruct (file w) as [| |l]; try reflexivity.
      destruct (Py.len (List.filter (keeps (String c s)) l) =? Py.len l); [reflexivity|].
      destruct (writable w); [|destruct (write_failure w)]; reflexivity.
Qed.

Lemma history_endpoints_never_400_witness :
  fst (get_communication_history_endpoint (fun _ detail => detail) (Returned None)
         empty_world)
  = Thrown (HTTPException 500
              "Get communication history error: Student register number is required").
Proof.
  destruct (history_endpoints_never_400 (fun _ detail => detail) empty_world)
    as (_ & _ & H & _).
  destruct (H (Returned None)) as [Hg _]; [now left|].
  rewrite Hg. reflexivity.
Defined.

(** * The legacy analyzer *)

Lemma legacy_clarity_range (t : string) (wc : Z) (avg : Q) :
  70 <= LegacyAnalyzer.calculate_clarity_score t wc avg <= 100.
Proof.
  unfold LegacyAnalyzer.calculate_clarity_score.
  assert (H5 : 0 <= 5) by lia.
  pose proof (bonus_per_hit_range 5 LegacyAnalyzer.clarity_indicators (Py.lower t) H5).
  destruct (between 10 avg 20), (between 5 avg 25), (wc >=? 20), (wc >=? 10); lia.
Qed.

Lemma legacy_articulation_ok (t : string) (wc : Z) :
  exists a, LegacyAnalyzer.calculate_articulation_score t wc = Ok a /\ 75 <= a <= 100.
Proof.
  unfold LegacyAnalyzer.calculate_articulation_score.
  rewrite truediv_ok by (apply inject_Z_nonzero; lia).
  cbn [mbind result_bind]. eexists. split; [reflexivity|].
  assert (H5 : 0 <= 5) by lia.
  pose proof (bonus_per_hit_range 5 LegacyAnalyzer.articulation_indicators (Py.lower t) H5).
  cbv zeta.
  repeat match goal with
         | |- context [if ?b then _ else _] => destruct b
         end; lia.
Qed.

(** The legacy analyzer never raises and draws no random number; its
    clarity lies in [70, 100], its confidence in [47, 100] and its
    articulation in [75, 100].  So its suggestions never hold the tips for
    clarity or for articulation: they are the confidence tips when the
    confidence is below 70, and the general tips. *)
Theorem legacy_analysis_ranges (t : string) :
  exists r,
    LegacyAnalyzer.analyze_communication_skills t = Ok r
    /\ 70 <= LegacyAnalyzer.clarity r <= 100
    /\ 47 <= LegacyAnalyzer.confidence r <= 100
    /\ 75 <= LegacyAnalyzer.articulation r <= 100
    /\ LegacyAnalyzer.suggestions r
       = Py.join newline
           ((if LegacyAnalyzer.confidence r <? 70
             then LegacyAnalyzer.confidence_tips else [])
            ++ LegacyAnalyzer.general_tips).
Proof.
  unfold LegacyAnalyzer.analyze_communication_skills.
  rewrite truediv_ok by (apply inject_Z_nonzero; lia).
  cbn [mbind result_bind].
  destruct (legacy_articulation_ok t (Py.len (Py.split t))) as (a & -> & Ha).
  cbn [mbind result_bind].
  unfold LegacyAnalyzer.generate_feedback.
  rewrite truediv_ok by (intro H; discriminate H).
  cbn [mbind result_bind]. eexists. split; [reflexivity|].
  cbn [LegacyAnalyzer.clarity LegacyAnalyzer.confidence LegacyAnalyzer.articulation
       LegacyAnalyzer.suggestions].
  pose proof (legacy_clarity_range t (Py.len (Py.split t))
                (inject_Z (Py.len (Py.split t))
                 / inject_Z (Z.max (Py.len (Py.re_split_terminators t) - 1) 1))) as Hc.
  pose proof (legacy_confidence_on_counts t _ (legacy_keyword_count_nonneg t)) as Hf.
  pose proof (legacy_confidence_range t (Legacy.keyword_count_of t)) as Hf'.
  repeat (split; [lia|]).
  unfold LegacyAnalyzer.generate_suggestions, LegacyAnalyzer.suggestion_lines.
  cbv zeta.
  destruct (Z.ltb_spec (LegacyAnalyzer.calculate_clarity_score t (Py.len (Py.split t))
              (inject_Z (Py.len (Py.split t))
               / inject_Z (Z.max (Py.len (Py.re_split_terminators t) - 1) 1))) 70);
    [lia|].
  destruct (Z.ltb_spec a 70); [lia|].
  reflexivity.
Qed.

(** * Padding and length *)

Lemma lstrip_pad (a s : string) :
  all_chars Py.isspace a = true ->
  Py.lstrip_by Py.isspace (a +:+ s) = Py.lstrip_by Py.isspace s.
Proof.
  induction a as [|c a IH]; [reflexivity|].
  cbn [all_chars]. intros H. apply andb_true_iff in H. destruct H as [Hc Ha].
  change (Py.lstrip_by Py.isspace (String c (a +:+ s)) = Py.lstrip_by Py.isspace s).
  cbn [Py.lstrip_by]. rewrite Hc. now apply IH.
Qed.

Lemma rstrip_all_space (b : string) :
  all_chars Py.isspace b = true -> Py.rstrip_by Py.isspace b = "".
Proof.
  induction b as [|c b IH]; [reflexivity|].
  cbn [all_chars Py.rstrip_by]. intros H. apply andb_true_iff in H.
  destruct H as [Hc Hb]. now rewrite IH, Hc.
Qed.

Lemma rstrip_pad (s b : string) :
  all_chars Py.isspace b = true ->
  Py.rstrip_by Py.isspace (s +:+ b) = Py.rstrip_by Py.isspace s.
Proof.
  intros Hb. induction s as [|c s IH]; [now apply rstrip_all_space|].
  change (Py.rstrip_by Py.isspace (String c (s +:+ b))
          = Py.rstrip_by Py.isspace (String c s)).
  cbn [Py.rstrip_by]. now rewrite IH.
Qed.

Lemma lstrip_app (s b : string) :
  all_chars Py.isspace b = true ->
  Py.rstrip_by Py.isspace (Py.lstrip_by Py.isspace (s +:+ b))
  = Py.rstrip_by Py.isspace (Py.lstrip_by Py.isspace s).
Proof.
  intros Hb. induction s as [|c s IH].
  - change ("" +:+ b) with b. cbn [Py.lstrip_by].
    rewrite (lstrip_all_space b Hb). reflexivity.
  - change (String c s +:+ b) with (String c (s +:+ b)). cbn [Py.lstrip_by].
    destruct (Py.isspace c); [exact IH|].
    now apply (rstrip_pad (String c s) b).
Qed.

Lemma strip_pad (a s b : string) :
  all_chars Py.isspace a = true -> all_chars Py.isspace b = true ->
  Py.strip (a +:+ s +:+ b) = Py.strip s.
Proof.
  intros Ha Hb. unfold Py.strip, Py.strip_by.
  rewrite lstrip_pad by assumption. now apply lstrip_app.
Qed.

(** Whitespace around the submitted text changes nothing: the text
    operation gives the same record, on the same random draws, as for the
    text without it. *)
Theorem evaluate_text_only_ignores_padding (a t b : string) (g : rng) :
  all_chars Py.isspace a = true ->
  all_chars Py.isspace b = true ->
  evaluate_text_only {| input_transcription := a +:+ t +:+ b |} g
  = evaluate_text_only {| input_transcription := t |} g.
Proof.
  intros Ha Hb.
  unfold evaluate_text_only, evaluate_text_only_with, evaluate_text_only_body.
  cbn [input_transcription]. now rewrite strip_pad.
Qed.

Lemma evaluate_text_only_ignores_padding_witness :
  evaluate_text_only {| input_transcription := "  I am certain we can do this. " |} rng0
  = evaluate_text_only {| input_transcription := "I am certain we can do this." |} rng0.
Proof.
  apply (evaluate_text_only_ignores_padding "  " "I am certain we can do this." " ");
    reflexivity.
Defined.

(** With the other inputs fixed, a larger word count never lowers the
    pre-jitter clarity or articulation score. *)
Theorem more_words_never_lower
    (t : string) (wc wc' : Z) (avg vd : Q) (sa : SpeechAnalysis) :
  wc <= wc' ->
  calculate_enhanced_clarity_score t wc avg sa
    <= calculate_enhanced_clarity_score t wc' avg sa
  /\ calculate_enhanced_articulation_score t wc vd sa
     <= calculate_enhanced_articulation_score t wc' vd sa.
Proof.
  intros Hle. split.
  - unfold calculate_enhanced_clarity_score. cbv zeta.
    generalize (bonus_per_hit 4 clarity_indicators (Py.lower t)).
    generalize (Py.int (quality_rating sa * 10)).
    generalize (Z.min 15 (filler_word_count sa * 2)).
    intros p qb clb.
    destruct (between 8 avg 18), (between 5 avg 25);
      destruct (Z.geb_spec wc 25), (Z.geb_spec wc 15),
        (Z.geb_spec wc' 25), (Z.geb_spec wc' 15); lia.
  - unfold calculate_enhanced_articulation_score. cbv zeta.
    generalize (bonus_per_hit 4 articulation_words (Py.lower t)).
    generalize (Py.int (complexity_score sa * 15)).
    generalize (Py.int (flow_score sa * 10)).
    intros fb cb ab.
    assert (Hbase :
      (if wc >=? 35 then 65 + 12 else if wc >=? 25 then 65 + 8
       else if wc >=? 15 then 65 + 4 else 65)
      <= (if wc' >=? 35 then 65 + 12 else if wc' >=? 25 then 65 + 8
          else if wc' >=? 15 then 65 + 4 else 65)).
    { destruct (Z.geb_spec wc 35), (Z.geb_spec wc 25), (Z.geb_spec wc 15); try lia;
        destruct (Z.geb_spec wc' 35), (Z.geb_spec wc' 25), (Z.geb_spec wc' 15); lia. }
    revert Hbase.
    generalize (if wc >=? 35 then 65 + 12 else if wc >=? 25 then 65 + 8
                else if wc >=? 15 then 65 + 4 else 65).
    generalize (if wc' >=? 35 then 65 + 12 else if wc' >=? 25 then 65 + 8
                else if wc' >=? 15 then 65 + 4 else 65).
    intros base' base Hbase.
    destruct (Qgt_bool vd (8 # 10)), (Qgt_bool vd (6 # 10)), (Qgt_bool vd (4 # 10)),
      (Qlt_bool (flow_score sa) (3 # 10)),
      (has_questions sa), (has_exclamations sa); lia.
Qed.

Lemma more_words_never_lower_witness :
  calculate_enhanced_clarity_score "" 10 0 blank_features
  <= calculate_enhanced_clarity_score "" 30 0 blank_features.
Proof.
  destruct (more_words_never_lower "" 10 30 0 0 blank_features) as [H _]; [lia|].
  exact H.
Defined.
